(** * ianphil/tools: the metadata harvester and its renderers

    A shallow embedding of [gather_links.py], [build_by_month.py],
    [build_index.py], [build_colophon.py] and [build_dates.py], followed by
    the properties of the pipeline that the specification states.

    Conventions of the embedding.
    - A Python [str] is a [string]; its characters are the code points below
      256.  [len], slicing, [strip], [split], [startswith] and the comparison
      of strings are the functions of [PyStr]; comparison is code point by
      code point, as in Python.
    - A Python [dict] is an association list in insertion order
      ([PyDict]); [sorted] and [list.sort] are a stable insertion sort
      ([PySort]), which is what a stable sort computes whatever its
      algorithm.
    - A function that can raise returns a [result]; the files a run reads and
      writes are the fields of [FS], and writing one succeeds; what it prints
      is a list of lines.
    - The outcome of a [git] query is a [process]: the child ran and wrote
      text, it ran and wrote bytes that do not decode, or it could not be
      started. *)

From Stdlib Require Import List String Ascii Bool Arith ZArith Lia.
From Stdlib Require Import Permutation Sorted DecimalString.
Import ListNotations.

Local Open Scope list_scope.
Local Open Scope string_scope.

Set Implicit Arguments.

(* ================================================================== *)
(** * Python strings *)
(* ================================================================== *)

Module PyStr.

(** The double quote and the line feed, which the sources write inside
    their literals. *)
Definition dq : string := String "034"%char EmptyString.
Definition nl : string := String "010"%char EmptyString.

Definition is_empty (s : string) : bool :=
  match s with EmptyString => true | String _ _ => false end.

(** [bool(s)] for a string: true when it is not empty. *)
Definition truthy (s : string) : bool := negb (is_empty s).

(** [str.isspace] on one character (code points below 256). *)
Definition py_isspace (c : ascii) : bool :=
  let n := nat_of_ascii c in
  (((9 <=? n) && (n <=? 13)) || ((28 <=? n) && (n <=? 32))
   || (n =? 133) || (n =? 160))%nat.

Fixpoint lstrip (s : string) : string :=
  match s with
  | EmptyString => EmptyString
  | String c r => if py_isspace c then lstrip r else s
  end.

Fixpoint rstrip (s : string) : string :=
  match s with
  | EmptyString => EmptyString
  | String c r =>
      let r' := rstrip r in
      if is_empty r' && py_isspace c then EmptyString else String c r'
  end.

(** [s.strip()] *)
Definition strip (s : string) : string := rstrip (lstrip s).

(** [s[:n]] *)
Fixpoint take (n : nat) (s : string) : string :=
  match n, s with
  | S k, String c r => String c (take k r)
  | _, _ => EmptyString
  end.

(** [s[n:]] *)
Fixpoint drop (n : nat) (s : string) : string :=
  match n, s with
  | S k, String _ r => drop k r
  | _, _ => s
  end.

(** [s.startswith(p)] *)
Definition startswith (p s : string) : bool := String.prefix p s.

(** [s.split(sep)] for a separator of one character. *)
Fixpoint split (sep : ascii) (s : string) : list string :=
  match s with
  | EmptyString => [EmptyString]
  | String c r =>
      if Ascii.eqb c sep then EmptyString :: split sep r
      else match split sep r with
           | h :: t => String c h :: t
           | [] => [String c EmptyString]
           end
  end.

(** [s.split(sep, maxsplit)] for a separator of one character. *)
Fixpoint split_max (sep : ascii) (s : string) (maxsplit : nat) : list string :=
  match maxsplit with
  | 0 => [s]
  | S m =>
      match s with
      | EmptyString => [EmptyString]
      | String c r =>
          if Ascii.eqb c sep then EmptyString :: split_max sep r m
          else match split_max sep r maxsplit with
               | h :: t => String c h :: t
               | [] => [String c EmptyString]
               end
      end
  end.

(** [sep.join(parts)] *)
Definition join (sep : string) (parts : list string) : string :=
  String.concat sep parts.

(** The longest prefix whose characters all satisfy [p], and the rest. *)
Fixpoint span (p : ascii -> bool) (s : string) : string * string :=
  match s with
  | EmptyString => (EmptyString, EmptyString)
  | String c r =>
      if p c then let '(a, b) := span p r in (String c a, b)
      else (EmptyString, s)
  end.

(** ASCII lower case, for [re.IGNORECASE] on an ASCII pattern. *)
Definition lower (c : ascii) : ascii :=
  let n := nat_of_ascii c in
  if ((65 <=? n) && (n <=? 90))%nat then ascii_of_nat (n + 32) else c.

(** [p] matches at the start of [s], letters compared without case. *)
Fixpoint iprefix (p s : string) : bool :=
  match p, s with
  | EmptyString, _ => true
  | String a p', String b s' => Ascii.eqb (lower a) (lower b) && iprefix p' s'
  | String _ _, EmptyString => false
  end.

(** [str(n)] for a natural number. *)
Definition of_nat (n : nat) : string := NilZero.string_of_uint (Nat.to_uint n).

(** Order of strings: [a <= b] and [a < b] in Python. *)
Definition le (a b : string) : Prop := String.leb a b = true.
Definition lt (a b : string) : Prop := String.ltb a b = true.

End PyStr.

(* ================================================================== *)
(** * Python's stable sort *)
(* ================================================================== *)

Module PySort.
Section Sort.
Variable A : Type.
Variable key : A -> string.

(** [x] goes before the first element whose key is not smaller
    (ascending) or not larger (descending, [reverse=True]): an element
    never overtakes one with an equal key that came before it. *)
Definition goes_before (reverse : bool) (x y : A) : bool :=
  if reverse then String.leb (key y) (key x)
  else String.leb (key x) (key y).

(** The order the sort establishes between an element and a later one. *)
Definition ordered (reverse : bool) (x y : A) : Prop :=
  goes_before reverse x y = true.

Fixpoint insert (reverse : bool) (x : A) (l : list A) : list A :=
  match l with
  | [] => [x]
  | y :: r =>
      if goes_before reverse x y then x :: l
      else y :: insert reverse x r
  end.

(** [sorted(l, key=key, reverse=reverse)] *)
Fixpoint sorted (reverse : bool) (l : list A) : list A :=
  match l with
  | [] => []
  | x :: r => insert reverse x (sorted reverse r)
  end.
End Sort.
End PySort.

(* ================================================================== *)
(** * Python dictionaries, in insertion order *)
(* ================================================================== *)

Module PyDict.
Section Dict.
Variable V : Type.

Definition dict := list (string * V).

(** [d.get(k)] *)
Fixpoint get (k : string) (d : dict) : option V :=
  match d with
  | [] => None
  | (k', v) :: r => if String.eqb k k' then Some v else get k r
  end.

(** [d[k] = v]: a key that is present keeps its place. *)
Fixpoint set (k : string) (v : V) (d : dict) : dict :=
  match d with
  | [] => [(k, v)]
  | (k', v') :: r =>
      if String.eqb k k' then (k', v) :: r else (k', v') :: set k v r
  end.

(** [d.keys()] *)
Definition keys (d : dict) : list string := map fst d.
End Dict.
End PyDict.

(* ================================================================== *)
(** * Python sets of strings *)
(* ================================================================== *)

(** [list(set(xs))] lists the keys of a hash table slot by slot.  The slot
    of a string is computed from its hash, and CPython salts the hash of
    strings with a value drawn when the interpreter starts, so the hash
    function is a parameter of one run.  The table is the open-addressing
    table of CPython's [setobject.c]: eight slots at first, a run of linear
    probes where it fits, then the perturbed recurrence; the table is
    rebuilt when it is three fifths full. *)

Module PySet.

Definition PySet_MINSIZE : Z := 8.
Definition LINEAR_PROBES : Z := 9.
Definition PERTURB_SHIFT : Z := 5.

(** A slot holds a key and its hash, or nothing. *)
Definition entry := option (string * Z).

Record setobject := {
  fill : Z;
  mask : Z;
  table : list entry
}.

Definition empty_set : setobject :=
  {| fill := 0; mask := PySet_MINSIZE - 1;
     table := repeat None (Z.to_nat PySet_MINSIZE) |}.

(** [(size_t)hash] *)
Definition as_size_t (h : Z) : Z := h mod 2 ^ 64.

Definition slot (t : list entry) (i : Z) : entry :=
  nth (Z.to_nat i) t None.

Fixpoint store (t : list entry) (i : nat) (e : entry) : list entry :=
  match t, i with
  | [], _ => []
  | _ :: r, 0 => e :: r
  | x :: r, S k => x :: store r k e
  end.

Inductive found := Active | Unused (i : Z).

(** The slots [i], [i+1], ..., [i+probes] in turn. *)
Fixpoint linear (t : list entry) (key : string) (h : Z) (i : Z)
    (probes : nat) : option found :=
  match slot t i with
  | None => Some (Unused i)
  | Some (k, h') =>
      if (h' =? h)%Z && String.eqb k key then Some Active
      else match probes with
           | 0 => None
           | S p => linear t key h (i + 1) p
           end
  end.

Fixpoint first_free (t : list entry) (i : Z) : Z :=
  match t with
  | [] => i
  | None :: _ => i
  | Some _ :: r => first_free r (i + 1)
  end.

(** The probe loop of [set_add_entry].  [fuel] bounds the number of
    rounds; a table always has a free slot, and when the bound is reached
    the first free slot is taken. *)
Fixpoint probe (fuel : nat) (t : list entry) (msk : Z) (key : string)
    (h : Z) (i perturb : Z) : found :=
  match fuel with
  | 0 => Unused (first_free t 0)
  | S f =>
      let probes := if (i + LINEAR_PROBES <=? msk)%Z
                    then Z.to_nat LINEAR_PROBES else 0 in
      match linear t key h i probes with
      | Some r => r
      | None =>
          let perturb' := Z.shiftr perturb PERTURB_SHIFT in
          probe f t msk key h (Z.land (i * 5 + 1 + perturb') msk) perturb'
      end
  end.

Definition lookup (t : list entry) (msk : Z) (key : string) (h : Z) : found :=
  probe (64 + 2 * List.length t) t msk key h
        (Z.land (as_size_t h) msk) (as_size_t h).

(** [set_insert_clean]: the key is known to be absent. *)
Definition insert_clean (msk : Z) (t : list entry) (e : entry) : list entry :=
  match e with
  | None => t
  | Some (k, h) =>
      match lookup t msk k h with
      | Unused i => store t (Z.to_nat i) e
      | Active => t
      end
  end.

(** The least power of two, from [PySet_MINSIZE] on, above [minused]. *)
Fixpoint grow (fuel : nat) (newsize minused : Z) : Z :=
  match fuel with
  | 0 => newsize
  | S f => if (newsize <=? minused)%Z then grow f (2 * newsize) minused
           else newsize
  end.

(** [set_table_resize]: the entries are put into the new table in the
    order of their slots. *)
Definition resize (so : setobject) (minused : Z) : setobject :=
  let newsize := grow 64 PySet_MINSIZE minused in
  let fresh := repeat None (Z.to_nat newsize) in
  {| fill := so.(fill); mask := newsize - 1;
     table := fold_left (insert_clean (newsize - 1)) so.(table) fresh |}.

(** [set_add_entry] *)
Definition add (hash : string -> Z) (so : setobject) (key : string)
    : setobject :=
  let h := hash key in
  match lookup so.(table) so.(mask) key h with
  | Active => so
  | Unused i =>
      let so' := {| fill := so.(fill) + 1; mask := so.(mask);
                    table := store so.(table) (Z.to_nat i) (Some (key, h)) |} in
      if (so'.(fill) * 5 <? so'.(mask) * 3)%Z then so'
      else resize so' (if (50000 <? so'.(fill))%Z then so'.(fill) * 2
                       else so'.(fill) * 4)
  end.

(** [set(xs)] *)
Definition of_list (hash : string -> Z) (xs : list string) : setobject :=
  fold_left (add hash) xs empty_set.

(** Iteration over a set: the keys of the slots in use, slot by slot. *)
Definition to_list (so : setobject) : list string :=
  flat_map (fun e => match e with Some (k, _) => [k] | None => [] end)
           so.(table).

End PySet.

(* ================================================================== *)
(** * The data model and the files of a run *)
(* ================================================================== *)

Module Data.

(** One entry of the list under the key commits. *)
Record Commit := {
  hash : string;
  date : string;
  message : string;
  urls : list string
}.

(** One value of [gathered_links.json]. *)
Record History := {
  file : string;
  commits : list Commit;
  all_urls : list string
}.

(** One element of [tools.json]. *)
Record Tool := {
  slug : string;
  title : string;
  description : string;
  url : string;
  created : string;
  updated : string
}.

(** The files the scripts read and write, [None] when the file does not
    exist.  The two JSON files hold the value that [json.dumps] writes and
    [json.loads] reads back. *)
Record FS := {
  README_md : option string;
  tools_json : option (list Tool);
  gathered_links_json : option (PyDict.dict History);
  dates_json : option (PyDict.dict string);
  index_html : option string;
  by_month_html : option string;
  colophon_html : option string
}.

(** Exceptions that leave a function. *)
Inductive exn :=
| CalledProcessError (returncode : Z)
| UnicodeDecodeError
| OSError.

Inductive result (A : Type) :=
| Ok (a : A)
| Raise (e : exn).
Arguments Ok {A} a.
Arguments Raise {A} e.

Definition bind {A B} (r : result A) (k : A -> result B) : result B :=
  match r with
  | Ok a => k a
  | Raise e => Raise e
  end.

Definition Tool_eq_dec (a b : Tool) : {a = b} + {a <> b}.
Proof. decide equality; apply string_dec. Defined.

End Data.

Notation "x <- r ;; k" := (Data.bind r (fun x => k))
  (at level 61, r at next level, right associativity).

(* ================================================================== *)
(** * gather_links.py *)
(* ================================================================== *)

Module GatherLinks.
Import PyStr Data.

Definition EXCLUDED_FILES : list string :=
  ["index.html"; "colophon.html"; "by-month.html"].

(** How the child of [subprocess.run] ends: it ran and left a return code
    and bytes that decode to the text [stdout]; it ran and left a return
    code and bytes, on its output or its error stream, that are no text in
    the encoding of the locale; or it could not be started. *)
Inductive process :=
| Exited (returncode : Z) (stdout : string)
| Undecodable (returncode : Z)
| NotStarted.

(** The translation of line ends that [text=True] applies to the decoded
    text: first every carriage return that a line feed follows is dropped,
    then every carriage return left becomes a line feed. *)
Fixpoint replace_crlf (s : string) : string :=
  match s with
  | EmptyString => EmptyString
  | String c r =>
      if Ascii.eqb c "013"
      then match r with
           | String c2 r2 =>
               if Ascii.eqb c2 "010" then String "010" (replace_crlf r2)
               else String c (replace_crlf r)
           | EmptyString => String c EmptyString
           end
      else String c (replace_crlf r)
  end.

Fixpoint replace_cr (s : string) : string :=
  match s with
  | EmptyString => EmptyString
  | String c r => String (if Ascii.eqb c "013" then "010"%char else c) (replace_cr r)
  end.

Definition translate_newlines (s : string) : string :=
  replace_cr (replace_crlf s).

(** [subprocess.run(..., capture_output=True, text=True, check=True)]:
    the output is decoded, and its line ends translated, when the child has
    ended and before its return code is looked at, so that output which
    does not decode raises whatever the return code is. *)
Definition subprocess_run (p : process) : result string :=
  match p with
  | Exited rc out =>
      let stdout := translate_newlines out in
      if (rc =? 0)%Z then Ok stdout else Raise (CalledProcessError rc)
  | Undecodable _ => Raise UnicodeDecodeError
  | NotStarted => Raise OSError
  end.

(** What a run reads besides the files of [FS]: the names that
    the glob of the pages yields, the outcome of the [git log] of a path, the
    text of a page ([None] when reading it raises) and the companion
    document of a slug. *)
Inductive docs_file :=
| Absent
| Unreadable
| Text (content : string).

Record Repo := {
  glob_html : list string;
  git_log : string -> process;
  html_text : string -> option string;
  docs_md : string -> docs_file
}.

(** A character the URL pattern accepts after the scheme: neither white
    space, nor an angle bracket, nor a double quote. *)
Definition url_char (c : ascii) : bool :=
  negb (py_isspace c || Ascii.eqb c "<" || Ascii.eqb c ">"
        || Ascii.eqb c "034").

(** The URL pattern at the start of [s] (http or https, the scheme
    separator, then one accepted character or more): the text matched. *)
Definition match_url (s : string) : option string :=
  let after scheme :=
    if String.prefix scheme s then
      let '(body, _) := span url_char (drop (String.length scheme) s) in
      if is_empty body then None else Some (scheme ++ body)
    else None in
  match after "https://" with
  | Some m => Some m
  | None => after "http://"
  end.

(** [re.findall]: the matches from left to right, none overlapping;
    [skip] counts the characters of the last match still to pass. *)
Fixpoint findall_urls_from (skip : nat) (s : string) : list string :=
  match s with
  | EmptyString => []
  | String _ r =>
      match skip with
      | S k => findall_urls_from k r
      | 0 =>
          match match_url s with
          | Some m => m :: findall_urls_from (String.length m - 1) r
          | None => findall_urls_from 0 r
          end
      end
  end.

Definition findall_urls (s : string) : list string := findall_urls_from 0 s.

Definition parse_line (line : string) : list Commit :=
  if is_empty line then []
  else match split_max "|" line 2 with
       | [hash_; date_; message_] =>
           [{| hash := hash_; date := date_; message := message_;
               urls := findall_urls message_ |}]
       | _ => []
       end.

Definition get_file_commit_details (p : process) : result (list Commit) :=
  match subprocess_run p with
  | Raise (CalledProcessError _) => Ok []
  | Raise e => Raise e
  | Ok stdout => Ok (flat_map parse_line (split "010" (strip stdout)))
  end.

(** [Path.stem]: the name up to its last dot, when that dot is neither the
    first nor the last character. *)
Fixpoint rfind_dot (s : string) : option nat :=
  match s with
  | EmptyString => None
  | String c r =>
      match rfind_dot r with
      | Some i => Some (S i)
      | None => if Ascii.eqb c "." then Some 0 else None
      end
  end.

Definition stem (name : string) : string :=
  match rfind_dot name with
  | Some i => if ((0 <? i) && (i <? String.length name - 1))%nat
              then take i name else name
  | None => name
  end.

(** [<title>([^<]+)</title>] at the start of [s], without case: group 1. *)
Definition match_title (s : string) : option string :=
  if iprefix "<title>" s then
    let '(body, rest) := span (fun c => negb (Ascii.eqb c "<")) (drop 7 s) in
    if is_empty body then None
    else if iprefix "</title>" rest then Some body else None
  else None.

(** [re.search]: the leftmost match. *)
Fixpoint search_title (s : string) : option string :=
  match s with
  | EmptyString => None
  | String _ r =>
      match match_title s with
      | Some g => Some g
      | None => search_title r
      end
  end.

Definition extract_title (repo : Repo) (html_path : string) : string :=
  match repo.(html_text) html_path with
  | Some content =>
      match search_title content with
      | Some g => strip g
      | None => stem html_path
      end
  | None => stem html_path
  end.

(** The loop of [extract_description] over the lines that remain. *)
Fixpoint first_paragraph (lines : list string) (in_paragraph : bool)
    (paragraph : list string) : list string :=
  match lines with
  | [] => paragraph
  | line :: rest =>
      let stripped := strip line in
      if startswith "#" stripped then first_paragraph rest in_paragraph paragraph
      else if truthy stripped then
        first_paragraph rest true (paragraph ++ [stripped])%list
      else if in_paragraph then paragraph
      else first_paragraph rest in_paragraph paragraph
  end.

Definition extract_description (docs : docs_file) : string :=
  match docs with
  | Absent => EmptyString
  | Unreadable => EmptyString
  | Text content =>
      join " " (first_paragraph (split "010" (strip content)) false [])
  end.

(** The two values the loop of [gather_links] builds. *)
Record acc := {
  gathered_links : PyDict.dict History;
  tools : list Tool
}.

Section Run.
(** The hash of strings in this run of the interpreter. *)
Variable str_hash : string -> Z.
Variable repo : Repo.

(** The value stored under the slug in [gathered_links]. *)
Definition history_entry (html_path : string) (cs : list Commit) : History :=
  {| file := html_path;
     commits := cs;
     all_urls := PySet.to_list (PySet.of_list str_hash (flat_map urls cs)) |}.

(** The record appended to [tools]. *)
Definition tool_record (html_path : string) (cs : list Commit) : Tool :=
  let slug_ := stem html_path in
  {| slug := slug_;
     title := extract_title repo html_path;
     description := extract_description (repo.(docs_md) (slug_ ++ ".docs.md"));
     url := html_path;
     created := last (map date cs) EmptyString;
     updated := hd EmptyString (map date cs) |}.

(** One round of the loop over [html_files]. *)
Definition visit (st : acc) (html_path : string) : result acc :=
  if existsb (String.eqb html_path) EXCLUDED_FILES then Ok st
  else
    cs <- get_file_commit_details (repo.(git_log) html_path) ;;
    match cs with
    | [] => Ok st
    | _ :: _ =>
        Ok {| gathered_links :=
                PyDict.set (stem html_path) (history_entry html_path cs)
                           st.(gathered_links);
              tools := (st.(tools) ++ [tool_record html_path cs])%list |}
    end.

Fixpoint visit_all (st : acc) (html_files : list string) : result acc :=
  match html_files with
  | [] => Ok st
  | p :: rest => st' <- visit st p ;; visit_all st' rest
  end.

(** What [gather_links] has computed when it starts to write. *)
Definition gathered : result acc :=
  let html_files := PySort.sorted (fun n => n) false repo.(glob_html) in
  st <- visit_all {| gathered_links := []; tools := [] |} html_files ;;
  Ok {| gathered_links := st.(gathered_links);
        tools := PySort.sorted created true st.(tools) |}.

(** [gather_links()]: the files after the run and the lines printed. *)
Definition gather_links (fs : FS) : result (FS * list string) :=
  st <- gathered ;;
  Ok ({| README_md := fs.(README_md);
         tools_json := Some st.(tools);
         gathered_links_json := Some st.(gathered_links);
         dates_json := fs.(dates_json);
         index_html := fs.(index_html);
         by_month_html := fs.(by_month_html);
         colophon_html := fs.(colophon_html) |},
      ["Gathered metadata for " ++ of_nat (List.length st.(tools)) ++ " tools"]).
End Run.

End GatherLinks.

(* ================================================================== *)
(** * build_by_month.py *)
(* ================================================================== *)

Module BuildByMonth.
Import PyStr Data.

(** A quoted attribute value. *)
Definition q (s : string) : string := dq ++ s ++ dq.

(** The loop body of the grouping: [by_month[year_month].append(tool)] on
    a [defaultdict(list)]. *)
Definition add_tool (by_month : PyDict.dict (list Tool)) (tool : Tool)
    : PyDict.dict (list Tool) :=
  let created_ := tool.(created) in
  if truthy created_ then
    let year_month := take 7 created_ in
    let bucket := match PyDict.get year_month by_month with
                  | Some l => l
                  | None => []
                  end in
    PyDict.set year_month (bucket ++ [tool])%list by_month
  else by_month.

Definition group_by_month (tools : list Tool) : PyDict.dict (list Tool) :=
  fold_left add_tool tools [].

Definition sorted_months (by_month : PyDict.dict (list Tool)) : list string :=
  PySort.sorted (fun k => k) true (PyDict.keys by_month).

Definition bucket_of (by_month : PyDict.dict (list Tool)) (ym : string)
    : list Tool :=
  match PyDict.get ym by_month with
  | Some l => l
  | None => []
  end.

(** The months in the order they are emitted, each with its tools in the
    order they are emitted ([month_tools] after [month_tools.sort]). *)
Definition month_buckets (tools : list Tool) : list (string * list Tool) :=
  let by_month := group_by_month tools in
  map (fun ym => (ym, PySort.sorted created false (bucket_of by_month ym)))
      (sorted_months by_month).

(** The text put into the description span. *)
Definition short_desc (description_ : string) : string :=
  if (150 <? String.length description_)%nat
  then take 150 description_ ++ "..."
  else description_.

Definition description_html (description_ : string) : string :=
  if truthy description_ then
    "<span class=" ++ q "tool-description" ++ ">" ++ short_desc description_
    ++ "</span>" ++ nl
  else EmptyString.

Definition tool_html (tool : Tool) : string :=
  "<div class=" ++ q "tool-item" ++ ">" ++ nl
  ++ "<a href=" ++ q tool.(url) ++ ">" ++ tool.(title) ++ "</a>" ++ nl
  ++ description_html tool.(description)
  ++ "<span class=" ++ q "tool-links" ++ "><a href="
  ++ q ("colophon.html#" ++ tool.(slug)) ++ ">history</a></span>" ++ nl
  ++ "</div>" ++ nl.

Section Render.
(** [datetime.strptime(ym, ...).strftime(...)] inside [format_month],
    whose month names depend on the locale, and the template up to the
    table of contents, which is styling. *)
Variable format_month : string -> string.
Variable HTML_TEMPLATE_head : string.

Definition toc_item (by_month : PyDict.dict (list Tool)) (ym : string)
    : string :=
  "<li><a href=" ++ q ("#month-" ++ ym) ++ ">" ++ format_month ym
  ++ "</a> (" ++ of_nat (List.length (bucket_of by_month ym)) ++ ")</li>".

Definition toc_html (by_month : PyDict.dict (list Tool)) : string :=
  "<div class=" ++ q "toc" ++ ">" ++ nl ++ "<strong>Jump to:</strong>" ++ nl
  ++ "<ul>" ++ nl
  ++ join nl (map (toc_item by_month) (sorted_months by_month))
  ++ nl ++ "</ul>" ++ nl ++ "</div>".

Definition month_html (b : string * list Tool) : string :=
  let '(ym, month_tools) := b in
  "<div class=" ++ q "month-section" ++ ">" ++ nl
  ++ "<h2 id=" ++ q ("month-" ++ ym) ++ ">" ++ format_month ym ++ "</h2>" ++ nl
  ++ String.concat EmptyString (map tool_html month_tools)
  ++ "</div>" ++ nl.

Definition HTML_TEMPLATE (toc content : string) : string :=
  HTML_TEMPLATE_head ++ toc ++ nl ++ "    " ++ content ++ nl
  ++ "</body>" ++ nl ++ "</html>" ++ nl.

Definition render (tools : list Tool) : string :=
  HTML_TEMPLATE (toc_html (group_by_month tools))
                (join nl (map month_html (month_buckets tools))).

(** [build_by_month()]: the files after the run and the lines printed. *)
Definition build_by_month (fs : FS) : FS * list string :=
  match fs.(tools_json) with
  | None => (fs, ["tools.json not found - run gather_links.py first"])
  | Some tools =>
      ({| README_md := fs.(README_md);
          tools_json := fs.(tools_json);
          gathered_links_json := fs.(gathered_links_json);
          dates_json := fs.(dates_json);
          index_html := fs.(index_html);
          by_month_html := Some (render tools);
          colophon_html := fs.(colophon_html) |},
       ["Built by-month.html with "
        ++ of_nat (List.length (sorted_months (group_by_month tools)))
        ++ " months"])
  end.
End Render.

End BuildByMonth.

(* ================================================================== *)
(** * build_dates.py *)
(* ================================================================== *)

Module BuildDates.
Import PyStr Data.

Definition add_date (dates : PyDict.dict string) (item : string * History)
    : PyDict.dict string :=
  let '(_, data) := item in
  match data.(commits) with
  | [] => dates
  | c :: _ => PyDict.set data.(file) (take 10 c.(date)) dates
  end.

Definition project (gathered : PyDict.dict History) : PyDict.dict string :=
  fold_left add_date gathered [].

(** [build_dates()] *)
Definition build_dates (fs : FS) : FS * list string :=
  match fs.(gathered_links_json) with
  | None => (fs, ["gathered_links.json not found - run gather_links.py first"])
  | Some gathered =>
      let dates := project gathered in
      ({| README_md := fs.(README_md);
          tools_json := fs.(tools_json);
          gathered_links_json := fs.(gathered_links_json);
          dates_json := Some dates;
          index_html := fs.(index_html);
          by_month_html := fs.(by_month_html);
          colophon_html := fs.(colophon_html) |},
       ["Built dates.json with " ++ of_nat (List.length dates) ++ " entries"])
  end.

End BuildDates.

(* ================================================================== *)
(** * build_index.py *)
(* ================================================================== *)

Module BuildIndex.
Import PyStr Data.

Definition q := BuildByMonth.q.

Definition RECENT_LIMIT : nat := 5.

Definition format_date (iso_date : string) : string :=
  if is_empty iso_date then EmptyString else take 10 iso_date.

(** [sorted(tools, key=created, reverse=True)[:RECENT_LIMIT]] *)
Definition by_created (tools : list Tool) : list Tool :=
  firstn RECENT_LIMIT (PySort.sorted created true tools).

Definition by_updated (tools : list Tool) : list Tool :=
  PySort.sorted updated true tools.

(** [tool[slug] not in recently_added_slugs]: membership in a set is
    membership among the elements it was built from. *)
Definition not_in (s : string) (slugs : list string) : bool :=
  negb (existsb (String.eqb s) slugs).

(** The loop that fills [recently_updated], with its [break]. *)
Fixpoint collect_updated (recently_added_slugs : list string)
    (pool : list Tool) (recently_updated : list Tool) : list Tool :=
  match pool with
  | [] => recently_updated
  | tool :: rest =>
      if not_in tool.(slug) recently_added_slugs then
        let recently_updated' := (recently_updated ++ [tool])%list in
        if (RECENT_LIMIT <=? List.length recently_updated')%nat
        then recently_updated'
        else collect_updated recently_added_slugs rest recently_updated'
      else collect_updated recently_added_slugs rest recently_updated
  end.

Definition recently_updated (tools : list Tool) : list Tool :=
  collect_updated (map slug (by_created tools)) (by_updated tools) [].

Definition item_html (date_of : Tool -> string) (tool : Tool) : string :=
  let date_ := format_date (date_of tool) in
  "<li><a href=" ++ q tool.(url) ++ ">" ++ tool.(title) ++ "</a>"
  ++ (if truthy date_
      then " <span class=" ++ q "recent-date" ++ ">(" ++ date_ ++ ")</span>"
      else EmptyString)
  ++ "</li>" ++ nl.

Definition added_html (added : list Tool) : string :=
  "<h2>Recently Added</h2>" ++ nl ++ "<ul>" ++ nl
  ++ String.concat EmptyString (map (item_html created) added)
  ++ "</ul>" ++ nl.

Definition updated_html (upd : list Tool) : string :=
  match upd with
  | [] => EmptyString
  | _ :: _ =>
      "<h2>Recently Updated</h2>" ++ nl ++ "<ul>" ++ nl
      ++ String.concat EmptyString (map (item_html updated) upd)
      ++ "</ul>" ++ nl
  end.

Definition build_recent_section (tools : list Tool) : string :=
  match tools with
  | [] => EmptyString
  | _ :: _ =>
      "<div class=" ++ q "recent-section" ++ ">" ++ nl
      ++ added_html (by_created tools)
      ++ updated_html (recently_updated tools)
      ++ "</div>"
  end.

(** The title: the first line that starts with a hash and a space. *)
Fixpoint first_h1 (lines : list string) (default : string) : string :=
  match lines with
  | [] => default
  | line :: rest =>
      if startswith "# " line then strip (drop 2 line)
      else first_h1 rest default
  end.

Definition start_marker : string := "<!-- recently starts -->".
Definition end_marker : string := "<!-- recently stops -->".

(** [s.find(sub)], [None] for -1. *)
Definition find (sub s : string) : option nat := String.index 0 sub s.

(** The body with the digest put in. *)
Definition inject (body_html recent_html : string) : string :=
  match find start_marker body_html, find end_marker body_html with
  | Some i, Some end_idx =>
      let start_idx := i + String.length start_marker in
      take start_idx body_html ++ nl ++ recent_html ++ nl
      ++ drop end_idx body_html
  | _, _ =>
      if truthy recent_html then
        match find "</h1>" body_html with
        | Some first_heading_end =>
            let insert_pos := first_heading_end + 5 in
            take insert_pos body_html ++ nl ++ recent_html
            ++ drop insert_pos body_html
        | None => body_html
        end
      else body_html
  end.

Section Render.
(** The converter of the [markdown] package, and the two stretches of
    the template before the title and between the title and the body. *)
Variable markdown_convert : string -> string.
Variable HTML_TEMPLATE_head HTML_TEMPLATE_style : string.

Definition HTML_TEMPLATE (title_ body : string) : string :=
  HTML_TEMPLATE_head ++ title_ ++ HTML_TEMPLATE_style ++ body ++ nl
  ++ "<script type=" ++ q "module" ++ " src=" ++ q "homepage-search.js"
  ++ " data-tool-search></script>" ++ nl
  ++ "</body>" ++ nl ++ "</html>" ++ nl.

Definition render (md_content : string) (tools : option (list Tool))
    : string :=
  let title_ := first_h1 (split "010" md_content) "Tools" in
  let body_html := markdown_convert md_content in
  let recent_html := match tools with
                     | Some ts => build_recent_section ts
                     | None => EmptyString
                     end in
  HTML_TEMPLATE title_ (inject body_html recent_html).

(** [build_index()] *)
Definition build_index (fs : FS) : FS * list string :=
  match fs.(README_md) with
  | None => (fs, ["README.md not found"])
  | Some md_content =>
      ({| README_md := fs.(README_md);
          tools_json := fs.(tools_json);
          gathered_links_json := fs.(gathered_links_json);
          dates_json := fs.(dates_json);
          index_html := Some (render md_content fs.(tools_json));
          by_month_html := fs.(by_month_html);
          colophon_html := fs.(colophon_html) |},
       ["Built index.html"])
  end.
End Render.

End BuildIndex.

(* ================================================================== *)
(** * build_colophon.py *)
(* ================================================================== *)

Module BuildColophon.
Import PyStr Data.

Definition q := BuildByMonth.q.

Definition format_date (iso_date : string) : string :=
  if is_empty iso_date then EmptyString else take 10 iso_date.

(** [{t[slug]: t for t in tools}] *)
Definition tools_by_slug (tools : list Tool) : PyDict.dict Tool :=
  fold_left (fun d t => PyDict.set t.(slug) t d) tools [].

(** The sort key of a slug: the date of its newest commit. *)
Definition newest (gathered : PyDict.dict History) (s : string) : string :=
  match PyDict.get s gathered with
  | Some data => hd EmptyString (map date data.(commits))
  | None => EmptyString
  end.

Definition sorted_slugs (gathered : PyDict.dict History) : list string :=
  PySort.sorted (newest gathered) true (PyDict.keys gathered).

Definition urls_html (us : list string) : string :=
  match us with
  | [] => EmptyString
  | _ :: _ =>
      "<div class=" ++ q "commit-urls" ++ ">"
      ++ String.concat EmptyString
           (map (fun u => "<a href=" ++ q u ++ " target=" ++ q "_blank"
                          ++ ">Transcript</a> ") us)
      ++ "</div>" ++ nl
  end.

Definition commit_html (c : Commit) : string :=
  "<div class=" ++ q "commit" ++ ">" ++ nl
  ++ "<span class=" ++ q "commit-date" ++ ">" ++ format_date c.(date)
  ++ "</span> "
  ++ "<span class=" ++ q "commit-hash" ++ ">" ++ take 8 c.(hash)
  ++ "</span> "
  ++ c.(message) ++ nl
  ++ urls_html c.(urls)
  ++ "</div>" ++ nl.

(** The section of one slug; [info] is its record of [tools.json], when
    there is one. *)
Definition tool_html (slug_ : string) (data : History) (info : option Tool)
    : string :=
  let cs := data.(commits) in
  let title_ := match info with Some t => t.(title) | None => slug_ end in
  let description_ :=
    match info with Some t => t.(description) | None => EmptyString end in
  let n := of_nat (List.length cs) in
  "<div class=" ++ q "tool" ++ " id=" ++ q slug_ ++ ">" ++ nl
  ++ "<h2><a href=" ++ q data.(file) ++ ">" ++ title_ ++ "</a></h2>" ++ nl
  ++ match cs with
     | [] => EmptyString
     | _ :: _ =>
         "<div class=" ++ q "tool-meta" ++ ">Created: "
         ++ format_date (last (map date cs) EmptyString)
         ++ " | Updated: " ++ format_date (hd EmptyString (map date cs))
         ++ " | " ++ n ++ " commits</div>" ++ nl
     end
  ++ (if truthy description_
      then "<div class=" ++ q "description" ++ ">" ++ description_
           ++ "</div>" ++ nl
      else EmptyString)
  ++ match cs with
     | [] => EmptyString
     | _ :: _ =>
         "<details>" ++ nl ++ "<summary>Commit history (" ++ n
         ++ ")</summary>" ++ nl
         ++ String.concat EmptyString (map commit_html cs)
         ++ "</details>" ++ nl
     end
  ++ "</div>" ++ nl.

Section Render.
(** The template up to the content: styling. *)
Variable HTML_TEMPLATE_head : string.

Definition HTML_TEMPLATE (content : string) : string :=
  HTML_TEMPLATE_head ++ content ++ nl ++ "</body>" ++ nl ++ "</html>" ++ nl.

(** A slug of [sorted_slugs] is a key of [gathered], so the lookup
    finds it. *)
Definition content_part (gathered : PyDict.dict History)
    (by_slug : PyDict.dict Tool) (slug_ : string) : string :=
  match PyDict.get slug_ gathered with
  | Some data => tool_html slug_ data (PyDict.get slug_ by_slug)
  | None => EmptyString
  end.

Definition render (gathered : PyDict.dict History)
    (tools : option (list Tool)) : string :=
  let by_slug := match tools with
                 | Some ts => tools_by_slug ts
                 | None => []
                 end in
  HTML_TEMPLATE
    (join nl (map (content_part gathered by_slug) (sorted_slugs gathered))).

(** [build_colophon()] *)
Definition build_colophon (fs : FS) : FS * list string :=
  match fs.(gathered_links_json) with
  | None => (fs, ["gathered_links.json not found - run gather_links.py first"])
  | Some gathered =>
      ({| README_md := fs.(README_md);
          tools_json := fs.(tools_json);
          gathered_links_json := fs.(gathered_links_json);
          dates_json := fs.(dates_json);
          index_html := fs.(index_html);
          by_month_html := fs.(by_month_html);
          colophon_html := Some (render gathered fs.(tools_json)) |},
       ["Built colophon.html with "
        ++ of_nat (List.length (sorted_slugs gathered)) ++ " tools"])
  end.
End Render.

End BuildColophon.

(* ================================================================== *)
(** * The four renderers as one family *)
(* ================================================================== *)

Module Pipeline.
Import Data.

Inductive renderer := ByMonth | Colophon | Index | Dates.

Inductive input_file := README | ToolsJson | GatheredLinksJson.

Definition present (fs : FS) (f : input_file) : bool :=
  match f with
  | README => match fs.(README_md) with Some _ => true | None => false end
  | ToolsJson => match fs.(tools_json) with Some _ => true | None => false end
  | GatheredLinksJson =>
      match fs.(gathered_links_json) with Some _ => true | None => false end
  end.

(** The input a renderer tests for before anything else, leaving when it
    is not there. *)
Definition required (r : renderer) : input_file :=
  match r with
  | ByMonth => ToolsJson
  | Colophon => GatheredLinksJson
  | Index => README
  | Dates => GatheredLinksJson
  end.

(** The line a renderer prints when that input is missing. *)
Definition not_found (r : renderer) : string :=
  match r with
  | ByMonth => "tools.json not found - run gather_links.py first"
  | Colophon => "gathered_links.json not found - run gather_links.py first"
  | Index => "README.md not found"
  | Dates => "gathered_links.json not found - run gather_links.py first"
  end.

(** Whether the output document of a renderer exists. *)
Definition has_output (fs : FS) (r : renderer) : bool :=
  match r with
  | ByMonth => match fs.(by_month_html) with Some _ => true | None => false end
  | Colophon => match fs.(colophon_html) with Some _ => true | None => false end
  | Index => match fs.(index_html) with Some _ => true | None => false end
  | Dates => match fs.(dates_json) with Some _ => true | None => false end
  end.

Section Run.
Variable format_month : string -> string.
Variable markdown_convert : string -> string.
Variable by_month_head colophon_head index_head index_style : string.

Definition run (r : renderer) (fs : FS) : FS * list string :=
  match r with
  | ByMonth => BuildByMonth.build_by_month format_month by_month_head fs
  | Colophon => BuildColophon.build_colophon colophon_head fs
  | Index =>
      BuildIndex.build_index markdown_convert index_head index_style fs
  | Dates => BuildDates.build_dates fs
  end.
End Run.

End Pipeline.

(* ================================================================== *)
(** * The description as the specification words it *)
(* ================================================================== *)

Module DescriptionSpec.
Import PyStr.

(** Header lines and blank lines are passed over while nothing has been
    accumulated; from the first other line on, every line that is not
    blank is accumulated, and the first blank line ends the paragraph. *)
Fixpoint paragraph (lines : list string) (acc : list string) : list string :=
  match lines with
  | [] => acc
  | line :: rest =>
      let stripped := strip line in
      match acc with
      | [] =>
          if startswith "#" stripped then paragraph rest acc
          else if truthy stripped then paragraph rest [stripped]
          else paragraph rest acc
      | _ :: _ =>
          if truthy stripped then paragraph rest (acc ++ [stripped])%list
          else acc
      end
  end.

Definition description (content : string) : string :=
  join " " (paragraph (split "010" (strip content)) []).

(** No header line stands inside the first paragraph: once a line has
    been accumulated ([started]), no line before the next blank one starts
    with a hash. *)
Fixpoint no_inner_header (lines : list string) (started : bool) : Prop :=
  match lines with
  | [] => True
  | line :: rest =>
      let stripped := strip line in
      if startswith "#" stripped then
        if started then False else no_inner_header rest started
      else if truthy stripped then no_inner_header rest true
      else if started then True else no_inner_header rest started
  end.





End DescriptionSpec.

(* ================================================================== *)
(** * Notions used to state the properties of gather_links.py *)
(* ================================================================== *)

Module GatherSpec.
Import PyStr Data GatherLinks.

(** A change list in newest-first order: each change is followed by one
    whose timestamp is not after its own, for the comparison [not_after] of
    timestamps. *)
Definition newest_first (not_after : string -> string -> Prop)
    (cs : list Commit) : Prop :=
  Sorted (fun a b => not_after b.(date) a.(date)) cs.

(** The query of a path failed: the child left a non-zero return code,
    whatever it wrote, or it could not be run at all. *)
Definition query_failed (p : process) : Prop :=
  match p with
  | Exited rc _ => rc <> 0%Z
  | Undecodable rc => rc <> 0%Z
  | NotStarted => True
  end.

(** The query ran, what it wrote decodes as text, and it reported
    failure. *)
Definition query_exit_failure (p : process) : Prop :=
  match p with
  | Exited rc _ => rc <> 0%Z
  | Undecodable _ => False
  | NotStarted => False
  end.


(** The page [name] is in none of the outputs of the builder. *)
Definition excluded (st : acc) (name : string) : Prop :=
  (forall t, In t st.(tools) -> t.(url) <> name)
  /\ (forall k e, In (k, e) st.(gathered_links) -> e.(file) <> name).

(** The page [p] is visited and has the changes [cs], at least one. *)
Definition harvested (repo : Repo) (p : string) (cs : list Commit) : Prop :=
  existsb (String.eqb p) EXCLUDED_FILES = false
  /\ get_file_commit_details (repo.(git_log) p) = Ok cs
  /\ cs <> [].

End GatherSpec.


(* ================================================================== *)
(** * Sample inputs *)
(* ================================================================== *)

Module Examples.
Import PyStr Data GatherLinks.

Definition lines (l : list string) : string := join nl l.

(** The scenario of the specification: [widget] has an initial change and
    an update whose message holds a link. *)
Definition widget_log : string :=
  lines ["b2c3d4|2024-03-02T09:30:00+00:00|update, see https://example.com/x";
         "a1b2c3|2024-01-10T12:00:00+00:00|initial"] ++ nl.

Definition widget_page : string :=
  "<html><head><title> Widget </title></head><body></body></html>".

(** A repository with [widget], a generated view, a page the history does
    not know and a page whose query ends with a failure status. *)
Definition widget_repo : Repo :=
  {| glob_html := ["widget.html"; "index.html"; "ghost.html"; "broken.html"];
     git_log := fun p =>
       if String.eqb p "widget.html" then Exited 0 widget_log
       else if String.eqb p "broken.html" then Exited 128 EmptyString
       else Exited 0 EmptyString;
     html_text := fun p =>
       if String.eqb p "widget.html" then Some widget_page else None;
     docs_md := fun _ => Absent |}.

(** The same pages where [git] cannot be started. *)
Definition no_git_repo : Repo :=
  {| glob_html := ["widget.html"];
     git_log := fun _ => NotStarted;
     html_text := fun _ => None;
     docs_md := fun _ => Absent |}.

(** Two pages whose first change has the same timestamp, and a later
    page. *)
Definition twins_repo : Repo :=
  {| glob_html := ["zeta.html"; "late.html"; "Alpha.html"];
     git_log := fun p =>
       if String.eqb p "late.html"
       then Exited 0 ("d4|2024-03-01T10:00:00+00:00|late" ++ nl)
       else Exited 0 ("e5|2024-02-02T10:00:00+00:00|made" ++ nl);
     html_text := fun _ => None;
     docs_md := fun _ => Absent |}.

(** A page whose one change names two links. *)
Definition links_repo : Repo :=
  {| glob_html := ["notes.html"];
     git_log := fun _ =>
       Exited 0 ("c0ffee|2024-05-01T08:00:00+00:00|"
                 ++ "see https://example.com/x and https://example.com/yy");
     html_text := fun _ => None;
     docs_md := fun _ => Absent |}.

(** A page with two changes that name the same link, one of them with
    another link. *)
Definition repeated_link_repo : Repo :=
  {| glob_html := ["notes.html"];
     git_log := fun _ =>
       Exited 0 (lines ["c2|2024-05-02T08:00:00+00:00|"
                        ++ "see https://example.com/x and https://example.com/yy";
                        "c1|2024-05-01T08:00:00+00:00|"
                        ++ "see https://example.com/x"] ++ nl);
     html_text := fun _ => None;
     docs_md := fun _ => Absent |}.


Definition tool (slug_ created_ updated_ : string) : Tool :=
  {| slug := slug_; title := slug_; description := EmptyString;
     url := slug_ ++ ".html"; created := created_; updated := updated_ |}.

Definition three_tools : list Tool :=
  [tool "a" "2024-03-02" "2024-03-05"; tool "b" "2024-01-10" "2024-04-01";
   tool "c" "2024-03-01" "2024-03-01"].

Definition seven_tools : list Tool :=
  [tool "a" "2024-07" "2024-07"; tool "b" "2024-06" "2024-09";
   tool "c" "2024-05" "2024-05"; tool "d" "2024-04" "2024-04";
   tool "e" "2024-03" "2024-03"; tool "f" "2024-02" "2024-08";
   tool "g" "2024-01" "2024-10"].

(** Two hash functions, as two starts of the interpreter may draw them. *)
Definition hash_one (s : string) : Z := Z.of_nat (String.length s).
Definition hash_two (s : string) : Z := 7 - Z.of_nat (String.length s).

Definition empty_fs : FS :=
  {| README_md := None; tools_json := None; gathered_links_json := None;
     dates_json := None; index_html := None; by_month_html := None;
     colophon_html := None |}.

End Examples.

(* ================================================================== *)
(** * Notions used to state the properties of the renderers *)
(* ================================================================== *)

Module ByMonthSpec.
Import PyStr Data.

(** The record has a creation date and its first seven characters are
    [k]. *)
Definition in_month (k : string) (t : Tool) : bool :=
  truthy t.(created) && String.eqb (take 7 t.(created)) k.

(** Keys strictly decreasing from one bucket to the next. *)
Definition keys_decreasing (bs : list (string * list Tool)) : Prop :=
  StronglySorted (fun a b => lt b a) (map fst bs).

(** Records in non-decreasing order of creation date. *)
Definition created_ascending (l : list Tool) : Prop :=
  StronglySorted (fun a b => le a.(created) b.(created)) l.

(** What the grouping has built after the records [seen]: the keys are
    distinct and a key holds, in their order, the records of its month. *)
Definition grouped (d : PyDict.dict (list Tool)) (seen : list Tool) : Prop :=
  NoDup (PyDict.keys d)
  /\ forall k, PyDict.get k d = match filter (in_month k) seen with
                                | [] => None
                                | l => Some l
                                end.

End ByMonthSpec.

Module IndexSpec.
Import PyStr Data.

(** [res] is a choice of the [n] records of [pool] with the greatest
    keys, greatest first: [pool] is [res] and a rest, [res] is in
    non-increasing order of key, no record of the rest has a greater key
    than a record of [res], and [res] has [n] records, or all of [pool]
    when it has fewer. *)
Definition top_n (key : Tool -> string) (n : nat) (pool res : list Tool)
    : Prop :=
  exists rest,
    Permutation pool (res ++ rest)
    /\ StronglySorted (fun a b => le (key b) (key a)) res
    /\ (forall x y, In x res -> In y rest -> le (key y) (key x))
    /\ List.length res = Nat.min n (List.length pool).

(** The slug is a key of the tool records. *)
Definition unique_slugs (tools : list Tool) : Prop := NoDup (map slug tools).

(** The record is not in the list [added]. *)
Definition not_among (added : list Tool) (t : Tool) : bool :=
  if in_dec Tool_eq_dec t added then false else true.

(** No record of [added] has the slug of the record. *)
Definition slug_not_among (added : list Tool) (t : Tool) : bool :=
  BuildIndex.not_in t.(slug) (map slug added).

End IndexSpec.

Module PipelineSpec.
Import Data GatherLinks.

(** The page [name] is in nothing that the renderers derive from the
    outputs of the builder: no key of the dates file, no record of a month
    bucket, no record of the two digests, no section of the colophon. *)
Definition absent_downstream (st : acc) (name : string) : Prop :=
  (forall k v, In (k, v) (BuildDates.project st.(gathered_links)) -> k <> name)
  /\ (forall k l t, In (k, l) (BuildByMonth.month_buckets st.(tools)) ->
                    In t l -> t.(url) <> name)
  /\ (forall t, In t (BuildIndex.by_created st.(tools)) -> t.(url) <> name)
  /\ (forall t, In t (BuildIndex.recently_updated st.(tools)) ->
                t.(url) <> name)
  /\ (forall s data, In s (BuildColophon.sorted_slugs st.(gathered_links)) ->
                     PyDict.get s st.(gathered_links) = Some data ->
                     data.(file) <> name).

End PipelineSpec.

Module IdempotenceSpec.
Import Data GatherLinks.

(** Two history entries with the same file and the same changes, whose
    lists under [all_urls] differ at most in the order of their links. *)
Definition same_history (a b : History) : Prop :=
  a.(file) = b.(file)
  /\ a.(commits) = b.(commits)
  /\ Permutation a.(all_urls) b.(all_urls).

(** Two history maps with the same keys in the same order, whose entries
    differ at most in the order of the list under [all_urls]. *)
Definition same_but_all_urls (g1 g2 : PyDict.dict History) : Prop :=
  Forall2 (fun x y => fst x = fst y /\ same_history (snd x) (snd y)) g1 g2.

(** The changes of no page name [2 ^ 64] links or more. *)
Definition links_bounded (repo : Repo) : Prop :=
  forall p cs,
    get_file_commit_details (repo.(git_log) p) = Ok cs ->
    (Z.of_nat (List.length (flat_map urls cs)) < 2 ^ 64)%Z.

End IdempotenceSpec.

(* ================================================================== *)
(** * Notions used to state the properties of the harvester's parsers *)
(* ================================================================== *)

Module ParseSpec.
Import PyStr Data GatherLinks.

(** The character [c] occurs in [s]. *)
Fixpoint occurs (c : ascii) (s : string) : bool :=
  match s with
  | EmptyString => false
  | String x r => Ascii.eqb x c || occurs c r
  end.

(** How often the character [c] occurs in [s]. *)
Fixpoint count (c : ascii) (s : string) : nat :=
  match s with
  | EmptyString => 0
  | String x r => (if Ascii.eqb x c then 1 else 0) + count c r
  end.

(** Every character of [s] satisfies [p]. *)
Fixpoint all_chars (p : ascii -> bool) (s : string) : bool :=
  match s with
  | EmptyString => true
  | String x r => p x && all_chars p r
  end.

(** The first and the last character of a string. *)
Definition first_char (s : string) : option ascii :=
  match s with
  | EmptyString => None
  | String x _ => Some x
  end.

Fixpoint last_char (s : string) : option ascii :=
  match s with
  | EmptyString => None
  | String x r => match last_char r with
                  | Some y => Some y
                  | None => Some x
                  end
  end.

(** [u] is [s] from some position on, up to some later position. *)
Definition substring_of (u s : string) : Prop :=
  exists pre post, s = pre ++ u ++ post.

(** A link as the pattern of the harvester accepts it: one of the two
    schemes, then at least one accepted character and no other. *)
Definition is_url (u : string) : Prop :=
  exists scheme body,
    (scheme = "http://" \/ scheme = "https://")
    /\ u = scheme ++ body
    /\ body <> EmptyString
    /\ all_chars url_char body = true.

(** A title element stands at the start of [s], and [g] is its text: the
    opening tag, in any case of its letters, a text that is not empty and
    holds no opening angle bracket, and the closing tag. *)
Definition title_at (s g : string) : Prop :=
  exists opening closing post,
    s = opening ++ g ++ closing ++ post
    /\ String.length opening = 7 /\ iprefix "<title>" opening = true
    /\ String.length closing = 8 /\ iprefix "</title>" closing = true
    /\ g <> EmptyString /\ occurs "<" g = false.

(** No title element starts anywhere in [content]. *)
Definition no_title (content : string) : Prop :=
  forall pre rest g, content = pre ++ rest -> ~ title_at rest g.

(** [g] is the text of the first title element of [content]: one starts
    after [pre], and none starts earlier. *)
Definition first_title (content g : string) : Prop :=
  exists pre rest,
    content = pre ++ rest
    /\ title_at rest g
    /\ forall pre' rest' g',
         content = pre' ++ rest' ->
         (String.length pre' < String.length pre)%nat ->
         ~ title_at rest' g'.

(** The line that the format of the query writes for a change. *)
Definition log_line (c : Commit) : string :=
  c.(hash) ++ "|" ++ c.(date) ++ "|" ++ c.(message).

(** The fields of a change as the query writes them, where the reading of
    its output leaves them as they are: a hash that is not empty and holds
    neither white space nor a separator, a date without separator, line
    feed and carriage return, a subject without line feed and carriage
    return that does not end with white space. *)
Definition written_fields (c : Commit) : Prop :=
  c.(hash) <> EmptyString
  /\ all_chars (fun x => negb (py_isspace x || Ascii.eqb x "|")) c.(hash) = true
  /\ occurs "|" c.(date) = false
  /\ occurs "010" c.(date) = false
  /\ occurs "013" c.(date) = false
  /\ occurs "010" c.(message) = false
  /\ occurs "013" c.(message) = false
  /\ match last_char c.(message) with
     | Some x => py_isspace x = false
     | None => True
     end.

(** The change with the links of its message, as the harvester stores it. *)
Definition with_urls (c : Commit) : Commit :=
  {| hash := c.(hash); date := c.(date); message := c.(message);
     urls := findall_urls c.(message) |}.

(** A line of the paragraph: stripped, not empty, no line feed, and a first
    character that is neither white space nor a hash. *)
Definition paragraph_line (l : string) : Prop :=
  occurs "010" l = false
  /\ match first_char l with
     | Some x => py_isspace x = false /\ x <> "#"%char
     | None => False
     end.

End ParseSpec.

(* ================================================================== *)
(** * Notions used to state the invariants of the builder's outputs *)
(* ================================================================== *)

Module OutputSpec.
Import PyStr Data GatherLinks.

(** The name is one of the generated views. *)
Definition is_excluded (name : string) : bool :=
  existsb (String.eqb name) EXCLUDED_FILES.

(** The tool list is in non-increasing order of creation date. *)
Definition newest_created_first (ts : list Tool) : Prop :=
  StronglySorted (fun a b => le b.(created) a.(created)) ts.

(** The record [t] is the record of the history entry [e] under [k]. *)
Definition record_of (k : string) (e : History) (t : Tool) : Prop :=
  t.(slug) = k /\ t.(url) = e.(file)
  /\ t.(created) = last (map date e.(commits)) EmptyString
  /\ t.(updated) = hd EmptyString (map date e.(commits)).

(** Two states of the files that differ at most in the order of the lists
    under [all_urls] of the history file. *)
Definition same_files (a b : FS) : Prop :=
  a.(README_md) = b.(README_md)
  /\ a.(tools_json) = b.(tools_json)
  /\ match a.(gathered_links_json), b.(gathered_links_json) with
     | Some g1, Some g2 => IdempotenceSpec.same_but_all_urls g1 g2
     | None, None => True
     | _, _ => False
     end
  /\ a.(dates_json) = b.(dates_json)
  /\ a.(index_html) = b.(index_html)
  /\ a.(by_month_html) = b.(by_month_html)
  /\ a.(colophon_html) = b.(colophon_html).

(** The record that the loop of the builder appends for a page: none for a
    generated view and for a page without changes. *)
Definition records_of_page (repo : Repo) (p : string) : list Tool :=
  if is_excluded p then []
  else match get_file_commit_details (repo.(git_log) p) with
       | Ok (c :: cs) => [tool_record repo p (c :: cs)]
       | _ => []
       end.


(** The builder followed by renderers in the order [rs]: the files at the
    end and all the lines printed. *)
Definition run_renderers (format_month markdown_convert : string -> string)
    (by_month_head colophon_head index_head index_style : string)
    (rs : list Pipeline.renderer) (start : FS * list string)
    : FS * list string :=
  fold_left
    (fun state r =>
       let '(fs', printed) :=
         Pipeline.run format_month markdown_convert by_month_head
                      colophon_head index_head index_style r (fst state) in
       (fs', (snd state ++ printed)%list))
    rs start.

Definition pipeline (format_month markdown_convert : string -> string)
    (by_month_head colophon_head index_head index_style : string)
    (str_hash : string -> Z) (repo : Repo) (rs : list Pipeline.renderer)
    (fs : FS) : result (FS * list string) :=
  built <- gather_links str_hash repo fs ;;
  Ok (run_renderers format_month markdown_convert by_month_head
                    colophon_head index_head index_style rs built).

End OutputSpec.

(* ================================================================== *)
(** * Notions used to state further properties of the renderers *)
(* ================================================================== *)

Module RenderSpec.
Import PyStr Data.

(** The record has a creation date. *)
Definition dated (t : Tool) : bool := truthy t.(created).

(** The number of records in a list of buckets. *)
Definition records_in (bs : list (string * list Tool)) : nat :=
  list_sum (map (fun b => List.length (snd b)) bs).

(** The entry of the history map has at least one change. *)
Definition has_changes (item : string * History) : bool :=
  match (snd item).(commits) with
  | [] => false
  | _ :: _ => true
  end.

(** The date of the newest change of an entry, as the dates file holds
    it. *)
Definition newest_day (item : string * History) : string :=
  take 10 (hd EmptyString (map date (snd item).(commits))).

End RenderSpec.

Module SetSpec.
Import PySet.

(** The state of a set between two operations: a table of [2 ^ k] slots,
    of which at most [fill] are in use, less than three fifths of them. *)
Definition well_formed (so : setobject) : Prop :=
  exists k, (3 <= k)%Z /\ so.(mask) = (2 ^ k - 1)%Z
            /\ Z.of_nat (List.length so.(table)) = (2 ^ k)%Z
            /\ (Z.of_nat
                 (List.length
                    (flat_map (fun e : entry => match e with
                                                | Some (key, _) => [key]
                                                | None => []
                                                end) so.(table)))
               <= so.(fill))%Z
            /\ (so.(fill) * 5 < so.(mask) * 3)%Z.

(** The probe loop of [set_add_entry] as it is written, without the way
    out of the bound: no result when the rounds are used up. *)
Fixpoint probe_within (fuel : nat) (t : list entry) (msk : Z) (key : string)
    (h : Z) (i perturb : Z) : option found :=
  match fuel with
  | 0 => None
  | S f =>
      let probes := if (i + LINEAR_PROBES <=? msk)%Z
                    then Z.to_nat LINEAR_PROBES else 0 in
      match linear t key h i probes with
      | Some r => Some r
      | None =>
          let perturb' := Z.shiftr perturb PERTURB_SHIFT in
          probe_within f t msk key h
                       (Z.land (i * 5 + 1 + perturb') msk) perturb'
      end
  end.

(** The slot at which round [n] of the probe loop starts, and the
    perturbation left at that round. *)
Fixpoint round_start (n : nat) (msk i perturb : Z) : Z * Z :=
  match n with
  | 0 => (i, perturb)
  | S m =>
      let perturb' := Z.shiftr perturb PERTURB_SHIFT in
      round_start m msk (Z.land (i * 5 + 1 + perturb') msk) perturb'
  end.

(** The recurrence of the probe loop once the perturbation is used up, and
    the sum [1 + 5 + ... + 5 ^ (n - 1)]. *)
Fixpoint lcg (n : nat) (x : Z) : Z :=
  match n with
  | 0 => x
  | S m => lcg m (x * 5 + 1)
  end.

Fixpoint geometric (n : nat) : Z :=
  match n with
  | 0 => 0
  | S m => 5 * geometric m + 1
  end.

(** Every key of the table is stored with its hash and is found by the
    search for it, within the rounds that [lookup] allows. *)
Definition findable (hash : string -> Z) (msk : Z) (t : list entry) : Prop :=
  forall k h,
    In (Some (k, h)) t ->
    h = hash k
    /\ probe_within (64 + 2 * List.length t) t msk k h
                    (Z.land (as_size_t h) msk) (as_size_t h)
       = Some Active.

End SetSpec.
(* ================================================================== *)
(** * Facts about the order of strings *)
(* ================================================================== *)

Module StrOrder.

Lemma ascii_compare_lt_trans (a b c : ascii) :
  Ascii.compare a b = Lt -> Ascii.compare b c = Lt -> Ascii.compare a c = Lt.
Proof.
  unfold Ascii.compare. rewrite !N.compare_lt_iff. lia.
Qed.

Lemma compare_lt_trans (a : string) :
  forall b c, String.compare a b = Lt -> String.compare b c = Lt ->
              String.compare a c = Lt.
Proof.
  induction a as [|x a IH]; intros [|y b] [|z c]; simpl; try congruence.
  destruct (Ascii.compare x y) eqn:Hxy; try discriminate.
  - apply Ascii.compare_eq_iff in Hxy. subst y.
    destruct (Ascii.compare x z) eqn:Hxz; try congruence. apply IH.
  - intros _. destruct (Ascii.compare y z) eqn:Hyz; try discriminate.
    + apply Ascii.compare_eq_iff in Hyz. subst z. now rewrite Hxy.
    + intros _. now rewrite (ascii_compare_lt_trans _ _ _ Hxy Hyz).
Qed.

Lemma compare_refl (a : string) : String.compare a a = Eq.
Proof.
  induction a as [|x a IH]; simpl; auto.
  unfold Ascii.compare. now rewrite N.compare_refl.
Qed.

Lemma compare_Gt_Lt (a b : string) :
  String.compare a b = Gt <-> String.compare b a = Lt.
Proof.
  rewrite (String.compare_antisym b a).
  destruct (String.compare a b); simpl; split; congruence.
Qed.

Lemma leb_refl (a : string) : String.leb a a = true.
Proof. unfold String.leb. now rewrite compare_refl. Qed.

Lemma leb_iff (a b : string) :
  String.leb a b = true <-> String.compare a b = Lt \/ a = b.
Proof.
  unfold String.leb. destruct (String.compare a b) eqn:H.
  - apply String.compare_eq_iff in H. tauto.
  - tauto.
  - split; [discriminate|]. intros [? | ->]; [discriminate|].
    now rewrite compare_refl in H.
Qed.

Lemma leb_trans (a b c : string) :
  String.leb a b = true -> String.leb b c = true -> String.leb a c = true.
Proof.
  rewrite !leb_iff. intros [H1 | ->] [H2 | ->]; auto.
  left. eapply compare_lt_trans; eauto.
Qed.

Lemma leb_false_ltb (a b : string) :
  String.leb a b = false -> String.ltb b a = true.
Proof.
  unfold String.leb, String.ltb. destruct (String.compare a b) eqn:H;
    try discriminate.
  apply compare_Gt_Lt in H. now rewrite H.
Qed.

Lemma leb_false_leb (a b : string) :
  String.leb a b = false -> String.leb b a = true.
Proof.
  destruct (String.leb_total a b) as [H|H]; [congruence|auto].
Qed.

Lemma ltb_iff (a b : string) :
  String.ltb a b = true <-> String.leb a b = true /\ a <> b.
Proof.
  unfold String.ltb. rewrite leb_iff.
  destruct (String.compare a b) eqn:H; split; try discriminate; auto.
  - apply String.compare_eq_iff in H. tauto.
  - intros _. split; auto. intros ->. now rewrite compare_refl in H.
  - intros [[? | ->] Hn]; congruence.
Qed.

End StrOrder.

(* ================================================================== *)
(** * Facts about the sort *)
(* ================================================================== *)

Module SortFacts.
Import PySort.

Section Facts.
Variable A : Type.
Variable key : A -> string.
Variable reverse : bool.

Local Abbreviation ordered := (PySort.ordered key reverse).

Lemma ordered_trans (x y z : A) : ordered x y -> ordered y z -> ordered x z.
Proof.
  unfold ordered, goes_before. destruct reverse; intros H1 H2.
  - eapply StrOrder.leb_trans; eauto.
  - eapply StrOrder.leb_trans; eauto.
Qed.

Lemma not_before (x y : A) : goes_before key reverse x y = false -> ordered y x.
Proof.
  unfold ordered, goes_before. destruct reverse; intros H;
    now apply StrOrder.leb_false_leb.
Qed.

Lemma insert_perm (x : A) (l : list A) :
  Permutation (insert key reverse x l) (x :: l).
Proof.
  induction l as [|y l IH]; simpl; auto.
  destruct (goes_before key reverse x y); auto.
  rewrite IH. apply perm_swap.
Qed.

Lemma sorted_perm (l : list A) : Permutation (sorted key reverse l) l.
Proof.
  induction l as [|x l IH]; simpl; auto.
  rewrite insert_perm. now constructor.
Qed.

Lemma sorted_length (l : list A) :
  List.length (sorted key reverse l) = List.length l.
Proof. apply Permutation_length, sorted_perm. Qed.

Lemma sorted_In (x : A) (l : list A) : In x (sorted key reverse l) <-> In x l.
Proof.
  split; apply Permutation_in; [|symmetry]; apply sorted_perm.
Qed.

Lemma insert_sorted (x : A) (l : list A) :
  StronglySorted ordered l -> StronglySorted ordered (insert key reverse x l).
Proof.
  induction 1 as [|y l Hs IH Hy]; simpl.
  - repeat constructor.
  - destruct (goes_before key reverse x y) eqn:E.
    + constructor; [constructor; auto|].
      constructor; [exact E|].
      rewrite Forall_forall in *. intros z Hz.
      eapply ordered_trans; [exact E|auto].
    + constructor; auto.
      rewrite Forall_forall in *. intros z Hz.
      apply (Permutation_in _ (insert_perm x l)) in Hz.
      destruct Hz as [<-|Hz]; auto. now apply not_before.
Qed.

Lemma sorted_sorted (l : list A) : StronglySorted ordered (sorted key reverse l).
Proof.
  induction l as [|x l IH]; simpl; [constructor|now apply insert_sorted].
Qed.

(** A list that is already in order is left as it is. *)
Lemma sorted_id (l : list A) : StronglySorted ordered l -> sorted key reverse l = l.
Proof.
  induction 1 as [|x l Hs IH Hx]; simpl; auto.
  rewrite IH. destruct l as [|y l]; simpl; auto.
  inversion Hx as [|? ? Hxy _]; subst. unfold ordered in Hxy. now rewrite Hxy.
Qed.
End Facts.

(** Elements with equal keys keep the order they came in: the sort does
    not change the sublist of the elements that have a given key. *)
Lemma insert_filter_key (A : Type) (key : A -> string) (reverse : bool)
    (k : string) (x : A) (l : list A) :
  StronglySorted (ordered key reverse) l ->
  filter (fun y => String.eqb (key y) k) (insert key reverse x l)
  = filter (fun y => String.eqb (key y) k) (x :: l).
Proof.
  induction 1 as [|y l Hs IH Hy]; auto.
  cbn [insert]. destruct (goes_before key reverse x y) eqn:E; auto.
  cbn [filter] in *. rewrite IH.
  destruct (String.eqb (key x) k) eqn:Ex; auto.
  destruct (String.eqb (key y) k) eqn:Ey; auto.
  apply String.eqb_eq in Ex, Ey.
  exfalso. unfold goes_before in E. rewrite Ex, Ey in E.
  rewrite StrOrder.leb_refl in E. destruct reverse; discriminate.
Qed.

Lemma sorted_stable (A : Type) (key : A -> string) (reverse : bool)
    (k : string) (l : list A) :
  filter (fun y => String.eqb (key y) k) (sorted key reverse l)
  = filter (fun y => String.eqb (key y) k) l.
Proof.
  induction l as [|x l IH]; auto.
  cbn [sorted]. rewrite insert_filter_key by apply sorted_sorted.
  cbn [filter]. now rewrite IH.
Qed.

End SortFacts.

(* ================================================================== *)
(** * Facts about dictionaries *)
(* ================================================================== *)

Module DictFacts.
Import PyDict.

Section Facts.
Variable V : Type.

Lemma set_In (k k0 : string) (v v0 : V) (d : dict V) :
  In (k, v) (set k0 v0 d) -> In (k, v) d \/ (k = k0 /\ v = v0).
Proof.
  induction d as [|[k' v'] d IH]; simpl.
  - intros [H|[]]. inversion H. auto.
  - destruct (String.eqb_spec k0 k'); simpl.
    + intros [H|H]; [inversion H; subst; auto|auto].
    + intros [H|H]; auto. destruct (IH H); auto.
Qed.

Lemma get_set_same (k : string) (v : V) (d : dict V) :
  get k (set k v d) = Some v.
Proof.
  induction d as [|[k' v'] d IH]; simpl.
  - now rewrite String.eqb_refl.
  - destruct (String.eqb_spec k k') as [->|Hn]; simpl.
    + now rewrite String.eqb_refl.
    + destruct (String.eqb_spec k k'); [contradiction|exact IH].
Qed.

Lemma get_set_other (k k0 : string) (v : V) (d : dict V) :
  k <> k0 -> get k (set k0 v d) = get k d.
Proof.
  intros Hn. induction d as [|[k' v'] d IH]; simpl.
  - destruct (String.eqb_spec k k0); [contradiction|reflexivity].
  - destruct (String.eqb_spec k0 k') as [->|Hn']; simpl.
    + destruct (String.eqb_spec k k'); [contradiction|reflexivity].
    + destruct (String.eqb_spec k k'); auto.
Qed.

Lemma keys_set (k : string) (v : V) (d : dict V) :
  keys (set k v d) = match get k d with
                     | Some _ => keys d
                     | None => (keys d ++ [k])%list
                     end.
Proof.
  unfold keys. induction d as [|[k' v'] d IH]; simpl; auto.
  destruct (String.eqb_spec k k') as [->|Hn]; simpl; auto.
  rewrite IH. now destruct (get k d).
Qed.

Lemma get_None_keys (k : string) (d : dict V) :
  get k d = None <-> ~ In k (keys d).
Proof.
  unfold keys. induction d as [|[k' v'] d IH]; simpl; [tauto|].
  destruct (String.eqb_spec k k') as [->|Hn].
  - split; [discriminate|tauto].
  - rewrite IH. split; [intros H [E|E]; auto|tauto].
Qed.

Lemma get_In (k : string) (v : V) (d : dict V) :
  get k d = Some v -> In (k, v) d.
Proof.
  induction d as [|[k' v'] d IH]; simpl; [discriminate|].
  destruct (String.eqb_spec k k') as [->|Hn]; auto.
  intros H. inversion H. auto.
Qed.
End Facts.
End DictFacts.

(* ================================================================== *)
(** * Properties of gather_links.py *)
(* ================================================================== *)

Module GatherFacts.
Import PyStr Data GatherLinks GatherSpec.

Section Facts.
Variable str_hash : string -> Z.
Variable repo : Repo.

Lemma visit_cases (st st' : acc) (p : string) :
  visit str_hash repo st p = Ok st' ->
  st' = st
  \/ exists cs, harvested repo p cs
       /\ st'.(tools) = (st.(tools) ++ [tool_record repo p cs])%list
       /\ st'.(gathered_links) =
            PyDict.set (stem p) (history_entry str_hash p cs)
                       st.(gathered_links).
Proof.
  unfold visit. destruct (existsb _ EXCLUDED_FILES) eqn:Ex.
  - intros H. inversion H. auto.
  - destruct (get_file_commit_details _) as [cs|e] eqn:Hd; simpl;
      [|discriminate].
    destruct cs as [|c cs].
    + intros H. inversion H. auto.
    + intros H. inversion H. right. exists (c :: cs).
      repeat split; auto. discriminate.
Qed.

Lemma visit_harvested (st : acc) (p : string) (cs : list Commit) :
  harvested repo p cs ->
  visit str_hash repo st p =
  Ok {| gathered_links :=
          PyDict.set (stem p) (history_entry str_hash p cs)
                     st.(gathered_links);
        tools := (st.(tools) ++ [tool_record repo p cs])%list |}.
Proof.
  intros (Hx & Hd & Hn). unfold visit. rewrite Hx, Hd. simpl.
  destruct cs; [contradiction|reflexivity].
Qed.

Lemma visit_all_tools_from (files : list string) :
  forall st st', visit_all str_hash repo st files = Ok st' ->
  forall t, In t st'.(tools) ->
    In t st.(tools)
    \/ exists p cs, In p files /\ harvested repo p cs /\ t = tool_record repo p cs.
Proof.
  induction files as [|p files IH]; simpl; intros st st' H t Ht.
  - inversion H. subst. auto.
  - destruct (visit str_hash repo st p) as [st1|e] eqn:Hv; simpl in H;
      [|discriminate].
    destruct (IH _ _ H _ Ht) as [Hin|(p' & cs & Hp & Hh & ->)].
    + destruct (visit_cases _ _ Hv) as [->|(cs & Hh & Ht1 & _)]; auto.
      rewrite Ht1 in Hin. apply in_app_or in Hin.
      destruct Hin as [Hin|[<-|[]]]; auto.
      right. exists p, cs. auto.
    + right. exists p', cs. auto.
Qed.

Lemma visit_all_tools_keep (files : list string) :
  forall st st', visit_all str_hash repo st files = Ok st' ->
  forall t, In t st.(tools) -> In t st'.(tools).
Proof.
  induction files as [|p files IH]; simpl; intros st st' H t Ht.
  - inversion H. now subst.
  - destruct (visit str_hash repo st p) as [st1|e] eqn:Hv; simpl in H;
      [|discriminate].
    apply (IH _ _ H).
    destruct (visit_cases _ _ Hv) as [->|(cs & Hh & Ht1 & _)]; auto.
    rewrite Ht1. apply in_or_app. auto.
Qed.

Lemma visit_all_tools_to (files : list string) :
  forall st st', visit_all str_hash repo st files = Ok st' ->
  forall p cs, In p files -> harvested repo p cs ->
    In (tool_record repo p cs) st'.(tools).
Proof.
  induction files as [|p0 files IH]; simpl; intros st st' H p cs Hp Hh;
    [contradiction|].
  destruct (visit str_hash repo st p0) as [st1|e] eqn:Hv; simpl in H;
    [|discriminate].
  destruct Hp as [->|Hp]; [|eapply IH; eauto].
  apply (visit_all_tools_keep _ _ H).
  rewrite (visit_harvested st Hh) in Hv. inversion Hv. simpl.
  apply in_or_app. simpl. auto.
Qed.

Lemma visit_all_entries_from (files : list string) :
  forall st st', visit_all str_hash repo st files = Ok st' ->
  forall k e, In (k, e) st'.(gathered_links) ->
    In (k, e) st.(gathered_links)
    \/ exists p cs, In p files /\ harvested repo p cs
         /\ k = stem p /\ e = history_entry str_hash p cs.
Proof.
  induction files as [|p files IH]; simpl; intros st st' H k e He.
  - inversion H. subst. auto.
  - destruct (visit str_hash repo st p) as [st1|x] eqn:Hv; simpl in H;
      [|discriminate].
    destruct (IH _ _ H _ _ He) as [Hin|(p' & cs & Hp & Hh & -> & ->)].
    + destruct (visit_cases _ _ Hv) as [->|(cs & Hh & _ & Hg)]; auto.
      rewrite Hg in Hin. apply DictFacts.set_In in Hin.
      destruct Hin as [Hin|[-> ->]]; auto.
      right. exists p, cs. auto.
    + right. exists p', cs. auto.
Qed.

(** What the builder hands to the writers: every record and every
    history entry comes from a page that was visited and had changes,
    and every such page has its record. *)
Lemma gathered_tools_from (st : acc) :
  gathered str_hash repo = Ok st ->
  forall t, In t st.(tools) ->
    exists p cs, In p repo.(glob_html) /\ harvested repo p cs
                 /\ t = tool_record repo p cs.
Proof.
  unfold gathered. intros H t Ht.
  destruct (visit_all _ _ _ _) as [st1|e] eqn:Hv; simpl in H; [|discriminate].
  inversion H. subst st. simpl in Ht. apply SortFacts.sorted_In in Ht.
  destruct (visit_all_tools_from _ _ Hv _ Ht) as [[]|(p & cs & Hp & Hh & ->)].
  exists p, cs. apply SortFacts.sorted_In in Hp. auto.
Qed.

Lemma gathered_tools_to (st : acc) :
  gathered str_hash repo = Ok st ->
  forall p cs, In p repo.(glob_html) -> harvested repo p cs ->
    In (tool_record repo p cs) st.(tools).
Proof.
  unfold gathered. intros H p cs Hp Hh.
  destruct (visit_all _ _ _ _) as [st1|e] eqn:Hv; simpl in H; [|discriminate].
  inversion H. subst st. simpl. apply SortFacts.sorted_In.
  eapply visit_all_tools_to; eauto. now apply SortFacts.sorted_In.
Qed.

Lemma gathered_entries_from (st : acc) :
  gathered str_hash repo = Ok st ->
  forall k e, In (k, e) st.(gathered_links) ->
    exists p cs, In p repo.(glob_html) /\ harvested repo p cs
                 /\ k = stem p /\ e = history_entry str_hash p cs.
Proof.
  unfold gathered. intros H k e He.
  destruct (visit_all _ _ _ _) as [st1|x] eqn:Hv; simpl in H; [|discriminate].
  inversion H. subst st. simpl in He.
  destruct (visit_all_entries_from _ _ Hv _ _ He)
    as [[]|(p & cs & Hp & Hh & -> & ->)].
  exists p, cs. apply SortFacts.sorted_In in Hp. auto.
Qed.

(** A page without changes is in none of the two outputs. *)
Lemma no_changes_excluded (st : acc) (p : string) :
  gathered str_hash repo = Ok st ->
  get_file_commit_details (repo.(git_log) p) = Ok [] ->
  excluded st p.
Proof.
  intros H Hd. split.
  - intros t Ht Hu.
    destruct (gathered_tools_from H _ Ht) as (p' & cs & _ & (_ & Hd' & Hn) & ->).
    simpl in Hu. subst p'. rewrite Hd in Hd'. inversion Hd'. congruence.
  - intros k e He Hf.
    destruct (gathered_entries_from H _ _ He)
      as (p' & cs & _ & (_ & Hd' & Hn) & _ & ->).
    simpl in Hf. subst p'. rewrite Hd in Hd'. inversion Hd'. congruence.
Qed.
End Facts.
End GatherFacts.

(* ================================================================== *)
(** * Created and updated dates, and pages without changes *)
(* ================================================================== *)

Module GatherClaims.
Import PyStr Data GatherLinks GatherSpec.

(** In a newest-first list the last timestamp is not after the first. *)
Lemma newest_first_last_le (not_after : string -> string -> Prop)
    (c : Commit) (rest : list Commit) :
  (forall a, not_after a a) ->
  (forall a b d, not_after a b -> not_after b d -> not_after a d) ->
  newest_first not_after (c :: rest) ->
  not_after (last (c :: rest) c).(date) c.(date).
Proof.
  intros Hrefl Htrans H. apply Sorted_StronglySorted in H.
  - inversion H as [|? ? _ Hall]; subst.
    destruct rest as [|c1 rest]; [apply Hrefl|].
    rewrite Forall_forall in Hall. apply Hall.
    change (last (c :: c1 :: rest) c) with (last (c1 :: rest) c).
    destruct (exists_last (l := c1 :: rest)) as (l' & a & E); [discriminate|].
    rewrite E, last_last. apply in_or_app. simpl. auto.
  - intros x y z Hxy Hyz. eapply Htrans; eauto.
Qed.

Lemma last_map_date_gen (rest : list Commit) :
  forall (c0 c' : Commit) (d : string),
    last (map date (c0 :: rest)) d = (last (c0 :: rest) c').(date).
Proof.
  induction rest as [|c1 rest IH]; intros c0 c' d; auto.
  change (last (map date (c1 :: rest)) d = date (last (c1 :: rest) c')).
  apply IH.
Qed.

Lemma last_map_date (c : Commit) (rest : list Commit) :
  last (map date (c :: rest)) EmptyString = (last (c :: rest) c).(date).
Proof. apply last_map_date_gen. Qed.

(** C4.  A page that is visited and whose change list [c :: rest] is in
    newest-first order has a record in the tool list; every record of the
    page has [created] equal to the timestamp of the last change of the
    list, [updated] equal to the timestamp of its first change, and
    [created] is not after [updated].  The comparison of timestamps is any
    reflexive and transitive one: the order of strings, in which the
    scripts compare timestamps, or the order of the instants they denote. *)
Theorem created_updated_of_newest_first
    (not_after : string -> string -> Prop)
    (str_hash : string -> Z) (repo : Repo) (st : acc)
    (p : string) (c : Commit) (rest : list Commit) :
  (forall a, not_after a a) ->
  (forall a b d, not_after a b -> not_after b d -> not_after a d) ->
  gathered str_hash repo = Ok st ->
  In p repo.(glob_html) ->
  existsb (String.eqb p) EXCLUDED_FILES = false ->
  get_file_commit_details (repo.(git_log) p) = Ok (c :: rest) ->
  newest_first not_after (c :: rest) ->
  (exists t, In t st.(tools) /\ t.(url) = p)
  /\ forall t, In t st.(tools) -> t.(url) = p ->
       t.(created) = (last (c :: rest) c).(date)
       /\ t.(updated) = c.(date)
       /\ not_after t.(created) t.(updated).
Proof.
  intros Hrefl Htrans Hg Hp Hx Hd Hn.
  assert (Hh : harvested repo p (c :: rest))
    by (repeat split; auto; discriminate).
  split.
  - exists (tool_record repo p (c :: rest)). split; auto.
    eapply GatherFacts.gathered_tools_to; eauto.
  - intros t Ht Hu.
    destruct (@GatherFacts.gathered_tools_from _ _ _ Hg _ Ht)
      as (p' & cs & _ & (_ & Hd' & _) & ->).
    simpl in Hu. subst p'. rewrite Hd in Hd'. inversion Hd'. subst cs.
    unfold tool_record. cbn [created updated].
    rewrite last_map_date. cbn [map hd].
    repeat split.
    exact (@newest_first_last_le not_after c rest Hrefl Htrans Hn).
Qed.

(** The scenario of the specification: [widget], changed on 2024-01-10
    and on 2024-03-02, with timestamps compared as strings. *)
Lemma created_updated_of_newest_first_witness :
  let c1 := {| hash := "b2c3d4"; date := "2024-03-02T09:30:00+00:00";
               message := "update, see https://example.com/x";
               urls := ["https://example.com/x"] |} in
  let c0 := {| hash := "a1b2c3"; date := "2024-01-10T12:00:00+00:00";
               message := "initial"; urls := [] |} in
  exists st,
    gathered Examples.hash_one Examples.widget_repo = Ok st
    /\ get_file_commit_details (Examples.widget_repo.(git_log) "widget.html")
       = Ok [c1; c0]
    /\ newest_first le [c1; c0]
    /\ (exists t, In t st.(tools) /\ t.(url) = "widget.html")
    /\ forall t, In t st.(tools) -> t.(url) = "widget.html" ->
         t.(created) = "2024-01-10T12:00:00+00:00"
         /\ t.(updated) = "2024-03-02T09:30:00+00:00"
         /\ le t.(created) t.(updated).
Proof.
  intros c1 c0.
  destruct (gathered Examples.hash_one Examples.widget_repo) as [st|e] eqn:E;
    [|vm_compute in E; discriminate].
  exists st. split; [reflexivity|]. split; [reflexivity|].
  assert (Hn : newest_first le [c1; c0]) by (repeat constructor).
  split; [exact Hn|].
  apply (@created_updated_of_newest_first le Examples.hash_one
           Examples.widget_repo st "widget.html" c1 [c0]
           StrOrder.leb_refl StrOrder.leb_trans E).
  - simpl. auto.
  - reflexivity.
  - reflexivity.
  - exact Hn.
Defined.

(** C6.  A page whose harvested history has no change has no record in
    the tool list and no entry in the history map; when no other page has
    its slug, no record carries that slug and the map has no such key. *)
Theorem no_changes_no_outputs
    (str_hash : string -> Z) (repo : Repo) (st : acc) (p : string) :
  gathered str_hash repo = Ok st ->
  get_file_commit_details (repo.(git_log) p) = Ok [] ->
  excluded st p
  /\ ((forall p', In p' repo.(glob_html) -> stem p' = stem p -> p' = p) ->
      (forall t, In t st.(tools) -> t.(slug) <> stem p)
      /\ PyDict.get (stem p) st.(gathered_links) = None).
Proof.
  intros Hg Hd. split; [eapply GatherFacts.no_changes_excluded; eauto|].
  intros Huniq. split.
  - intros t Ht Hs.
    destruct (@GatherFacts.gathered_tools_from _ _ _ Hg _ Ht)
      as (p' & cs & Hp' & (_ & Hd' & Hn) & ->).
    simpl in Hs. apply Huniq in Hs; auto. subst p'.
    rewrite Hd in Hd'. inversion Hd'. congruence.
  - destruct (PyDict.get (stem p) st.(gathered_links)) as [e|] eqn:E; auto.
    apply DictFacts.get_In in E.
    destruct (@GatherFacts.gathered_entries_from _ _ _ Hg _ _ E)
      as (p' & cs & Hp' & (_ & Hd' & Hn) & Hs & ->).
    symmetry in Hs. apply Huniq in Hs; auto. subst p'.
    rewrite Hd in Hd'. inversion Hd'. congruence.
Qed.

(** The page [ghost.html], which the history does not know. *)
Lemma no_changes_no_outputs_witness :
  exists st,
    gathered Examples.hash_one Examples.widget_repo = Ok st
    /\ get_file_commit_details
         (Examples.widget_repo.(git_log) "ghost.html") = Ok []
    /\ excluded st "ghost.html"
    /\ ((forall p', In p' Examples.widget_repo.(glob_html) ->
                    stem p' = stem "ghost.html" -> p' = "ghost.html") ->
        (forall t, In t st.(tools) -> t.(slug) <> stem "ghost.html")
        /\ PyDict.get (stem "ghost.html") st.(gathered_links) = None).
Proof.
  destruct (gathered Examples.hash_one Examples.widget_repo) as [st|e] eqn:E;
    [|vm_compute in E; discriminate].
  exists st. split; [reflexivity|]. split; [reflexivity|].
  apply (@no_changes_no_outputs Examples.hash_one Examples.widget_repo st
           "ghost.html" E).
  reflexivity.
Defined.

End GatherClaims.

(* ================================================================== *)
(** * Properties of build_by_month.py *)
(* ================================================================== *)

Module ByMonthFacts.
Import PyStr Data BuildByMonth ByMonthSpec.

Lemma grouped_nil : grouped [] [].
Proof. split; [constructor|reflexivity]. Qed.

Lemma add_tool_grouped (d : PyDict.dict (list Tool)) (seen : list Tool)
    (t : Tool) :
  grouped d seen -> grouped (add_tool d t) (seen ++ [t]).
Proof.
  intros [Hnd Hget]. unfold add_tool.
  destruct (truthy t.(created)) eqn:Ht.
  - set (ym := take 7 t.(created)). split.
    + rewrite DictFacts.keys_set.
      destruct (PyDict.get ym d) eqn:E; auto.
      apply DictFacts.get_None_keys in E.
      apply NoDup_app_remove_l with (l := []). simpl.
      apply Permutation_NoDup with (l := ym :: PyDict.keys d).
      * apply Permutation_cons_append.
      * now constructor.
    + intros k. rewrite filter_app. cbn [filter]. unfold in_month at 2.
      rewrite Ht. cbn [andb]. fold ym.
      destruct (String.eqb_spec ym k) as [<-|Hn].
      * rewrite DictFacts.get_set_same, Hget.
        destruct (filter (in_month ym) seen); reflexivity.
      * rewrite DictFacts.get_set_other by congruence.
        rewrite app_nil_r. apply Hget.
  - split; auto. intros k. rewrite filter_app. cbn [filter].
    unfold in_month at 2. rewrite Ht. cbn [andb]. rewrite app_nil_r.
    apply Hget.
Qed.

Lemma fold_grouped (ts : list Tool) :
  forall d seen, grouped d seen ->
                 grouped (fold_left add_tool ts d) (seen ++ ts).
Proof.
  induction ts as [|t ts IH]; intros d seen H; simpl.
  - now rewrite app_nil_r.
  - replace (seen ++ t :: ts)%list with ((seen ++ [t]) ++ ts)%list
      by (rewrite <- app_assoc; reflexivity).
    apply IH. now apply add_tool_grouped.
Qed.

Lemma group_by_month_grouped (tools : list Tool) :
  grouped (group_by_month tools) tools.
Proof. apply (fold_grouped tools grouped_nil). Qed.

Lemma bucket_of_key (tools : list Tool) (k : string) :
  In k (PyDict.keys (group_by_month tools)) ->
  bucket_of (group_by_month tools) k = filter (in_month k) tools
  /\ filter (in_month k) tools <> [].
Proof.
  destruct (group_by_month_grouped tools) as [_ Hget]. intros Hk.
  unfold bucket_of. rewrite Hget.
  destruct (filter (in_month k) tools) eqn:E.
  - exfalso. revert Hk. apply DictFacts.get_None_keys. now rewrite Hget, E.
  - split; [reflexivity|discriminate].
Qed.

Lemma month_is_key (tools : list Tool) (t : Tool) :
  In t tools -> t.(created) <> EmptyString ->
  In (take 7 t.(created)) (PyDict.keys (group_by_month tools)).
Proof.
  intros Ht Hc. destruct (group_by_month_grouped tools) as [_ Hget].
  destruct (in_dec string_dec (take 7 t.(created))
              (PyDict.keys (group_by_month tools))) as [|Hn]; auto.
  apply DictFacts.get_None_keys in Hn. rewrite Hget in Hn.
  assert (Hin : In t (filter (in_month (take 7 t.(created))) tools)).
  { apply filter_In. split; auto. unfold in_month.
    rewrite String.eqb_refl. destruct (created t); [congruence|reflexivity]. }
  destruct (filter _ tools); [contradiction|discriminate].
Qed.

Lemma months_decreasing (d : PyDict.dict (list Tool)) :
  NoDup (PyDict.keys d) ->
  StronglySorted (fun a b => lt b a) (sorted_months d).
Proof.
  intros Hnd. unfold sorted_months.
  assert (Hs := SortFacts.sorted_sorted (fun k : string => k) true (PyDict.keys d)).
  assert (Hn : NoDup (PySort.sorted (fun k : string => k) true (PyDict.keys d))).
  { eapply Permutation_NoDup; [|exact Hnd].
    symmetry. apply SortFacts.sorted_perm. }
  induction Hs as [|x l Hs IH Hx]; constructor.
  - apply IH. now inversion Hn.
  - inversion Hn as [|? ? Hnot _]; subst.
    rewrite Forall_forall in *. intros y Hy.
    apply StrOrder.ltb_iff. split; [apply (Hx y Hy)|].
    intros ->. contradiction.
Qed.

Lemma month_buckets_keys (tools : list Tool) :
  map fst (month_buckets tools) = sorted_months (group_by_month tools).
Proof.
  unfold month_buckets. rewrite map_map. simpl. apply map_id.
Qed.

Lemma month_buckets_In (tools : list Tool) (k : string) (l : list Tool) :
  In (k, l) (month_buckets tools) ->
  In k (PyDict.keys (group_by_month tools))
  /\ l = PySort.sorted created false (filter (in_month k) tools).
Proof.
  unfold month_buckets. rewrite in_map_iff. intros (ym & E & Hym).
  inversion E. subst k l. unfold sorted_months in Hym.
  apply SortFacts.sorted_In in Hym. split; auto.
  now destruct (bucket_of_key tools ym Hym) as [-> _].
Qed.

(** The records a renderer emits in a bucket are records of the list. *)
Lemma month_buckets_sub (tools : list Tool) (k : string) (l : list Tool)
    (t : Tool) :
  In (k, l) (month_buckets tools) -> In t l -> In t tools.
Proof.
  intros H Ht. apply month_buckets_In in H. destruct H as [_ ->].
  apply SortFacts.sorted_In in Ht. now apply filter_In in Ht.
Qed.

(** C7.  The buckets that the By-Month renderer emits: their keys are
    strictly decreasing; a bucket holds exactly the records whose creation
    date is not empty and starts with its key, each as often as the list
    holds it, in non-decreasing order of creation date; every record with
    a creation date is in the bucket of the first seven characters of that
    date; and a record in a bucket has a creation date, which starts with
    the key of the bucket, so that a record without one is in no bucket. *)
Theorem by_month_partition (tools : list Tool) :
  let bs := month_buckets tools in
  keys_decreasing bs
  /\ (forall k l, In (k, l) bs ->
        Permutation l (filter (in_month k) tools) /\ created_ascending l)
  /\ (forall t, In t tools -> t.(created) <> EmptyString ->
        exists l, In (take 7 t.(created), l) bs /\ In t l)
  /\ (forall k l t, In (k, l) bs -> In t l ->
        t.(created) <> EmptyString /\ k = take 7 t.(created)).
Proof.
  cbv zeta. repeat split.
  - unfold keys_decreasing. rewrite month_buckets_keys.
    apply months_decreasing. apply group_by_month_grouped.
  - apply month_buckets_In in H. destruct H as [_ ->].
    apply SortFacts.sorted_perm.
  - apply month_buckets_In in H. destruct H as [_ ->].
    apply (SortFacts.sorted_sorted created false).
  - intros t Ht Hc.
    set (k := take 7 t.(created)).
    exists (PySort.sorted created false (bucket_of (group_by_month tools) k)).
    assert (Hk := month_is_key tools t Ht Hc). fold k in Hk. split.
    + unfold month_buckets. apply in_map_iff. exists k. split; auto.
      unfold sorted_months. now apply SortFacts.sorted_In.
    + apply SortFacts.sorted_In.
      destruct (bucket_of_key tools k Hk) as [-> _].
      apply filter_In. split; auto. unfold in_month. fold k.
      rewrite String.eqb_refl. destruct (created t); [congruence|reflexivity].
  - apply month_buckets_In in H. destruct H as [_ ->].
    apply SortFacts.sorted_In, filter_In in H0. destruct H0 as [_ H0].
    unfold in_month in H0. apply andb_prop in H0. destruct H0 as [H0 _].
    intros E. rewrite E in H0. discriminate.
  - apply month_buckets_In in H. destruct H as [_ ->].
    apply SortFacts.sorted_In, filter_In in H0. destruct H0 as [_ H0].
    unfold in_month in H0. apply andb_prop in H0. destruct H0 as [_ H0].
    symmetry. now apply String.eqb_eq.
Qed.

End ByMonthFacts.

Module TruncationFacts.
Import PyStr Data BuildByMonth.

Lemma take_length (n : nat) (s : string) :
  (n <= String.length s)%nat -> String.length (take n s) = n.
Proof.
  revert s. induction n as [|n IH]; intros [|c s]; simpl; auto; try lia.
  intros H. rewrite IH; lia.
Qed.

Lemma take_prefix (n : nat) (s : string) : String.prefix (take n s) s = true.
Proof.
  revert s. induction n as [|n IH]; intros [|c s]; simpl; auto.
  rewrite IH. now destruct (ascii_dec c c).
Qed.

(** C8.  The text put into the description span of the By-Month view: a
    description of at most 150 characters as it is, a longer one as its
    first 150 characters followed by three dots.  Every description that
    is not empty is emitted, in a span of its own. *)
Theorem description_truncation (d : string) :
  ((String.length d <= 150)%nat -> short_desc d = d)
  /\ ((150 < String.length d)%nat ->
      short_desc d = take 150 d ++ "..."
      /\ String.length (take 150 d) = 150
      /\ String.prefix (take 150 d) d = true)
  /\ (d <> EmptyString ->
      description_html d =
      "<span class=" ++ q "tool-description" ++ ">" ++ short_desc d
      ++ "</span>" ++ nl).
Proof.
  unfold short_desc, description_html. repeat split.
  - intros H. destruct (Nat.ltb_spec 150 (String.length d)); [lia|reflexivity].
  - destruct (Nat.ltb_spec 150 (String.length d)); [reflexivity|lia].
  - apply take_length. lia.
  - apply take_prefix.
  - intros H. destruct d; [congruence|reflexivity].
Qed.

End TruncationFacts.

(* ================================================================== *)
(** * Properties of build_index.py *)
(* ================================================================== *)

Module ListFacts.

Lemma StronglySorted_app (A : Type) (R : A -> A -> Prop) (l1 l2 : list A) :
  StronglySorted R (l1 ++ l2) ->
  StronglySorted R l1 /\ StronglySorted R l2
  /\ forall x y, In x l1 -> In y l2 -> R x y.
Proof.
  induction l1 as [|a l1 IH]; simpl; intros H.
  - repeat split; [constructor|auto|contradiction].
  - inversion H as [|? ? Hs Hall]; subst.
    destruct (IH Hs) as (H1 & H2 & H3). repeat split; auto.
    + constructor; auto. rewrite Forall_forall in *.
      intros x Hx. apply Hall. apply in_or_app. auto.
    + intros x y [<-|Hx] Hy; auto.
      rewrite Forall_forall in Hall. apply Hall. apply in_or_app. auto.
Qed.

Lemma StronglySorted_filter (A : Type) (R : A -> A -> Prop) (f : A -> bool)
    (l : list A) :
  StronglySorted R l -> StronglySorted R (filter f l).
Proof.
  induction 1 as [|a l Hs IH Hall]; simpl; [constructor|].
  destruct (f a); auto. constructor; auto.
  rewrite Forall_forall in *. intros x Hx. apply Hall.
  now apply filter_In in Hx.
Qed.

Lemma Permutation_filter (A : Type) (f : A -> bool) (l l' : list A) :
  Permutation l l' -> Permutation (filter f l) (filter f l').
Proof.
  induction 1 as [|x l l' _ IH|x y l|l l' l'' _ IH1 _ IH2]; simpl; auto.
  - destruct (f x); auto.
  - destruct (f x), (f y); auto. apply perm_swap.
  - now transitivity (filter f l').
Qed.

Lemma NoDup_map_eq (A B : Type) (f : A -> B) (l : list A) (x y : A) :
  NoDup (map f l) -> In x l -> In y l -> f x = f y -> x = y.
Proof.
  induction l as [|a l IH]; simpl; [contradiction|].
  intros Hnd Hx Hy E. inversion Hnd as [|? ? Hnot Hnd']; subst.
  destruct Hx as [->|Hx], Hy as [->|Hy]; auto.
  - exfalso. apply Hnot. rewrite E. now apply in_map.
  - exfalso. apply Hnot. rewrite <- E. now apply in_map.
Qed.

Lemma firstn_In (A : Type) (n : nat) (l : list A) (x : A) :
  In x (firstn n l) -> In x l.
Proof.
  intros H. rewrite <- (firstn_skipn n l). apply in_or_app. auto.
Qed.

End ListFacts.

Module IndexFacts.
Import PyStr Data BuildIndex IndexSpec.

(** The loop with its [break] takes, after what it holds already, the
    first records of the pool that pass the test, up to the limit. *)
Lemma collect_updated_firstn (slugs : list string) (pool : list Tool) :
  forall acc, (List.length acc < RECENT_LIMIT)%nat ->
    collect_updated slugs pool acc =
    (acc ++ firstn (RECENT_LIMIT - List.length acc)
                   (filter (fun t => not_in t.(slug) slugs) pool))%list.
Proof.
  induction pool as [|t pool IH]; intros acc Hacc;
    cbn [collect_updated filter].
  - now rewrite firstn_nil, app_nil_r.
  - destruct (not_in t.(slug) slugs); [|now apply IH].
    rewrite length_app. cbn [List.length].
    destruct (Nat.leb_spec RECENT_LIMIT (List.length acc + 1)) as [Hle|Hlt].
    + assert (E : (RECENT_LIMIT - List.length acc = 1)%nat) by lia.
      rewrite E. reflexivity.
    + rewrite IH by (rewrite length_app; cbn [List.length]; lia).
      rewrite length_app. cbn [List.length]. rewrite <- app_assoc.
      assert (E : (RECENT_LIMIT - List.length acc
                   = S (RECENT_LIMIT - (List.length acc + 1)))%nat) by lia.
      rewrite E. reflexivity.
Qed.

Lemma recently_updated_eq (tools : list Tool) :
  recently_updated tools =
  firstn RECENT_LIMIT
    (filter (fun t => not_in t.(slug) (map slug (by_created tools)))
            (by_updated tools)).
Proof.
  unfold recently_updated. rewrite collect_updated_firstn.
  - reflexivity.
  - unfold RECENT_LIMIT. simpl. lia.
Qed.

(** The first [n] elements of a list in non-increasing order are a choice
    of the [n] greatest of any list with the same elements. *)
Lemma firstn_top_n (key : Tool -> string) (n : nat) (pool l : list Tool) :
  Permutation pool l ->
  StronglySorted (fun a b => le (key b) (key a)) l ->
  top_n key n pool (firstn n l).
Proof.
  intros Hp Hs. exists (skipn n l).
  rewrite (firstn_skipn n l), length_firstn, (Permutation_length Hp).
  rewrite <- (firstn_skipn n l) in Hs.
  destruct (@ListFacts.StronglySorted_app _ _ _ _ Hs) as (H1 & _ & H3).
  auto.
Qed.

Lemma sorted_desc (key : Tool -> string) (l : list Tool) :
  StronglySorted (fun a b => le (key b) (key a)) (PySort.sorted key true l).
Proof. apply (SortFacts.sorted_sorted key true). Qed.

Lemma by_created_In (tools : list Tool) (t : Tool) :
  In t (by_created tools) -> In t tools.
Proof.
  unfold by_created. intros H. apply ListFacts.firstn_In in H.
  now apply SortFacts.sorted_In in H.
Qed.

Lemma recently_updated_In (tools : list Tool) (t : Tool) :
  In t (recently_updated tools) -> In t tools.
Proof.
  rewrite recently_updated_eq. intros H. apply ListFacts.firstn_In in H.
  apply filter_In in H. destruct H as [H _].
  now apply SortFacts.sorted_In in H.
Qed.

(** With slugs as keys, the test on the slug is the test on the record. *)
Lemma not_in_slug_not_among (tools added : list Tool) (t : Tool) :
  unique_slugs tools -> (forall a, In a added -> In a tools) -> In t tools ->
  not_in t.(slug) (map slug added) = not_among added t.
Proof.
  intros Hu Hsub Ht. unfold not_in, not_among.
  destruct (in_dec Tool_eq_dec t added) as [Hin|Hnin].
  - apply negb_false_iff, existsb_exists. exists t.(slug).
    split; [now apply in_map|apply String.eqb_refl].
  - apply negb_true_iff. destruct (existsb _ _) eqn:E; auto.
    apply existsb_exists in E. destruct E as (s & Hs & E).
    apply String.eqb_eq in E. subst s.
    apply in_map_iff in Hs. destruct Hs as (a & Ea & Ha).
    exfalso. apply Hnin.
    now rewrite <- (ListFacts.NoDup_map_eq slug tools a t Hu (Hsub a Ha) Ht Ea).
Qed.

(** C9.  With [RECENT_LIMIT] equal to 5: the recently-added list is a
    choice of the five records with the latest creation dates, latest
    first (all records when there are fewer); the recently-updated list is
    a choice of the five records with the latest update dates, latest
    first, among the records whose slug is the slug of no record of the
    recently-added list (all of them when there are fewer).  Slugs being
    keys of the records, those are the records that are not in the
    recently-added list. *)
Theorem recent_digests (tools : list Tool) :
  RECENT_LIMIT = 5
  /\ top_n created RECENT_LIMIT tools (by_created tools)
  /\ top_n updated RECENT_LIMIT
           (filter (slug_not_among (by_created tools)) tools)
           (recently_updated tools)
  /\ (unique_slugs tools ->
      filter (slug_not_among (by_created tools)) tools
      = filter (not_among (by_created tools)) tools).
Proof.
  split; [reflexivity|]. split; [|split].
  - apply firstn_top_n; [|apply sorted_desc].
    symmetry. apply SortFacts.sorted_perm.
  - rewrite recently_updated_eq. apply firstn_top_n.
    + apply ListFacts.Permutation_filter. symmetry.
      apply SortFacts.sorted_perm.
    + apply ListFacts.StronglySorted_filter, sorted_desc.
  - intros Hu. apply filter_ext_in. intros t Ht.
    apply (@not_in_slug_not_among tools (by_created tools) t Hu); auto.
    apply by_created_In.
Qed.

(** Seven records with distinct slugs: five are recently added, the two
    others recently updated. *)
Lemma recent_digests_witness :
  unique_slugs Examples.seven_tools
  /\ map slug (by_created Examples.seven_tools) = ["a"; "b"; "c"; "d"; "e"]
  /\ map slug (recently_updated Examples.seven_tools) = ["g"; "f"]
  /\ top_n updated RECENT_LIMIT
           (filter (not_among (by_created Examples.seven_tools))
                   Examples.seven_tools)
           (recently_updated Examples.seven_tools).
Proof.
  assert (Hu : unique_slugs Examples.seven_tools).
  { unfold unique_slugs. simpl. repeat constructor; simpl; intuition congruence. }
  destruct (recent_digests Examples.seven_tools) as (_ & _ & Hupd & Heq).
  split; [exact Hu|]. split; [reflexivity|]. split; [reflexivity|].
  rewrite <- (Heq Hu). exact Hupd.
Defined.

Lemma collect_updated_none (slugs : list string) (pool acc : list Tool) :
  (forall t, In t pool -> In t.(slug) slugs) ->
  collect_updated slugs pool acc = acc.
Proof.
  induction pool as [|t pool IH]; simpl; intros H; auto.
  assert (E : not_in t.(slug) slugs = false).
  { apply negb_false_iff, existsb_exists. exists t.(slug).
    split; [auto|apply String.eqb_refl]. }
  rewrite E. auto.
Qed.

(** C10.  For a list of at most five records: every record is in the
    recently-added list, the recently-updated list is empty, and the
    digest consists of the opening of the block, the recently-added
    section and the closing of the block, with no recently-updated
    section between them (for the empty list the digest is empty). *)
Theorem small_list_digest (tools : list Tool) :
  (List.length tools <= 5)%nat ->
  (forall t, In t tools -> In t (by_created tools))
  /\ recently_updated tools = []
  /\ updated_html (recently_updated tools) = EmptyString
  /\ build_recent_section tools =
     match tools with
     | [] => EmptyString
     | _ :: _ =>
         "<div class=" ++ q "recent-section" ++ ">" ++ nl
         ++ added_html (by_created tools) ++ "</div>"
     end.
Proof.
  intros Hlen.
  assert (Hall : by_created tools = PySort.sorted created true tools).
  { unfold by_created. apply firstn_all2.
    rewrite SortFacts.sorted_length. exact Hlen. }
  assert (Hin : forall t, In t tools -> In t (by_created tools)).
  { intros t Ht. rewrite Hall. now apply SortFacts.sorted_In. }
  assert (Hnone : recently_updated tools = []).
  { unfold recently_updated. apply collect_updated_none.
    intros t Ht. apply in_map, Hin.
    now apply SortFacts.sorted_In in Ht. }
  repeat split; auto.
  - now rewrite Hnone.
  - unfold build_recent_section. rewrite Hnone. reflexivity.
Qed.

(** Three records: all are recently added, none recently updated. *)
Lemma small_list_digest_witness :
  (List.length Examples.three_tools <= 5)%nat
  /\ map slug (by_created Examples.three_tools) = ["a"; "c"; "b"]
  /\ recently_updated Examples.three_tools = []
  /\ updated_html (recently_updated Examples.three_tools) = EmptyString.
Proof.
  assert (H : (List.length Examples.three_tools <= 5)%nat) by (simpl; lia).
  destruct (small_list_digest Examples.three_tools H) as (_ & H1 & H2 & _).
  repeat split; auto.
Defined.

End IndexFacts.

(* ================================================================== *)
(** * Failing queries *)
(* ================================================================== *)

Module HarvestFacts.
Import PyStr Data GatherLinks GatherSpec PipelineSpec.

Lemma project_keys (g : PyDict.dict History) :
  forall d k v, In (k, v) (fold_left BuildDates.add_date g d) ->
    In (k, v) d \/ exists s data, In (s, data) g /\ k = data.(file).
Proof.
  induction g as [|[s data] g IH]; simpl; intros d k v H; auto.
  destruct (IH _ _ _ H) as [Hin|(s' & data' & Hin & ->)].
  - destruct data.(commits) as [|c cs] eqn:E; auto.
    apply DictFacts.set_In in Hin. destruct Hin as [Hin|[-> _]]; auto.
    right. exists s, data. auto.
  - right. exists s', data'. auto.
Qed.

(** What is in neither output of the builder is in nothing derived from
    them. *)
Lemma excluded_absent_downstream (st : acc) (name : string) :
  excluded st name -> absent_downstream st name.
Proof.
  intros [Ht Hg]. repeat split.
  - intros k v H. unfold BuildDates.project in H.
    destruct (project_keys _ _ _ _ H) as [[]|(s & data & Hin & ->)].
    eapply Hg; eauto.
  - intros k l t Hb Hl. apply Ht.
    eapply ByMonthFacts.month_buckets_sub; eauto.
  - intros t H. apply Ht. now apply IndexFacts.by_created_In.
  - intros t H. apply Ht. now apply IndexFacts.recently_updated_In.
  - intros s data _ H. apply DictFacts.get_In in H. eapply Hg; eauto.
Qed.

(** The claim that every failure of the query gives an empty change
    sequence does not hold: when [git] cannot be started, the exception is
    not the one the harvester catches, and the whole run ends with it; and
    when [git] ends with a failure status after writing bytes that do not
    decode, the decoding raises before the status is looked at. *)
Lemma launch_failure_raises :
  ~ (forall p, query_failed p -> get_file_commit_details p = Ok [])
  /\ query_failed (Examples.no_git_repo.(git_log) "widget.html")
  /\ get_file_commit_details (Examples.no_git_repo.(git_log) "widget.html")
     = Raise OSError
  /\ gather_links Examples.hash_one Examples.no_git_repo Examples.empty_fs
     = Raise OSError
  /\ query_failed (Undecodable 128)
  /\ get_file_commit_details (Undecodable 128) = Raise UnicodeDecodeError.
Proof.
  split; [|repeat split; simpl; lia].
  intros H. specialize (H NotStarted I). discriminate.
Qed.

(** C5, amended.  When the query of a path runs, writes output that
    decodes as text, and ends with a failure status, the harvester returns
    the empty change sequence and raises nothing; the page then is in
    neither output of the builder and in nothing that the renderers and the
    dates projector derive from them. *)
Theorem exit_failure_excluded
    (str_hash : string -> Z) (repo : Repo) (p : string) :
  query_exit_failure (repo.(git_log) p) ->
  get_file_commit_details (repo.(git_log) p) = Ok []
  /\ forall st, gathered str_hash repo = Ok st ->
       excluded st p /\ absent_downstream st p.
Proof.
  intros Hq.
  assert (Hd : get_file_commit_details (repo.(git_log) p) = Ok []).
  { unfold get_file_commit_details, subprocess_run.
    destruct (repo.(git_log) p) as [rc out|rc|]; [|contradiction..].
    simpl in Hq. destruct (Z.eqb_spec rc 0); [contradiction|reflexivity]. }
  split; auto. intros st Hg.
  assert (He : excluded st p)
    by (eapply GatherFacts.no_changes_excluded; eauto).
  split; auto. now apply excluded_absent_downstream.
Qed.

(** The page [broken.html], whose query writes nothing and ends with
    status 128, in a run that succeeds. *)
Lemma exit_failure_excluded_witness :
  exists st,
    gathered Examples.hash_one Examples.widget_repo = Ok st
    /\ query_exit_failure (Examples.widget_repo.(git_log) "broken.html")
    /\ get_file_commit_details
         (Examples.widget_repo.(git_log) "broken.html") = Ok []
    /\ excluded st "broken.html"
    /\ absent_downstream st "broken.html".
Proof.
  destruct (gathered Examples.hash_one Examples.widget_repo) as [st|e] eqn:E;
    [|vm_compute in E; discriminate].
  exists st. split; [reflexivity|].
  assert (Hq : query_exit_failure
                 (Examples.widget_repo.(git_log) "broken.html"))
    by (simpl; lia).
  destruct (@exit_failure_excluded Examples.hash_one Examples.widget_repo
              "broken.html" Hq) as [Hd Hst].
  destruct (Hst st E) as [He Ha]. auto.
Defined.

End HarvestFacts.

(* ================================================================== *)
(** * Missing inputs *)
(* ================================================================== *)

Module PipelineFacts.
Import PyStr Data Pipeline.

Section Facts.
Variable format_month : string -> string.
Variable markdown_convert : string -> string.
Variable by_month_head colophon_head index_head index_style : string.

Local Abbreviation run_ :=
  (run format_month markdown_convert by_month_head colophon_head
       index_head index_style).

(** The input that [required] names is the one that decides: when it is
    there, the renderer writes its output document. *)
Lemma present_input_output_written (r : renderer) (fs : FS) :
  present fs (required r) = true ->
  has_output (fst (run_ r fs)) r = true.
Proof.
  destruct r; simpl;
    unfold BuildByMonth.build_by_month, BuildColophon.build_colophon,
      BuildIndex.build_index, BuildDates.build_dates;
    destruct fs as [rd tj gj dj ih bh ch]; simpl.
  - destruct tj; [reflexivity|discriminate].
  - destruct gj; [reflexivity|discriminate].
  - destruct rd; [reflexivity|discriminate].
  - destruct gj; [reflexivity|discriminate].
Qed.

(** The Index and Colophon renderers read [tools.json] when it is there
    and do without it when it is not. *)
Lemma index_without_tools (fs : FS) (md : string) :
  fs.(README_md) = Some md -> fs.(tools_json) = None ->
  (fst (run_ Index fs)).(index_html)
  = Some (BuildIndex.render markdown_convert index_head index_style md None).
Proof.
  intros H1 H2. simpl. unfold BuildIndex.build_index.
  rewrite H1, H2. reflexivity.
Qed.

Lemma colophon_without_tools (fs : FS) (g : PyDict.dict History) :
  fs.(gathered_links_json) = Some g -> fs.(tools_json) = None ->
  (fst (run_ Colophon fs)).(colophon_html)
  = Some (BuildColophon.render colophon_head g None).
Proof.
  intros H1 H2. simpl. unfold BuildColophon.build_colophon.
  rewrite H1, H2. reflexivity.
Qed.
End Facts.

(** C2.  Each of the four renderers, run where the input it requires is
    absent, prints one line that names the missing file and leaves every
    file as it was: its output document is not written. *)
Theorem missing_input_no_output
    (format_month markdown_convert : string -> string)
    (by_month_head colophon_head index_head index_style : string)
    (r : renderer) (fs : FS) :
  present fs (required r) = false ->
  run format_month markdown_convert by_month_head colophon_head
      index_head index_style r fs
  = (fs, [not_found r]).
Proof.
  destruct r; simpl;
    unfold BuildByMonth.build_by_month, BuildColophon.build_colophon,
      BuildIndex.build_index, BuildDates.build_dates.
  - destruct fs.(tools_json); [discriminate|reflexivity].
  - destruct fs.(gathered_links_json); [discriminate|reflexivity].
  - destruct fs.(README_md); [discriminate|reflexivity].
  - destruct fs.(gathered_links_json); [discriminate|reflexivity].
Qed.

(** The By-Month renderer where no file exists. *)
Lemma missing_input_no_output_witness :
  present Examples.empty_fs (required ByMonth) = false
  /\ run (fun s => s) (fun s => s) "<html>" "<html>" "<html>" "<body>"
         ByMonth Examples.empty_fs
     = (Examples.empty_fs,
        ["tools.json not found - run gather_links.py first"])
  /\ has_output Examples.empty_fs ByMonth = false.
Proof.
  split; [reflexivity|]. split; [|reflexivity].
  apply (@missing_input_no_output (fun s => s) (fun s => s)
           "<html>" "<html>" "<html>" "<body>" ByMonth Examples.empty_fs).
  reflexivity.
Defined.

End PipelineFacts.

(* ================================================================== *)
(** * The description of a tool *)
(* ================================================================== *)

Module DescriptionFacts.
Import PyStr Data GatherLinks DescriptionSpec.

(** Where no header line stands inside the first paragraph, the loop of
    [extract_description] computes the paragraph of the specification. *)
Lemma first_paragraph_spec (lines : list string) :
  forall acc,
    no_inner_header lines (negb (match acc with [] => true | _ => false end)) ->
    first_paragraph lines (negb (match acc with [] => true | _ => false end)) acc
    = DescriptionSpec.paragraph lines acc.
Proof.
  induction lines as [|line rest IH]; intros acc H; auto.
  cbn [first_paragraph DescriptionSpec.paragraph no_inner_header] in *.
  destruct (startswith "#" (strip line)) eqn:Eh.
  - destruct acc as [|a acc]; [|contradiction]. apply (IH [] H).
  - destruct (truthy (strip line)) eqn:Et.
    + destruct acc as [|a acc].
      * apply (IH [strip line] H).
      * apply (IH ((a :: acc) ++ [strip line])%list H).
    + destruct acc as [|a acc]; [apply (IH [] H)|reflexivity].
Qed.

Lemma extract_description_spec (content : string) :
  no_inner_header (split "010" (strip content)) false ->
  extract_description (Text content) = DescriptionSpec.description content.
Proof.
  intros H. unfold extract_description, DescriptionSpec.description.
  f_equal. exact (first_paragraph_spec _ [] H).
Qed.

(** A companion document that is absent or cannot be read gives the empty
    description, and so does one without a paragraph. *)
Lemma extract_description_empty :
  extract_description Absent = EmptyString
  /\ extract_description Unreadable = EmptyString
  /\ extract_description (Text (Examples.lines ["# Title"; "## More"]))
     = EmptyString.
Proof. repeat split. Qed.





End DescriptionFacts.

(* ================================================================== *)
(** * The elements of a set *)
(* ================================================================== *)

Module SetFacts.
Import PySet.

(** The keys of a table. *)
Local Abbreviation keys_of t :=
  (flat_map (fun e : entry => match e with
                              | Some (k, _) => [k]
                              | None => []
                              end) t).

Lemma store_keys (t : list entry) (i : nat) (k : string) (h : Z) (x : string) :
  In x (keys_of (store t i (Some (k, h)))) -> x = k \/ In x (keys_of t).
Proof.
  revert i. induction t as [|e t IH]; intros i; [now destruct i|].
  destruct i as [|i]; cbn [store flat_map]; rewrite !in_app_iff.
  - simpl. intros [[<-|[]]|H]; auto.
  - intros [H|H]; auto. destruct (IH _ H); auto.
Qed.

Lemma insert_clean_keys (msk : Z) (t : list entry) (e : entry) (x : string) :
  In x (keys_of (insert_clean msk t e)) ->
  In x (keys_of t) \/ In x (keys_of [e]).
Proof.
  unfold insert_clean. destruct e as [[k h]|]; auto.
  destruct (lookup t msk k h); auto.
  intros H. apply store_keys in H. destruct H as [->|H]; auto.
  right. simpl. auto.
Qed.

Lemma fold_insert_clean_keys (msk : Z) (old : list entry) (x : string) :
  forall t, In x (keys_of (fold_left (insert_clean msk) old t)) ->
            In x (keys_of t) \/ In x (keys_of old).
Proof.
  induction old as [|e old IH]; intros t H; simpl in H; auto.
  destruct (IH _ H) as [H1|H1].
  - apply insert_clean_keys in H1. destruct H1 as [H1|H1]; auto.
    right. cbn [flat_map]. apply in_or_app. left.
    simpl in H1. now rewrite app_nil_r in H1.
  - right. cbn [flat_map]. apply in_or_app. auto.
Qed.

Lemma keys_of_repeat (n : nat) : keys_of (repeat (@None (string * Z)) n) = [].
Proof. induction n; simpl; auto. Qed.

Lemma resize_keys (so : setobject) (minused : Z) (x : string) :
  In x (to_list (resize so minused)) -> In x (to_list so).
Proof.
  unfold to_list, resize. cbn [table]. intros H.
  apply fold_insert_clean_keys in H. destruct H as [H|H]; auto.
  now rewrite keys_of_repeat in H.
Qed.

Lemma add_keys (hash : string -> Z) (so : setobject) (key x : string) :
  In x (to_list (add hash so key)) -> x = key \/ In x (to_list so).
Proof.
  unfold add. destruct (lookup _ _ _ _) as [|i]; auto.
  match goal with
  | |- context [if ?b then _ else _] => destruct b
  end.
  - unfold to_list. cbn [table]. apply store_keys.
  - intros H. apply resize_keys in H. revert H.
    unfold to_list. cbn [table]. apply store_keys.
Qed.

(** A set built from a list lists only elements of that list. *)
Lemma of_list_keys (hash : string -> Z) (xs : list string) (x : string) :
  In x (to_list (of_list hash xs)) -> In x xs.
Proof.
  unfold of_list.
  assert (H : forall so, In x (to_list (fold_left (add hash) xs so)) ->
                         In x (to_list so) \/ In x xs).
  { induction xs as [|y xs IH]; intros so H; simpl in H; auto.
    destruct (IH _ H) as [H1|H1]; [|right; simpl; auto].
    apply add_keys in H1. destruct H1 as [->|H1]; simpl; auto. }
  intros Hx. destruct (H _ Hx) as [H1|H1]; auto.
  unfold to_list, empty_set in H1. cbn [table] in H1.
  now rewrite keys_of_repeat in H1.
Qed.

End SetFacts.

(* ================================================================== *)
(** * A set holds what was put into it *)
(* ================================================================== *)

Module SetComplete.
Import PySet SetSpec.

Local Abbreviation keys_of t :=
  (flat_map (fun e : entry => match e with
                              | Some (k, _) => [k]
                              | None => []
                              end) t).

(** The number of slots in use. *)
Local Abbreviation occ t := (List.length (keys_of t)).

Lemma slot_keys (t : list entry) (i : Z) (k : string) (h : Z) :
  slot t i = Some (k, h) -> In k (keys_of t).
Proof.
  unfold slot. intros E. apply in_flat_map. exists (Some (k, h)).
  split; [|simpl; auto]. rewrite <- E.
  apply nth_In. destruct (Nat.lt_ge_cases (Z.to_nat i) (List.length t)); auto.
  rewrite nth_overflow in E by assumption. discriminate.
Qed.

Lemma linear_spec (t : list entry) (key : string) (h : Z) (probes : nat) :
  forall i r, linear t key h i probes = Some r ->
    match r with
    | Active => In key (keys_of t)
    | Unused j => (i <= j <= i + Z.of_nat probes)%Z /\ slot t j = None
    end.
Proof.
  induction probes as [|p IH]; intros i r; cbn [linear];
    destruct (slot t i) as [[k h']|] eqn:Es.
  - destruct ((h' =? h)%Z && String.eqb k key) eqn:E; [|discriminate].
    intros H. inversion H. apply andb_prop in E. destruct E as [_ E].
    apply String.eqb_eq in E. subst k. eapply slot_keys; eauto.
  - intros H. inversion H. split; [lia|assumption].
  - destruct ((h' =? h)%Z && String.eqb k key) eqn:E.
    + intros H. inversion H. apply andb_prop in E. destruct E as [_ E].
      apply String.eqb_eq in E. subst k. eapply slot_keys; eauto.
    + intros H. specialize (IH _ _ H). destruct r; auto.
      destruct IH as [IH1 IH2]. split; [lia|assumption].
  - intros H. inversion H. split; [lia|assumption].
Qed.

Lemma first_free_spec (t : list entry) :
  forall i0, In None t ->
    (i0 <= first_free t i0)%Z
    /\ (Z.to_nat (first_free t i0 - i0) < List.length t)%nat
    /\ nth (Z.to_nat (first_free t i0 - i0)) t None = None.
Proof.
  induction t as [|e t IH]; intros i0 Hin; [contradiction|].
  destruct e as [x|]; cbn [first_free].
  - destruct Hin as [Hin|Hin]; [discriminate|].
    destruct (IH (i0 + 1)%Z Hin) as (H1 & H2 & H3).
    replace (Z.to_nat (first_free t (i0 + 1) - i0))
      with (S (Z.to_nat (first_free t (i0 + 1) - (i0 + 1)))) by lia.
    cbn [List.length nth]. repeat split; auto; lia.
  - replace (i0 - i0)%Z with 0%Z by lia. simpl. repeat split; lia.
Qed.

Lemma land_mask (x k : Z) :
  (0 <= k)%Z -> (0 <= Z.land x (2 ^ k - 1) <= 2 ^ k - 1)%Z.
Proof.
  intros Hk.
  assert (E : (2 ^ k - 1)%Z = Z.ones k) by (rewrite Z.ones_equiv; lia).
  rewrite E, Z.land_ones, <- E by assumption.
  assert (0 < 2 ^ k)%Z by (apply Z.pow_pos_nonneg; lia).
  generalize (Z.mod_pos_bound x (2 ^ k)). lia.
Qed.

(** What the search for a key finds in a table of [2 ^ k] slots that has a
    free slot: the key, or a free slot of the table. *)
Lemma probe_spec (t : list entry) (k : Z) (key : string) (h : Z) :
  (0 <= k)%Z -> Z.of_nat (List.length t) = (2 ^ k)%Z -> In None t ->
  forall fuel i perturb r,
    (0 <= i <= 2 ^ k - 1)%Z ->
    probe fuel t (2 ^ k - 1) key h i perturb = r ->
    match r with
    | Active => In key (keys_of t)
    | Unused j => (0 <= j <= 2 ^ k - 1)%Z /\ slot t j = None
    end.
Proof.
  intros Hk Hlen Hfree. induction fuel as [|f IH]; intros i perturb r Hi;
    cbn [probe].
  - intros <-. destruct (first_free_spec t 0 Hfree) as (H1 & H2 & H3).
    rewrite Z.sub_0_r in H2, H3. split; [lia|exact H3].
  - set (probes := if (i + LINEAR_PROBES <=? 2 ^ k - 1)%Z
                   then Z.to_nat LINEAR_PROBES else 0%nat).
    destruct (linear t key h i probes) as [r'|] eqn:El.
    + intros <-. apply linear_spec in El. destruct r'; auto.
      destruct El as [H1 H2]. split; auto.
      unfold probes in H1.
      destruct (Z.leb_spec (i + LINEAR_PROBES) (2 ^ k - 1)); lia.
    + apply IH. now apply land_mask.
Qed.

Lemma lookup_spec (t : list entry) (k : Z) (key : string) (h : Z) :
  (0 <= k)%Z -> Z.of_nat (List.length t) = (2 ^ k)%Z -> In None t ->
  match lookup t (2 ^ k - 1) key h with
  | Active => In key (keys_of t)
  | Unused j => (Z.to_nat j < List.length t)%nat
                /\ nth (Z.to_nat j) t None = None
  end.
Proof.
  intros Hk Hlen Hfree. unfold lookup.
  assert (H := @probe_spec t k key h Hk Hlen Hfree
                 (64 + 2 * List.length t)
                 (Z.land (as_size_t h) (2 ^ k - 1)) (as_size_t h) _
                 (land_mask (as_size_t h) Hk) eq_refl).
  destruct (probe _ _ _ _ _ _ _); auto.
  destruct H as [H1 H2]. split; [lia|exact H2].
Qed.

Lemma store_length (t : list entry) (e : entry) :
  forall i, List.length (store t i e) = List.length t.
Proof.
  induction t as [|x t IH]; intros [|i]; simpl; auto.
Qed.

Lemma store_free (t : list entry) (k : string) (h : Z) :
  forall i, (i < List.length t)%nat -> nth i t None = None ->
    occ (store t i (Some (k, h))) = S (occ t)
    /\ forall x, x = k \/ In x (keys_of t) ->
                 In x (keys_of (store t i (Some (k, h)))).
Proof.
  induction t as [|e t IH]; intros i Hi Hn; [simpl in Hi; lia|].
  destruct i as [|i]; cbn [store flat_map nth] in *.
  - subst e. simpl. split; auto. intros x [->|H]; auto.
  - destruct (IH i ltac:(simpl in Hi; lia) Hn) as [H1 H2].
    rewrite !length_app, H1. split; [lia|].
    intros x Hx. apply in_or_app.
    destruct Hx as [->|Hx]; [right; apply H2; auto|].
    apply in_app_or in Hx. destruct Hx; auto.
Qed.

Lemma free_exists (t : list entry) : (occ t < List.length t)%nat -> In None t.
Proof.
  induction t as [|e t IH]; cbn [flat_map List.length]; [lia|].
  destruct e as [[k h]|]; [|simpl; auto].
  rewrite length_app. simpl. intros H. right. apply IH. lia.
Qed.

Lemma insert_clean_spec (k : Z) (t : list entry) (e : entry) :
  (0 <= k)%Z -> Z.of_nat (List.length t) = (2 ^ k)%Z ->
  (occ t < List.length t)%nat ->
  List.length (insert_clean (2 ^ k - 1) t e) = List.length t
  /\ (occ (insert_clean (2 ^ k - 1) t e) <= occ t + occ [e])%nat
  /\ forall x, In x (keys_of t) \/ In x (keys_of [e]) ->
               In x (keys_of (insert_clean (2 ^ k - 1) t e)).
Proof.
  intros Hk Hlen Hocc. unfold insert_clean.
  destruct e as [[key h]|].
  - generalize (@lookup_spec t k key h Hk Hlen (free_exists t Hocc)).
    destruct (lookup t (2 ^ k - 1) key h) as [|j].
    + intros Hin. repeat split; [lia|].
      intros x [Hx|Hx]; auto. simpl in Hx. destruct Hx as [<-|[]]. exact Hin.
    + intros [Hj Hn]. destruct (store_free t key h Hj Hn) as [H1 H2].
      rewrite store_length, H1. repeat split; [simpl; lia|].
      intros x [Hx|Hx]; apply H2; auto.
      simpl in Hx. destruct Hx as [<-|[]]. auto.
  - repeat split; [lia|]. intros x [Hx|[]]. exact Hx.
Qed.

Lemma fold_insert_clean_spec (k : Z) (old : list entry) :
  (0 <= k)%Z ->
  forall t, Z.of_nat (List.length t) = (2 ^ k)%Z ->
    (occ t + occ old < List.length t)%nat ->
    List.length (fold_left (insert_clean (2 ^ k - 1)) old t) = List.length t
    /\ (occ (fold_left (insert_clean (2 ^ k - 1)) old t)
        <= occ t + occ old)%nat
    /\ forall x, In x (keys_of t) \/ In x (keys_of old) ->
                 In x (keys_of (fold_left (insert_clean (2 ^ k - 1)) old t)).
Proof.
  intros Hk. induction old as [|e old IH]; intros t Hlen Hocc;
    cbn [fold_left].
  - repeat split; [simpl; lia|]. intros x [Hx|[]]. exact Hx.
  - assert (Hsplit : occ (e :: old) = (occ [e] + occ old)%nat).
    { cbn [flat_map]. rewrite !length_app. simpl. lia. }
    rewrite Hsplit in *.
    destruct (@insert_clean_spec k t e Hk Hlen ltac:(lia)) as (H1 & H2 & H3).
    destruct (IH (insert_clean (2 ^ k - 1) t e)) as (G1 & G2 & G3).
    + now rewrite H1.
    + rewrite H1. lia.
    + rewrite G1, H1. repeat split; [lia|].
      intros x Hx. apply G3. destruct Hx as [Hx|Hx]; auto.
      cbn [flat_map] in Hx. apply in_app_or in Hx. destruct Hx as [Hx|Hx]; auto.
      left. apply H3. right. cbn [flat_map]. now rewrite app_nil_r.
Qed.

Lemma grow_spec (fuel : nat) :
  forall k0 m, (0 <= k0)%Z -> (m < 2 ^ (k0 + Z.of_nat fuel))%Z ->
    exists k, (k0 <= k)%Z /\ grow fuel (2 ^ k0) m = (2 ^ k)%Z /\ (m < 2 ^ k)%Z.
Proof.
  induction fuel as [|f IH]; intros k0 m Hk Hm; cbn [grow].
  - exists k0. rewrite Z.add_0_r in Hm. repeat split; auto; lia.
  - destruct (Z.leb_spec (2 ^ k0) m).
    + destruct (IH (k0 + 1)%Z m ltac:(lia)) as (k & H1 & H2 & H3).
      * replace (k0 + 1 + Z.of_nat f)%Z with (k0 + Z.of_nat (S f))%Z by lia.
        exact Hm.
      * exists k. rewrite Z.pow_add_r, Z.pow_1_r, Z.mul_comm in H2 by lia.
        repeat split; auto; lia.
    + exists k0. repeat split; auto; lia.
Qed.

Lemma empty_set_well_formed : well_formed empty_set.
Proof. exists 3%Z. repeat split; simpl; lia. Qed.

Lemma pow2_ge_8 (k : Z) : (3 <= k)%Z -> (8 <= 2 ^ k)%Z.
Proof.
  intros H. change 8%Z with (2 ^ 3)%Z. apply Z.pow_le_mono_r; lia.
Qed.

Lemma resize_spec (so : setobject) (minused : Z) :
  (exists k, (0 <= k)%Z /\ Z.of_nat (List.length so.(table)) = (2 ^ k)%Z) ->
  (Z.of_nat (occ so.(table)) <= so.(fill))%Z ->
  (0 < so.(fill))%Z -> (so.(fill) * 2 <= minused < 2 ^ 67)%Z ->
  well_formed (resize so minused)
  /\ (resize so minused).(fill) = so.(fill)
  /\ forall x, In x (to_list so) -> In x (to_list (resize so minused)).
Proof.
  intros _ Hocc Hfill Hmin. unfold resize.
  destruct (@grow_spec 64 3 minused ltac:(lia) ltac:(simpl; lia))
    as (k & Hk & Hg & Hm).
  change (2 ^ 3)%Z with PySet_MINSIZE in Hg. rewrite Hg.
  assert (Hpos : (0 < 2 ^ k)%Z) by (apply Z.pow_pos_nonneg; lia).
  assert (Hfresh : Z.of_nat (List.length
                      (repeat (@None (string * Z)) (Z.to_nat (2 ^ k))))
                   = (2 ^ k)%Z) by (rewrite repeat_length; lia).
  destruct (@fold_insert_clean_spec k so.(table) ltac:(lia)
              (repeat None (Z.to_nat (2 ^ k))) Hfresh)
    as (H1 & H2 & H3).
  { rewrite SetFacts.keys_of_repeat, repeat_length. simpl. lia. }
  rewrite SetFacts.keys_of_repeat in H2. simpl in H2.
  cbn [fill mask table to_list]. repeat split.
  - exists k. cbn [fill mask table]. repeat split; try lia.
    rewrite H1. exact Hfresh.
  - intros x Hx. unfold to_list. cbn [table]. apply H3. auto.
Qed.

Lemma add_spec (hash : string -> Z) (so : setobject) (key : string) :
  well_formed so -> (so.(fill) + 1 < 2 ^ 64)%Z ->
  well_formed (add hash so key)
  /\ (so.(fill) <= (add hash so key).(fill) <= so.(fill) + 1)%Z
  /\ forall x, x = key \/ In x (to_list so) ->
               In x (to_list (add hash so key)).
Proof.
  intros (k & Hk & Hmask & Hlen & Hocc & Hload) Hbound.
  assert (Hpow := pow2_ge_8 Hk).
  assert (Hfree : (occ so.(table) < List.length so.(table))%nat) by lia.
  unfold add. rewrite Hmask.
  generalize (@lookup_spec so.(table) k key (hash key) ltac:(lia) Hlen
                (free_exists _ Hfree)).
  destruct (lookup so.(table) (2 ^ k - 1) key (hash key)) as [|j].
  - intros Hin. split; [|split].
    + exists k. repeat split; auto.
    + lia.
    + intros x [->|Hx]; auto.
  - intros [Hj Hn].
    destruct (store_free so.(table) key (hash key) Hj Hn) as [H1 H2].
    cbn [fill mask].
    destruct (Z.ltb_spec ((so.(fill) + 1) * 5) ((2 ^ k - 1) * 3)).
    + split; [|split].
      * exists k. cbn [fill mask table]. rewrite store_length, H1.
        rewrite Hmask in *. repeat split; auto; lia.
      * cbn [fill]. lia.
      * intros x Hx. unfold to_list. cbn [table]. apply H2.
        destruct Hx; auto.
    + match goal with
      | |- context [resize ?s ?m] =>
          destruct (@resize_spec s m) as (G1 & G2 & G3)
      end.
      * exists k. cbn [table]. rewrite store_length. split; [lia|auto].
      * cbn [fill table]. rewrite H1. lia.
      * cbn [fill]. lia.
      * cbn [fill]. destruct (50000 <? so.(fill) + 1)%Z; lia.
      * split; [exact G1|]. rewrite G2. cbn [fill]. split; [lia|].
        intros x Hx. apply G3. unfold to_list. cbn [table]. apply H2.
        destruct Hx; auto.
Qed.

Lemma fold_add_spec (hash : string -> Z) (xs : list string) :
  forall so, well_formed so ->
    (so.(fill) + Z.of_nat (List.length xs) < 2 ^ 64)%Z ->
    forall x, In x (to_list so) \/ In x xs ->
              In x (to_list (fold_left (add hash) xs so)).
Proof.
  induction xs as [|y xs IH]; intros so Hwf Hb x Hx; cbn [fold_left].
  - destruct Hx as [Hx|[]]. exact Hx.
  - cbn [List.length] in Hb.
    destruct (@add_spec hash so y Hwf ltac:(lia)) as (H1 & H2 & H3).
    apply IH; [exact H1|lia|].
    destruct Hx as [Hx|[<-|Hx]]; auto.
Qed.

(** A set built from a list of fewer than [2 ^ 64] strings lists the
    elements of the list and nothing else. *)
Lemma of_list_elements (hash : string -> Z) (xs : list string) (x : string) :
  (Z.of_nat (List.length xs) < 2 ^ 64)%Z ->
  In x (to_list (of_list hash xs)) <-> In x xs.
Proof.
  intros Hb. split; [apply SetFacts.of_list_keys|].
  intros Hx. unfold of_list.
  apply fold_add_spec; auto using empty_set_well_formed.
Qed.

End SetComplete.

(* ================================================================== *)
(** * A set holds no key twice *)
(* ================================================================== *)

Module SetDistinct.
Import PySet SetSpec.

Local Abbreviation keys_of t :=
  (flat_map (fun e : entry => match e with
                              | Some (k, _) => [k]
                              | None => []
                              end) t).

(** ** The recurrence of the probe loop visits every slot *)

Lemma lcg_closed (n : nat) :
  forall x, lcg n x = (x + geometric n * (4 * x + 1))%Z.
Proof.
  induction n as [|n IH]; intros x; cbn [lcg geometric]; [lia|].
  rewrite IH. ring.
Qed.

Lemma lcg_add (n m : nat) : forall x, lcg (n + m) x = lcg m (lcg n x).
Proof. induction n as [|n IH]; intros x; simpl; auto. Qed.

Lemma geometric_add (m n : nat) :
  geometric (m + n)
  = (4 * geometric m * geometric n + geometric m + geometric n)%Z.
Proof.
  induction m as [|m IH]; cbn [Nat.add geometric]; [lia|].
  rewrite IH. ring.
Qed.

Lemma geometric_pow2 (k : nat) :
  exists q, geometric (2 ^ k) = (2 ^ Z.of_nat k * (2 * q + 1))%Z.
Proof.
  induction k as [|k (q & IH)].
  - exists 0%Z. reflexivity.
  - cbn [Nat.pow]. replace (2 * 2 ^ k)%nat with (2 ^ k + 2 ^ k)%nat by lia.
    rewrite geometric_add, IH, Nat2Z.inj_succ, Z.pow_succ_r by lia.
    set (P := (2 ^ Z.of_nat k)%Z).
    exists (2 * q * (P * (2 * q + 1)) + q + P * (2 * q + 1))%Z. ring.
Qed.

Lemma lcg_pow2 (k : nat) (z : Z) :
  exists r,
    lcg (2 ^ k) z = (z + 2 ^ Z.of_nat k + r * (2 * 2 ^ Z.of_nat k))%Z.
Proof.
  destruct (geometric_pow2 k) as (q & E). rewrite lcg_closed, E.
  exists (4 * q * z + q + 2 * z)%Z. ring.
Qed.

Lemma lcg_mod (n : nat) (M : Z) :
  forall x, (lcg n (x mod M) mod M = lcg n x mod M)%Z.
Proof.
  induction n as [|n IH]; intros x; cbn [lcg]; [apply Zmod_mod|].
  rewrite <- (IH (x mod M * 5 + 1)%Z), <- (IH (x * 5 + 1)%Z).
  do 2 f_equal.
  rewrite <- Zplus_mod_idemp_l, Zmult_mod_idemp_l, Zplus_mod_idemp_l.
  reflexivity.
Qed.

(** From every slot the recurrence reaches every slot of a table of
    [2 ^ k] slots in fewer than [2 ^ k] steps. *)
Lemma lcg_cover (k : nat) :
  forall x y, (0 <= y < 2 ^ Z.of_nat k)%Z ->
    exists n, (Z.of_nat n < 2 ^ Z.of_nat k)%Z
              /\ (lcg n x mod 2 ^ Z.of_nat k = y)%Z.
Proof.
  induction k as [|k IH]; intros x y Hy.
  - exists 0%nat. simpl in *. split; [lia|]. rewrite Z.mod_1_r. lia.
  - rewrite Nat2Z.inj_succ, Z.pow_succ_r in * by lia.
    set (P := (2 ^ Z.of_nat k)%Z) in *.
    assert (HP : (0 < P)%Z) by (apply Z.pow_pos_nonneg; lia).
    destruct (IH x (y mod P)%Z) as (n & Hn & En);
      [apply Z.mod_pos_bound; lia|].
    set (v := (lcg n x mod (2 * P))%Z).
    assert (Hv : (0 <= v < 2 * P)%Z) by (apply Z.mod_pos_bound; lia).
    assert (Ev : (v mod P = y mod P)%Z).
    { unfold v. rewrite <- En. apply Z.mod_mod_divide. exists 2%Z. lia. }
    destruct (Z.eq_dec v y) as [E|E].
    + exists n. split; [lia|exact E].
    + exists (n + 2 ^ k)%nat. split.
      * rewrite Nat2Z.inj_add, Nat2Z.inj_pow. simpl Z.of_nat. fold P. lia.
      * rewrite lcg_add. destruct (lcg_pow2 k (lcg n x)) as (r & ->).
        fold P. rewrite Z_mod_plus_full, <- Zplus_mod_idemp_l. fold v.
        assert (Hv1 := Z.div_mod v P ltac:(lia)).
        assert (Hy1 := Z.div_mod y P ltac:(lia)).
        assert (Hv2 := Z.mod_pos_bound v P HP).
        assert (Hy2 := Z.mod_pos_bound y P HP).
        rewrite Ev in Hv1.
        assert (Hvq : (v / P = 0 \/ v / P = 1)%Z) by nia.
        assert (Hyq : (y / P = 0 \/ y / P = 1)%Z) by nia.
        destruct Hvq as [Qv|Qv], Hyq as [Qy|Qy]; rewrite Qv, Qy in *.
        -- exfalso. apply E. lia.
        -- rewrite Z.mod_small; lia.
        -- replace (v + P)%Z with (y + 1 * (2 * P))%Z by lia.
           rewrite Z_mod_plus_full. apply Z.mod_small. lia.
        -- exfalso. apply E. lia.
Qed.

(** ** The probe loop ends within its bound *)

Lemma linear_None_slot (t : list entry) (key : string) (h i : Z)
    (probes : nat) :
  linear t key h i probes = None -> slot t i <> None.
Proof.
  destruct probes; cbn [linear]; destruct (slot t i) as [[k h']|];
    discriminate.
Qed.

Lemma probe_within_None (t : list entry) (msk : Z) (key : string) (h : Z) :
  forall f i p,
    probe_within f t msk key h i p = None ->
    forall n, (n < f)%nat -> slot t (fst (round_start n msk i p)) <> None.
Proof.
  induction f as [|f IH]; intros i p H n Hn; [lia|].
  cbn [probe_within] in H.
  destruct (linear t key h i _) eqn:El; [discriminate|].
  destruct n as [|n]; cbn [round_start].
  - simpl. eapply linear_None_slot; eauto.
  - apply IH; [exact H|lia].
Qed.

Lemma probe_within_probe (t : list entry) (msk : Z) (key : string) (h : Z) :
  forall f i p r,
    probe_within f t msk key h i p = Some r ->
    probe f t msk key h i p = r.
Proof.
  induction f as [|f IH]; intros i p r; cbn [probe_within probe];
    [discriminate|].
  destruct (linear t key h i _); [now intros [= ->]|apply IH].
Qed.

Lemma round_start_add (a n : nat) (msk : Z) :
  forall i p,
    round_start (a + n) msk i p
    = round_start n msk (fst (round_start a msk i p))
                  (snd (round_start a msk i p)).
Proof.
  induction a as [|a IH]; intros i p; cbn [Nat.add round_start]; auto.
Qed.

Lemma round_start_perturb (a : nat) (msk : Z) :
  forall i p,
    snd (round_start a msk i p) = Z.shiftr p (5 * Z.of_nat a).
Proof.
  induction a as [|a IH]; intros i p; cbn [round_start].
  - simpl. now rewrite Z.shiftr_0_r.
  - rewrite IH. unfold PERTURB_SHIFT. rewrite Z.shiftr_shiftr by lia.
    f_equal. lia.
Qed.

Lemma round_start_range (a : nat) (k : Z) :
  (0 <= k)%Z ->
  forall i p, (0 <= i <= 2 ^ k - 1)%Z ->
    (0 <= fst (round_start a (2 ^ k - 1) i p) <= 2 ^ k - 1)%Z.
Proof.
  intros Hk. induction a as [|a IH]; intros i p Hi; cbn [round_start]; auto.
  apply IH. now apply SetComplete.land_mask.
Qed.

Lemma land_mask_mod (x k : Z) :
  (0 <= k)%Z -> Z.land x (2 ^ k - 1) = (x mod 2 ^ k)%Z.
Proof.
  intros Hk.
  assert (E : (2 ^ k - 1)%Z = Z.ones k) by (rewrite Z.ones_equiv; lia).
  rewrite E. now apply Z.land_ones.
Qed.

Lemma round_start_lcg (n : nat) (k : Z) :
  (0 <= k)%Z ->
  forall x, (0 <= x < 2 ^ k)%Z ->
    round_start n (2 ^ k - 1) x 0 = ((lcg n x mod 2 ^ k)%Z, 0%Z).
Proof.
  intros Hk. induction n as [|n IH]; intros x Hx; cbn [round_start lcg].
  - now rewrite Z.mod_small.
  - rewrite Z.shiftr_0_l, Z.add_0_r, land_mask_mod by assumption.
    rewrite IH, lcg_mod; [reflexivity|].
    apply Z.mod_pos_bound. apply Z.pow_pos_nonneg; lia.
Qed.

(** The search in a table of [2 ^ k] slots that has a free slot ends
    within the rounds that [lookup] allows. *)
Lemma probe_within_ends (t : list entry) (k : Z) (key : string) (h i p : Z) :
  (0 <= k)%Z -> Z.of_nat (List.length t) = (2 ^ k)%Z -> In None t ->
  (0 <= i <= 2 ^ k - 1)%Z -> (0 <= p < 2 ^ 64)%Z ->
  probe_within (64 + 2 * List.length t) t (2 ^ k - 1) key h i p <> None.
Proof.
  intros Hk Hlen Hfree Hi Hp H.
  destruct (In_nth _ _ None Hfree) as (j & Hj & Ej).
  set (i13 := fst (round_start 13 (2 ^ k - 1) i p)).
  assert (Hi13 : (0 <= i13 <= 2 ^ k - 1)%Z) by now apply round_start_range.
  assert (Hc0 : (0 <= Z.of_nat j < 2 ^ k)%Z).
  { rewrite <- Hlen. split; [apply Nat2Z.is_nonneg|now apply Nat2Z.inj_lt]. }
  assert (Ek : k = Z.of_nat (Z.to_nat k)) by lia.
  assert (Hc : (0 <= Z.of_nat j < 2 ^ Z.of_nat (Z.to_nat k))%Z)
    by (rewrite <- Ek; exact Hc0).
  destruct (@lcg_cover _ i13 _ Hc) as (n & Hn & En).
  rewrite <- Ek in Hn, En.
  apply (@probe_within_None _ _ _ _ _ _ _ H (13 + n)%nat); [lia|].
  rewrite round_start_add, round_start_perturb. fold i13.
  assert (E0 : Z.shiftr p (5 * Z.of_nat 13) = 0%Z).
  { rewrite Z.shiftr_div_pow2 by lia. apply Z.div_small.
    change (5 * Z.of_nat 13)%Z with 65%Z.
    assert (2 ^ 64 < 2 ^ 65)%Z by (apply Z.pow_lt_mono_r; lia). lia. }
  rewrite E0, round_start_lcg by lia. cbn [fst]. rewrite En.
  unfold slot. now rewrite Nat2Z.id.
Qed.

(** ** A key that is stored is found *)

Lemma slot_store (t : list entry) (e : entry) :
  forall j i, (j < List.length t)%nat ->
    slot (store t j e) i = if Nat.eqb (Z.to_nat i) j then e else slot t i.
Proof.
  unfold slot. intros j i. generalize (Z.to_nat i). revert j.
  induction t as [|x t IH]; intros j m Hj; [simpl in Hj; lia|].
  destruct j as [|j], m as [|m]; cbn [store nth Nat.eqb]; auto.
  apply IH. simpl in Hj. lia.
Qed.

Lemma linear_store_other (t : list entry) (key : string) (h : Z) (j : nat)
    (e : entry) :
  (j < List.length t)%nat -> nth j t None = None ->
  forall probes i,
    match linear t key h i probes with
    | Some Active => linear (store t j e) key h i probes = Some Active
    | Some (Unused _) => True
    | None => linear (store t j e) key h i probes = None
    end.
Proof.
  intros Hj Hn. induction probes as [|probes IH]; intros i; cbn [linear];
    rewrite slot_store by assumption;
    destruct (Nat.eqb_spec (Z.to_nat i) j) as [E|E].
  - unfold slot. now rewrite E, Hn.
  - destruct (slot t i) as [[k h']|]; [|exact I].
    now destruct ((h' =? h)%Z && String.eqb k key).
  - unfold slot. now rewrite E, Hn.
  - destruct (slot t i) as [[k h']|]; [|exact I].
    destruct ((h' =? h)%Z && String.eqb k key); [reflexivity|apply IH].
Qed.

Lemma probe_within_store_other (t : list entry) (msk : Z) (key : string)
    (h : Z) (j : nat) (e : entry) :
  (j < List.length t)%nat -> nth j t None = None ->
  forall f i p,
    probe_within f t msk key h i p = Some Active ->
    probe_within f (store t j e) msk key h i p = Some Active.
Proof.
  intros Hj Hn. induction f as [|f IH]; intros i p; cbn [probe_within];
    [discriminate|].
  match goal with
  | |- context [linear t key h i ?n] =>
      generalize (@linear_store_other t key h j e Hj Hn n i);
      destruct (linear t key h i n) as [[|u]|]
  end.
  - now intros ->.
  - discriminate.
  - intros ->. apply IH.
Qed.

Lemma linear_store_same (t : list entry) (key : string) (h : Z) (j : nat) :
  (j < List.length t)%nat -> nth j t None = None ->
  forall probes i,
    match linear t key h i probes with
    | Some Active => True
    | Some (Unused u) =>
        Z.to_nat u = j ->
        linear (store t j (Some (key, h))) key h i probes = Some Active
    | None => linear (store t j (Some (key, h))) key h i probes = None
    end.
Proof.
  intros Hj Hn. induction probes as [|probes IH]; intros i; cbn [linear];
    rewrite slot_store by assumption;
    destruct (Nat.eqb_spec (Z.to_nat i) j) as [E|E].
  - unfold slot. rewrite E, Hn. intros _.
    now rewrite Z.eqb_refl, String.eqb_refl.
  - destruct (slot t i) as [[k h']|]; [|intros E'; now elim E].
    now destruct ((h' =? h)%Z && String.eqb k key).
  - unfold slot. rewrite E, Hn. intros _.
    now rewrite Z.eqb_refl, String.eqb_refl.
  - destruct (slot t i) as [[k h']|]; [|intros E'; now elim E].
    destruct ((h' =? h)%Z && String.eqb k key); [exact I|apply IH].
Qed.

Lemma probe_within_store_same (t : list entry) (msk : Z) (key : string)
    (h : Z) (j : nat) :
  (j < List.length t)%nat -> nth j t None = None ->
  forall f i p u,
    probe_within f t msk key h i p = Some (Unused u) -> Z.to_nat u = j ->
    probe_within f (store t j (Some (key, h))) msk key h i p = Some Active.
Proof.
  intros Hj Hn. induction f as [|f IH]; intros i p u; cbn [probe_within];
    [discriminate|].
  match goal with
  | |- context [linear t key h i ?n] =>
      generalize (@linear_store_same t key h j Hj Hn n i);
      destruct (linear t key h i n) as [[|u']|]
  end.
  - discriminate.
  - intros L [= ->] E. now rewrite L.
  - intros ->. apply IH.
Qed.

(** ** The keys of a table stay distinct *)

(** The number of slots in use. *)
Local Abbreviation occ t := (List.length (keys_of t)).

Lemma store_free_perm (t : list entry) (k : string) (h : Z) :
  forall i, (i < List.length t)%nat -> nth i t None = None ->
    Permutation (keys_of (store t i (Some (k, h)))) (k :: keys_of t).
Proof.
  induction t as [|e t IH]; intros i Hi Hn; [simpl in Hi; lia|].
  destruct i as [|i]; cbn [store flat_map nth] in *.
  - subst e. reflexivity.
  - rewrite (IH i) by (simpl in Hi; lia || assumption).
    symmetry. apply Permutation_middle.
Qed.

Lemma store_In (t : list entry) (e x : entry) :
  forall i, In x (store t i e) -> x = e \/ In x t.
Proof.
  induction t as [|y t IH]; intros [|i]; cbn [store]; simpl; auto.
  - intros [H|H]; auto.
  - intros [H|H]; auto. destruct (IH _ H); auto.
Qed.

Lemma keys_entry (t : list entry) (k : string) :
  In k (keys_of t) <-> exists h, In (Some (k, h)) t.
Proof.
  rewrite in_flat_map. split.
  - intros ([[k' h]|] & Hin & Hk); [|contradiction].
    destruct Hk as [->|[]]. now exists h.
  - intros (h & Hin). exists (Some (k, h)). simpl. auto.
Qed.

(** A key of the table is found by the search for it. *)
Lemma lookup_present (hash : string -> Z) (msk : Z) (t : list entry)
    (key : string) :
  findable hash msk t -> In key (keys_of t) ->
  lookup t msk key (hash key) = Active.
Proof.
  intros Hf Hin. apply keys_entry in Hin. destruct Hin as (h & Hin).
  destruct (Hf _ _ Hin) as [-> Hp]. unfold lookup.
  now apply probe_within_probe.
Qed.

(** A key that is not in the table is put into a free slot, where the
    search for it finds it, and the other keys are found as before. *)
Lemma lookup_absent (hash : string -> Z) (k : Z) (t : list entry)
    (key : string) (h : Z) :
  (0 <= k)%Z -> Z.of_nat (List.length t) = (2 ^ k)%Z -> In None t ->
  h = hash key -> ~ In key (keys_of t) -> NoDup (keys_of t) ->
  findable hash (2 ^ k - 1) t ->
  exists u,
    lookup t (2 ^ k - 1) key h = Unused u
    /\ (Z.to_nat u < List.length t)%nat
    /\ nth (Z.to_nat u) t None = None
    /\ NoDup (keys_of (store t (Z.to_nat u) (Some (key, h))))
    /\ findable hash (2 ^ k - 1) (store t (Z.to_nat u) (Some (key, h))).
Proof.
  intros Hk Hlen Hfree Hh Hnew Hnd Hf.
  assert (Hsize : (0 <= as_size_t h < 2 ^ 64)%Z)
    by (apply Z.mod_pos_bound; lia).
  assert (Hstart := SetComplete.land_mask (as_size_t h) Hk).
  destruct (probe_within (64 + 2 * List.length t) t (2 ^ k - 1) key h
              (Z.land (as_size_t h) (2 ^ k - 1)) (as_size_t h))
    as [r|] eqn:Ep;
    [|now apply probe_within_ends in Ep].
  assert (El : lookup t (2 ^ k - 1) key h = r)
    by (unfold lookup; now apply probe_within_probe).
  generalize (@SetComplete.lookup_spec t k key h Hk Hlen Hfree).
  rewrite El. destruct r as [|u]; [intros Hin; contradiction|].
  intros [Hu Hn]. exists u. repeat split; auto.
  - eapply Permutation_NoDup;
      [symmetry; apply store_free_perm; assumption|].
    now constructor.
  - apply store_In in H. destruct H as [H|H]; [now inversion H|].
    now destruct (Hf _ _ H).
  - rewrite SetComplete.store_length.
    apply store_In in H. destruct H as [H|H].
    + inversion H. subst k0 h0.
      eapply probe_within_store_same; eauto.
    + destruct (Hf _ _ H) as [_ Hp].
      now apply probe_within_store_other.
Qed.

Lemma fold_insert_clean_distinct (hash : string -> Z) (k : Z)
    (old : list entry) :
  (0 <= k)%Z ->
  forall t,
    Z.of_nat (List.length t) = (2 ^ k)%Z ->
    (occ t + occ old < List.length t)%nat ->
    NoDup (keys_of t ++ keys_of old)%list ->
    (forall k0 h0, In (Some (k0, h0)) old -> h0 = hash k0) ->
    findable hash (2 ^ k - 1) t ->
    NoDup (keys_of (fold_left (insert_clean (2 ^ k - 1)) old t))
    /\ findable hash (2 ^ k - 1) (fold_left (insert_clean (2 ^ k - 1)) old t).
Proof.
  intros Hk. induction old as [|e old IH]; intros t Hlen Hocc Hnd Hh Hf;
    cbn [fold_left].
  - cbn [flat_map] in Hnd. rewrite app_nil_r in Hnd. auto.
  - destruct e as [[key h]|]; cbn [insert_clean].
    + cbn [flat_map app] in Hnd, Hocc. cbn [List.length] in Hocc.
      assert (Hnew : ~ In key (keys_of t)).
      { apply NoDup_remove_2 in Hnd. intros Hin. apply Hnd.
        apply in_or_app. auto. }
      destruct (@lookup_absent hash k t key h Hk Hlen
                  (SetComplete.free_exists t ltac:(lia))
                  (Hh _ _ (or_introl eq_refl)) Hnew)
        as (u & -> & Hu & Hn & Hnd' & Hf'); auto.
      { apply NoDup_remove_1 in Hnd. now apply NoDup_app_remove_r in Hnd. }
      destruct (SetComplete.store_free t key h Hu Hn) as [Ho _].
      apply IH; auto.
      * now rewrite SetComplete.store_length.
      * rewrite SetComplete.store_length, Ho. lia.
      * eapply Permutation_NoDup; [|exact Hnd].
        rewrite (store_free_perm t key h Hu Hn). cbn [app].
        symmetry. apply Permutation_middle.
      * intros k0 h0 Hin. apply Hh. now right.
    + apply IH; auto. intros k0 h0 Hin. apply Hh. now right.
Qed.

Lemma resize_distinct (hash : string -> Z) (so : setobject) (minused : Z) :
  (Z.of_nat (occ so.(table)) <= so.(fill))%Z ->
  (0 < so.(fill))%Z -> (so.(fill) * 2 <= minused < 2 ^ 67)%Z ->
  NoDup (to_list so) ->
  (forall k h, In (Some (k, h)) so.(table) -> h = hash k) ->
  NoDup (to_list (resize so minused))
  /\ findable hash (resize so minused).(mask) (resize so minused).(table).
Proof.
  intros Hocc Hfill Hmin Hnd Hh. unfold resize, to_list. cbn [mask table].
  destruct (@SetComplete.grow_spec 64 3 minused ltac:(lia) ltac:(simpl; lia))
    as (k & Hk & Hg & Hm).
  change (2 ^ 3)%Z with PySet_MINSIZE in Hg. rewrite Hg.
  assert (Hpos : (0 < 2 ^ k)%Z) by (apply Z.pow_pos_nonneg; lia).
  apply fold_insert_clean_distinct; auto; try lia.
  - rewrite repeat_length. lia.
  - rewrite SetFacts.keys_of_repeat, repeat_length. simpl. lia.
  - now rewrite SetFacts.keys_of_repeat.
  - intros k0 h0 Hin. apply repeat_spec in Hin. discriminate.
Qed.

(** What holds of a set between two operations. *)
Lemma add_distinct (hash : string -> Z) (so : setobject) (key : string) :
  well_formed so -> (so.(fill) + 1 < 2 ^ 64)%Z ->
  NoDup (to_list so) -> findable hash so.(mask) so.(table) ->
  NoDup (to_list (add hash so key))
  /\ findable hash (add hash so key).(mask) (add hash so key).(table).
Proof.
  intros (k & Hk & Hmask & Hlen & Hocc & Hload) Hbound Hnd Hf.
  assert (Hpow := SetComplete.pow2_ge_8 Hk).
  assert (Hfree : (occ so.(table) < List.length so.(table))%nat) by lia.
  unfold add.
  destruct (in_dec string_dec key (to_list so)) as [Hin|Hnew].
  - rewrite (lookup_present key Hf Hin). auto.
  - rewrite Hmask in *.
    destruct (@lookup_absent hash k so.(table) key (hash key) ltac:(lia)
                Hlen (SetComplete.free_exists _ Hfree) eq_refl Hnew Hnd Hf)
      as (u & -> & Hu & Hn & Hnd' & Hf').
    cbn [fill mask].
    destruct ((so.(fill) + 1) * 5 <? (2 ^ k - 1) * 3)%Z eqn:El;
      [cbn [mask table to_list]; auto|].
    destruct (SetComplete.store_free so.(table) key (hash key) Hu Hn)
      as [Ho _].
    apply resize_distinct; cbn [fill table]; auto; try lia.
    + destruct (50000 <? so.(fill) + 1)%Z; lia.
    + intros k0 h0 Hin. now destruct (Hf' _ _ Hin).
Qed.

Lemma fold_add_distinct (hash : string -> Z) (xs : list string) :
  forall so,
    well_formed so ->
    (so.(fill) + Z.of_nat (List.length xs) < 2 ^ 64)%Z ->
    NoDup (to_list so) -> findable hash so.(mask) so.(table) ->
    NoDup (to_list (fold_left (add hash) xs so)).
Proof.
  induction xs as [|y xs IH]; intros so Hwf Hb Hnd Hf; cbn [fold_left];
    auto.
  cbn [List.length] in Hb.
  destruct (@SetComplete.add_spec hash so y Hwf ltac:(lia)) as (H1 & H2 & _).
  destruct (@add_distinct hash so y Hwf ltac:(lia) Hnd Hf) as [H3 H4].
  apply IH; auto. lia.
Qed.

(** A set built from a list of fewer than [2 ^ 64] strings lists no element
    twice, and two sets built from the list with different hashes list
    the same elements, in one order or another. *)
Lemma of_list_NoDup (hash : string -> Z) (xs : list string) :
  (Z.of_nat (List.length xs) < 2 ^ 64)%Z ->
  NoDup (to_list (of_list hash xs)).
Proof.
  intros Hb. unfold of_list.
  apply fold_add_distinct; auto using SetComplete.empty_set_well_formed.
  - constructor.
  - intros k h Hin. apply repeat_spec in Hin. discriminate.
Qed.

Lemma of_list_perm (h1 h2 : string -> Z) (xs : list string) :
  (Z.of_nat (List.length xs) < 2 ^ 64)%Z ->
  Permutation (to_list (of_list h1 xs)) (to_list (of_list h2 xs)).
Proof.
  intros Hb. apply NoDup_Permutation; auto using of_list_NoDup.
  intros x. now rewrite !SetComplete.of_list_elements.
Qed.

End SetDistinct.

(* ================================================================== *)
(** * Two runs on the same state *)
(* ================================================================== *)

Module IdempotenceFacts.
Import PyStr Data GatherLinks IdempotenceSpec.

Lemma set_same (k : string) (e1 e2 : History) (g1 g2 : PyDict.dict History) :
  same_history e1 e2 -> same_but_all_urls g1 g2 ->
  same_but_all_urls (PyDict.set k e1 g1) (PyDict.set k e2 g2).
Proof.
  intros He. induction 1 as [|[k1 a] [k2 b] g1 g2 [Hk Hab] Hg IH]; simpl.
  - constructor; [split; [reflexivity|exact He]|constructor].
  - simpl in Hk. subst k2. destruct (String.eqb k k1).
    + constructor; [split; [reflexivity|exact He]|exact Hg].
    + constructor; [split; [reflexivity|exact Hab]|exact IH].
Qed.

Lemma get_same (k : string) (g1 g2 : PyDict.dict History) :
  same_but_all_urls g1 g2 ->
  match PyDict.get k g1, PyDict.get k g2 with
  | Some a, Some b => same_history a b
  | None, None => True
  | _, _ => False
  end.
Proof.
  induction 1 as [|[k1 a] [k2 b] g1 g2 [Hk Hab] Hg IH]; simpl; auto.
  simpl in Hk. subst k2. destruct (String.eqb k k1); auto.
Qed.

Lemma keys_same (g1 g2 : PyDict.dict History) :
  same_but_all_urls g1 g2 -> PyDict.keys g1 = PyDict.keys g2.
Proof.
  unfold PyDict.keys.
  induction 1 as [|[k1 a] [k2 b] g1 g2 [Hk Hab] Hg IH]; simpl; auto.
  simpl in Hk. congruence.
Qed.

Lemma visit_all_same (h1 h2 : string -> Z) (repo : Repo)
    (files : list string) :
  links_bounded repo ->
  forall st1 st2,
    st1.(tools) = st2.(tools) ->
    same_but_all_urls st1.(gathered_links) st2.(gathered_links) ->
    match visit_all h1 repo st1 files, visit_all h2 repo st2 files with
    | Ok a, Ok b =>
        a.(tools) = b.(tools)
        /\ same_but_all_urls a.(gathered_links) b.(gathered_links)
    | Raise e1, Raise e2 => e1 = e2
    | _, _ => False
    end.
Proof.
  intros Hb.
  induction files as [|p files IH]; intros st1 st2 E G; simpl; auto.
  unfold visit.
  destruct (existsb (String.eqb p) EXCLUDED_FILES); simpl; [now apply IH|].
  destruct (get_file_commit_details (repo.(git_log) p)) as [cs|e] eqn:Hd;
    simpl; auto.
  destruct cs as [|c cs]; simpl; [now apply IH|].
  apply IH; simpl.
  - now rewrite E.
  - apply set_same; auto. repeat split. cbn [all_urls history_entry].
    apply SetDistinct.of_list_perm. exact (Hb _ _ Hd).
Qed.

(** Two runs on the same repository end alike, and when they end well they
    have the same tool list and history maps that differ at most in the
    order of the lists under [all_urls]. *)
Lemma gathered_same (h1 h2 : string -> Z) (repo : Repo) :
  links_bounded repo ->
  match gathered h1 repo, gathered h2 repo with
  | Ok a, Ok b =>
      a.(tools) = b.(tools)
      /\ same_but_all_urls a.(gathered_links) b.(gathered_links)
  | Raise e1, Raise e2 => e1 = e2
  | _, _ => False
  end.
Proof.
  intros Hb. unfold gathered.
  set (files := PySort.sorted (fun n : string => n) false repo.(glob_html)).
  set (st0 := {| gathered_links := []; tools := [] |}).
  generalize (@visit_all_same h1 h2 repo files Hb st0 st0 eq_refl
                (Forall2_nil _)).
  destruct (visit_all h1 repo st0 files), (visit_all h2 repo st0 files);
    simpl; auto.
  intros [-> G]. auto.
Qed.

(** The dates projector and the Colophon renderer do not read
    [all_urls]. *)
Lemma project_same (g1 g2 : PyDict.dict History) :
  same_but_all_urls g1 g2 -> BuildDates.project g1 = BuildDates.project g2.
Proof.
  unfold BuildDates.project. generalize (@nil (string * string)).
  intros d H. revert d.
  induction H as [|[k1 a] [k2 b] g1 g2 [Hk (Hf & Hc & _)] Hg IH]; intros d;
    simpl in *; auto.
  rewrite Hf, Hc. apply IH.
Qed.

Lemma sorted_ext (A : Type) (key1 key2 : A -> string) (reverse : bool)
    (l : list A) :
  (forall x, key1 x = key2 x) ->
  PySort.sorted key1 reverse l = PySort.sorted key2 reverse l.
Proof.
  intros H. induction l as [|x l IH]; simpl; auto.
  rewrite IH. generalize (PySort.sorted key2 reverse l). intros s.
  induction s as [|y s IHs]; simpl; auto.
  unfold PySort.goes_before. rewrite !H, IHs. reflexivity.
Qed.

Lemma colophon_same (head : string) (g1 g2 : PyDict.dict History)
    (ts : option (list Tool)) :
  same_but_all_urls g1 g2 ->
  BuildColophon.render head g1 ts = BuildColophon.render head g2 ts.
Proof.
  intros H. unfold BuildColophon.render, BuildColophon.sorted_slugs.
  rewrite (keys_same H).
  rewrite (@sorted_ext _ (BuildColophon.newest g1) (BuildColophon.newest g2)).
  - do 2 f_equal. apply map_ext. intros s.
    unfold BuildColophon.content_part.
    generalize (get_same s H).
    destruct (PyDict.get s g1) as [a|], (PyDict.get s g2) as [b|];
      try contradiction; auto.
    intros (Hf & Hc & _). unfold BuildColophon.tool_html. now rewrite Hf, Hc.
  - intros s. unfold BuildColophon.newest. generalize (get_same s H).
    destruct (PyDict.get s g1) as [a|], (PyDict.get s g2) as [b|];
      try contradiction; auto.
    intros (_ & -> & _). reflexivity.
Qed.

(** C1.  Two runs on the same repository, which differ in the hash that
    the interpreter drew for strings: the list under [all_urls] that the
    first run writes holds the two links in one order, the list that the
    second run writes holds them in the other. *)
Theorem all_urls_order_differs :
  let run h := gather_links h Examples.links_repo Examples.empty_fs in
  let urls_of r :=
    match r with
    | Ok (fs, _) =>
        match fs.(gathered_links_json) with
        | Some g => map (fun kv => (fst kv, (snd kv).(all_urls))) g
        | None => []
        end
    | Raise _ => []
    end in
  urls_of (run Examples.hash_one)
  = [("notes", ["https://example.com/x"; "https://example.com/yy"])]
  /\ urls_of (run Examples.hash_two)
     = [("notes", ["https://example.com/yy"; "https://example.com/x"])]
  /\ run Examples.hash_one <> run Examples.hash_two.
Proof.
  cbv zeta. split; [reflexivity|]. split; [reflexivity|].
  vm_compute. discriminate.
Qed.

End IdempotenceFacts.

(* ================================================================== *)
(** * The embedding on the scenarios of the specification *)
(* ================================================================== *)

Module Checks.
Import PyStr Data GatherLinks.

Example strip_both_ends : strip "  a b  " = "a b".
Proof. vm_compute. reflexivity. Qed.

Example split_keeps_empty_fields : split "|" "a||b" = ["a"; EmptyString; "b"].
Proof. vm_compute. reflexivity. Qed.

Example split_max_keeps_rest : split_max "|" "h|d|m|n" 2 = ["h"; "d"; "m|n"].
Proof. vm_compute. reflexivity. Qed.

Example findall_urls_of_message :
  findall_urls "update, see https://example.com/x and <http://b.c>"
  = ["https://example.com/x"; "http://b.c"].
Proof. vm_compute. reflexivity. Qed.

Example log_line_without_message_is_dropped :
  get_file_commit_details (Exited 0 (Examples.lines ["abc|2024-01-10"]))
  = Ok [].
Proof. vm_compute. reflexivity. Qed.

(** A carriage return in a subject is read as the end of the line: what
    follows it is a line of its own, here one without separators. *)
Example carriage_return_ends_line :
  let cr := String "013"%char EmptyString in
  get_file_commit_details
    (Exited 0 ("abc|2024-01-10|fix" ++ cr ++ "more" ++ cr ++ nl))
  = Ok [{| hash := "abc"; date := "2024-01-10"; message := "fix";
           urls := [] |}].
Proof. vm_compute. reflexivity. Qed.

Example undecodable_output_raises :
  get_file_commit_details (Undecodable 0) = Raise UnicodeDecodeError
  /\ get_file_commit_details (Undecodable 128) = Raise UnicodeDecodeError.
Proof. split; reflexivity. Qed.

Example stem_of_page : stem "widget.html" = "widget".
Proof. vm_compute. reflexivity. Qed.

Example stem_of_dot_file :
  stem ".html" = ".html" /\ stem ".html.html" = ".html".
Proof. vm_compute. split; reflexivity. Qed.

Example title_of_page :
  extract_title Examples.widget_repo "widget.html" = "Widget"
  /\ extract_title Examples.widget_repo "ghost.html" = "ghost".
Proof. vm_compute. split; reflexivity. Qed.

Example description_of_docs :
  extract_description
    (Text (Examples.lines ["# Widget"; EmptyString; "Does one thing  ";
                           "  and does it well."; EmptyString; "More."]))
  = "Does one thing and does it well.".
Proof. vm_compute. reflexivity. Qed.

Example sorted_is_stable :
  PySort.sorted fst true [("a", 1); ("b", 2); ("a", 3); ("b", 4)]
  = [("b", 2); ("b", 4); ("a", 1); ("a", 3)].
Proof. vm_compute. reflexivity. Qed.

(** The scenario of the specification: the record of [widget], its bucket,
    which is the month of its creation, and its date in the dates file. *)
Example widget_scenario :
  match gathered Examples.hash_one Examples.widget_repo with
  | Ok st =>
      st.(tools)
      = [{| slug := "widget"; title := "Widget"; description := EmptyString;
            url := "widget.html";
            created := "2024-01-10T12:00:00+00:00";
            updated := "2024-03-02T09:30:00+00:00" |}]
      /\ map (fun b => (fst b, map slug (snd b)))
             (BuildByMonth.month_buckets st.(tools))
         = [("2024-01", ["widget"])]
      /\ BuildDates.project st.(gathered_links)
         = [("widget.html", "2024-03-02")]
      /\ map (fun kv => map date (snd kv).(commits)) st.(gathered_links)
         = [["2024-03-02T09:30:00+00:00"; "2024-01-10T12:00:00+00:00"]]
  | Raise _ => False
  end.
Proof. vm_compute. repeat split. Qed.

Example three_tools_by_month :
  map (fun b => (fst b, map slug (snd b)))
      (BuildByMonth.month_buckets Examples.three_tools)
  = [("2024-03", ["c"; "a"]); ("2024-01", ["b"])].
Proof. vm_compute. reflexivity. Qed.

Example digest_after_heading :
  BuildIndex.inject "<h1>T</h1><p>b</p>" "DIGEST"
  = "<h1>T</h1>" ++ nl ++ "DIGEST<p>b</p>".
Proof. vm_compute. reflexivity. Qed.

Example digest_without_heading :
  BuildIndex.inject "<p>b</p>" "DIGEST" = "<p>b</p>".
Proof. vm_compute. reflexivity. Qed.

End Checks.

(* ================================================================== *)
(** * Facts about strings *)
(* ================================================================== *)

Module StrFacts.
Import PyStr ParseSpec.

Lemma append_nil_r (s : string) : s ++ EmptyString = s.
Proof. induction s as [|c s IH]; simpl; congruence. Qed.

Lemma append_assoc (a b c : string) : (a ++ b) ++ c = a ++ (b ++ c).
Proof. induction a as [|x a IH]; simpl; congruence. Qed.

Lemma length_append (a b : string) :
  String.length (a ++ b) = (String.length a + String.length b)%nat.
Proof. induction a as [|x a IH]; simpl; congruence. Qed.

Lemma prefix_split (p s : string) :
  String.prefix p s = true -> s = p ++ drop (String.length p) s.
Proof.
  revert s. induction p as [|a p IH]; intros s H; simpl.
  - now destruct s.
  - destruct s as [|b s]; simpl in H; [discriminate|].
    destruct (ascii_dec a b) as [->|]; [|discriminate].
    simpl. f_equal. now apply IH.
Qed.

Lemma span_split (p : ascii -> bool) (s : string) :
  s = fst (span p s) ++ snd (span p s)
  /\ all_chars p (fst (span p s)) = true
  /\ match first_char (snd (span p s)) with
     | Some x => p x = false
     | None => True
     end.
Proof.
  induction s as [|c s IH]; simpl; auto.
  destruct (p c) eqn:E.
  - destruct (span p s) as [a b]. simpl in *. destruct IH as (H1 & H2 & H3).
    rewrite E, H2. repeat split; auto. congruence.
  - simpl. auto.
Qed.

Lemma take_drop (n : nat) (s : string) : take n s ++ drop n s = s.
Proof.
  revert s. induction n as [|n IH]; intros [|c s]; simpl; auto.
  now rewrite IH.
Qed.

Lemma occurs_append (c : ascii) (a b : string) :
  occurs c (a ++ b) = occurs c a || occurs c b.
Proof.
  induction a as [|x a IH]; simpl; auto. rewrite IH. apply orb_assoc.
Qed.

Lemma all_chars_append (p : ascii -> bool) (a b : string) :
  all_chars p (a ++ b) = all_chars p a && all_chars p b.
Proof.
  induction a as [|x a IH]; simpl; auto. rewrite IH. apply andb_assoc.
Qed.

Lemma all_chars_occurs (p : ascii -> bool) (c : ascii) (s : string) :
  all_chars p s = true -> p c = false -> occurs c s = false.
Proof.
  intros H Hc. induction s as [|x s IH]; simpl in *; auto.
  apply andb_prop in H. destruct H as [Hx Hs]. rewrite (IH Hs).
  destruct (Ascii.eqb_spec x c); [congruence|reflexivity].
Qed.

(** What [lstrip] and [rstrip] leave is a part of the string. *)
Lemma lstrip_suffix (s : string) : exists pre, s = pre ++ lstrip s.
Proof.
  induction s as [|c s [pre IH]]; simpl.
  - now exists EmptyString.
  - destruct (py_isspace c).
    + exists (String c pre). simpl. congruence.
    + now exists EmptyString.
Qed.

Lemma rstrip_prefix (s : string) : exists post, s = rstrip s ++ post.
Proof.
  induction s as [|c s [post IH]]; simpl.
  - now exists EmptyString.
  - destruct (is_empty (rstrip s) && py_isspace c).
    + now exists (String c s).
    + exists post. simpl. congruence.
Qed.

Lemma strip_substring (s : string) : substring_of (strip s) s.
Proof.
  unfold strip. destruct (lstrip_suffix s) as [pre H].
  destruct (rstrip_prefix (lstrip s)) as [post H'].
  exists pre, post. now rewrite <- H'.
Qed.

Lemma substring_occurs (c : ascii) (u s : string) :
  substring_of u s -> occurs c s = false -> occurs c u = false.
Proof.
  intros (pre & post & ->). rewrite !occurs_append.
  intros H. apply orb_false_elim in H. destruct H as [_ H].
  now apply orb_false_elim in H.
Qed.

Lemma lstrip_first (s : string) :
  match first_char (lstrip s) with
  | Some x => py_isspace x = false
  | None => True
  end.
Proof.
  induction s as [|c s IH]; simpl; auto.
  destruct (py_isspace c) eqn:E; simpl; auto.
Qed.

Lemma rstrip_first (s : string) :
  rstrip s <> EmptyString -> first_char (rstrip s) = first_char s.
Proof.
  destruct s as [|c s]; simpl; auto.
  destruct (is_empty (rstrip s) && py_isspace c); [congruence|reflexivity].
Qed.

(** A stripped string neither starts nor ends with white space. *)
Lemma strip_first (s : string) :
  match first_char (strip s) with
  | Some x => py_isspace x = false
  | None => True
  end.
Proof.
  unfold strip. destruct (rstrip (lstrip s)) eqn:E; simpl; auto.
  assert (H : first_char (rstrip (lstrip s)) = first_char (lstrip s))
    by (apply rstrip_first; congruence).
  rewrite E in H. simpl in H. generalize (lstrip_first s). now rewrite <- H.
Qed.

Lemma rstrip_id (s : string) :
  match last_char s with
  | Some x => py_isspace x = false
  | None => True
  end -> rstrip s = s.
Proof.
  induction s as [|c s IH]; simpl; auto.
  destruct (last_char s) as [y|] eqn:E.
  - intros H. rewrite (IH H). destruct s; [discriminate|reflexivity].
  - intros H. destruct s as [|d s]; simpl.
    + now rewrite H.
    + simpl in E. destruct (last_char s); discriminate.
Qed.

Lemma lstrip_id (s : string) :
  match first_char s with
  | Some x => py_isspace x = false
  | None => True
  end -> lstrip s = s.
Proof. destruct s as [|c s]; simpl; auto. now intros ->. Qed.

Lemma last_char_append (a b : string) :
  b <> EmptyString -> last_char (a ++ b) = last_char b.
Proof.
  intros Hb. induction a as [|x a IH]; simpl; auto.
  rewrite IH. destruct (last_char b) eqn:E; auto.
  destruct b; [congruence|]. simpl in E. destruct (last_char b); discriminate.
Qed.

(** Splitting what was joined. *)
Lemma split_no_sep (sep : ascii) (s : string) :
  occurs sep s = false -> split sep s = [s].
Proof.
  induction s as [|c s IH]; simpl; auto.
  intros H. apply orb_false_elim in H. destruct H as [Hc Hs].
  now rewrite Hc, (IH Hs).
Qed.

Lemma split_append (sep : ascii) (a b : string) :
  occurs sep a = false ->
  split sep (a ++ String sep b) = a :: split sep b.
Proof.
  induction a as [|c a IH]; simpl.
  - now rewrite Ascii.eqb_refl.
  - intros H. apply orb_false_elim in H. destruct H as [Hc Ha].
    now rewrite Hc, (IH Ha).
Qed.

Lemma split_parts (sep : ascii) (s : string) :
  Forall (fun p => occurs sep p = false) (split sep s).
Proof.
  induction s as [|c s IH]; simpl.
  - repeat constructor.
  - destruct (Ascii.eqb c sep) eqn:E.
    + constructor; auto.
    + destruct (split sep s) as [|h t].
      * constructor; auto. simpl. now rewrite E.
      * inversion IH; subst. constructor; auto. simpl. now rewrite E.
Qed.

Lemma split_max_append (sep : ascii) (a b : string) (n : nat) :
  occurs sep a = false ->
  split_max sep (a ++ String sep b) (S n) = a :: split_max sep b n.
Proof.
  induction a as [|c a IH]; simpl.
  - now rewrite Ascii.eqb_refl.
  - intros H. apply orb_false_elim in H. destruct H as [Hc Ha].
    rewrite Hc. simpl in IH. now rewrite (IH Ha).
Qed.

Lemma split_max_0 (sep : ascii) (s : string) : split_max sep s 0 = [s].
Proof. destruct s; reflexivity. Qed.

Lemma split_max_cons (sep c : ascii) (s : string) (n : nat) :
  split_max sep (String c s) (S n)
  = if Ascii.eqb c sep then EmptyString :: split_max sep s n
    else match split_max sep s (S n) with
         | h :: t => String c h :: t
         | [] => [String c EmptyString]
         end.
Proof. reflexivity. Qed.

Lemma split_max_length (sep : ascii) (s : string) :
  forall n, List.length (split_max sep s n) = S (Nat.min n (count sep s)).
Proof.
  induction s as [|c s IH]; intros [|n]; auto.
  rewrite split_max_cons. cbn [count].
  destruct (Ascii.eqb c sep) eqn:E.
  - cbn [List.length]. now rewrite IH.
  - specialize (IH (S n)).
    destruct (split_max sep s (S n)) as [|h t]; [discriminate|].
    cbn [List.length] in *. rewrite IH. reflexivity.
Qed.

End StrFacts.

(* ================================================================== *)
(** * The parser of the change log *)
(* ================================================================== *)

Module ParseFacts.
Import PyStr Data GatherLinks ParseSpec.

Lemma first_char_append (a b : string) :
  a <> EmptyString -> first_char (a ++ b) = first_char a.
Proof. destruct a; [congruence|reflexivity]. Qed.

Lemma join_cons (sep x : string) (l : list string) :
  join sep (x :: l) = match l with
                      | [] => x
                      | _ :: _ => x ++ sep ++ join sep l
                      end.
Proof. destruct l; reflexivity. Qed.

Lemma rstrip_space (b : string) :
  all_chars py_isspace b = true -> rstrip b = EmptyString.
Proof.
  induction b as [|c b IH]; simpl; auto.
  intros H. apply andb_prop in H. destruct H as [Hc Hb].
  now rewrite (IH Hb), Hc.
Qed.

Lemma rstrip_append_space (a b : string) :
  all_chars py_isspace b = true -> rstrip (a ++ b) = rstrip a.
Proof.
  intros Hb. induction a as [|c a IH]; simpl.
  - now apply rstrip_space.
  - now rewrite IH.
Qed.

Lemma split_join (sep : ascii) (ls : list string) :
  ls <> [] -> Forall (fun l => occurs sep l = false) ls ->
  split sep (join (String sep EmptyString) ls) = ls.
Proof.
  induction ls as [|x ls IH]; [congruence|]. intros _ H.
  inversion H as [|? ? Hx Hls]; subst. rewrite join_cons.
  destruct ls as [|y ls]; [now apply StrFacts.split_no_sep|].
  change (x ++ String sep EmptyString ++ join (String sep EmptyString) (y :: ls))
    with (x ++ String sep (join (String sep EmptyString) (y :: ls))).
  rewrite StrFacts.split_append by assumption.
  f_equal. apply IH; [discriminate|assumption].
Qed.

Lemma last_char_join (sep : string) (ls : list string) :
  Forall (fun l => l <> EmptyString) ls ->
  last_char (join sep ls) = last_char (last ls EmptyString).
Proof.
  induction 1 as [|x ls Hx Hls IH]; auto. rewrite join_cons.
  destruct ls as [|y ls]; auto.
  change (last (x :: y :: ls) EmptyString) with (last (y :: ls) EmptyString).
  rewrite <- IH. rewrite <- StrFacts.append_assoc.
  apply StrFacts.last_char_append.
  rewrite join_cons. inversion Hls; subst.
  destruct ls; [assumption|]. destruct y; [congruence|discriminate].
Qed.

Lemma log_line_not_empty (c : Commit) : log_line c <> EmptyString.
Proof. unfold log_line. destruct c.(hash); discriminate. Qed.

Lemma log_line_last_char (c : Commit) :
  last_char (log_line c) = match last_char c.(message) with
                           | Some y => Some y
                           | None => Some "|"%char
                           end.
Proof.
  unfold log_line.
  replace (c.(hash) ++ "|" ++ c.(date) ++ "|" ++ c.(message))
    with ((c.(hash) ++ "|" ++ c.(date)) ++ ("|" ++ c.(message)))
    by (now rewrite !StrFacts.append_assoc).
  rewrite StrFacts.last_char_append by discriminate. reflexivity.
Qed.

(** A line written for a change is read back as that change. *)
Lemma parse_log_line (c : Commit) :
  occurs "|" c.(hash) = false -> occurs "|" c.(date) = false ->
  parse_line (log_line c) = [with_urls c].
Proof.
  intros Hh Hd. unfold parse_line.
  assert (E : is_empty (log_line c) = false).
  { generalize (log_line_not_empty c). now destruct (log_line c). }
  rewrite E. unfold log_line.
  change (c.(hash) ++ "|" ++ c.(date) ++ "|" ++ c.(message))
    with (c.(hash) ++ String "|" (c.(date) ++ String "|" c.(message))).
  rewrite StrFacts.split_max_append by assumption.
  rewrite StrFacts.split_max_append by assumption.
  rewrite StrFacts.split_max_0. reflexivity.
Qed.

(** The translation of line ends leaves a text without carriage return
    as it is, and a text of white space a text of white space. *)
Lemma replace_crlf_id (s : string) :
  occurs "013" s = false -> replace_crlf s = s.
Proof.
  induction s as [|c s IH]; simpl; auto.
  intros H. apply orb_false_elim in H. destruct H as [Hc Hs].
  rewrite Hc. f_equal. auto.
Qed.

Lemma replace_cr_id (s : string) :
  occurs "013" s = false -> replace_cr s = s.
Proof.
  induction s as [|c s IH]; simpl; auto.
  intros H. apply orb_false_elim in H. destruct H as [Hc Hs].
  rewrite Hc. f_equal. auto.
Qed.

Lemma translate_newlines_id (s : string) :
  occurs "013" s = false -> translate_newlines s = s.
Proof.
  intros H. unfold translate_newlines.
  rewrite (replace_crlf_id _ H). now apply replace_cr_id.
Qed.

Lemma replace_crlf_all (p : ascii -> bool) :
  p "010"%char = true ->
  forall s, all_chars p s = true -> all_chars p (replace_crlf s) = true.
Proof.
  intros Hp.
  assert (H : forall s,
             (all_chars p s = true -> all_chars p (replace_crlf s) = true)
             /\ (forall c, all_chars p (String c s) = true ->
                   all_chars p (replace_crlf (String c s)) = true)).
  { induction s as [|x s [IH1 IH2]].
    - split; [auto|]. intros c H. simpl in *. destruct (Ascii.eqb c "013"); auto.
    - split; [apply IH2|]. intros c H.
      cbn [all_chars] in H. apply andb_prop in H. destruct H as [Hc Hs].
      cbn [replace_crlf]. fold (replace_crlf (String x s)).
      destruct (Ascii.eqb c "013").
      + destruct (Ascii.eqb x "010").
        * cbn [all_chars]. rewrite Hp. simpl.
          apply IH1. cbn [all_chars] in Hs. apply andb_prop in Hs. tauto.
        * cbn [all_chars]. rewrite Hc. simpl. now apply IH2.
      + cbn [all_chars]. rewrite Hc. simpl. now apply IH2. }
  intros s. apply H.
Qed.

Lemma replace_cr_all (p : ascii -> bool) :
  p "010"%char = true ->
  forall s, all_chars p s = true -> all_chars p (replace_cr s) = true.
Proof.
  intros Hp. induction s as [|c s IH]; simpl; auto.
  intros H. apply andb_prop in H. destruct H as [Hc Hs].
  rewrite (IH Hs). destruct (Ascii.eqb c "013"); [now rewrite Hp|now rewrite Hc].
Qed.

Lemma translate_newlines_space (s : string) :
  all_chars py_isspace s = true ->
  all_chars py_isspace (translate_newlines s) = true.
Proof.
  intros H. unfold translate_newlines.
  apply replace_cr_all; [reflexivity|].
  apply replace_crlf_all; [reflexivity|exact H].
Qed.

Lemma occurs_join (c : ascii) (sep : string) (ls : list string) :
  occurs c sep = false ->
  Forall (fun l => occurs c l = false) ls ->
  occurs c (join sep ls) = false.
Proof.
  intros Hsep. induction 1 as [|l ls Hl Hls IH]; [reflexivity|].
  rewrite join_cons. destruct ls as [|l' ls]; [exact Hl|].
  rewrite !StrFacts.occurs_append, Hl, Hsep, IH. reflexivity.
Qed.

Lemma written_no_separator (c : Commit) :
  written_fields c ->
  occurs "|" c.(hash) = false /\ occurs "|" c.(date) = false
  /\ occurs "010" (log_line c) = false
  /\ occurs "013" (log_line c) = false.
Proof.
  intros (Hne & Hh & Hd & Hdn & Hdr & Hm & Hmr & _). repeat split; auto.
  - eapply StrFacts.all_chars_occurs; [exact Hh|]. reflexivity.
  - unfold log_line. rewrite !StrFacts.occurs_append.
    rewrite (StrFacts.all_chars_occurs _ "010" _ Hh) by reflexivity.
    now rewrite Hdn, Hm.
  - unfold log_line. rewrite !StrFacts.occurs_append.
    rewrite (StrFacts.all_chars_occurs _ "013" _ Hh) by reflexivity.
    now rewrite Hdr, Hmr.
Qed.

(** X1.  The change log that the query writes for a list of changes, one
    line of hash, date and subject per change, none of them with a
    carriage return, is read back as these changes in the same order, each
    with the links of its subject; the subject may hold separators. *)
Theorem log_round_trip (cs : list Commit) :
  Forall written_fields cs ->
  get_file_commit_details
    (Exited 0 (join nl (map log_line cs) ++ nl))
  = Ok (map with_urls cs).
Proof.
  intros Hcs. unfold get_file_commit_details, subprocess_run.
  cbn [Z.eqb]. cbv zeta.
  rewrite translate_newlines_id.
  2:{ rewrite StrFacts.occurs_append, occurs_join; [reflexivity..|].
      apply Forall_map. eapply Forall_impl; [|exact Hcs].
      intros a Ha. now apply written_no_separator. }
  f_equal.
  destruct cs as [|c cs]; [reflexivity|].
  set (ls := map log_line (c :: cs)).
  assert (Hnl : Forall (fun l => occurs "010" l = false) ls).
  { unfold ls. apply Forall_map. eapply Forall_impl; [|exact Hcs].
    intros a Ha. now apply written_no_separator. }
  assert (Hne : Forall (fun l => l <> EmptyString) ls).
  { unfold ls. apply Forall_map, Forall_forall. intros a _.
    apply log_line_not_empty. }
  assert (Hstrip : strip (join nl ls ++ nl) = join nl ls).
  { unfold strip. rewrite StrFacts.lstrip_id.
    - rewrite rstrip_append_space by reflexivity.
      apply StrFacts.rstrip_id. rewrite last_char_join by assumption.
      unfold ls.
      assert (Hlast : exists a, In a (c :: cs)
                /\ last (map log_line (c :: cs)) EmptyString = log_line a).
      { destruct (exists_last (l := c :: cs)) as (l' & a & El);
          [discriminate|].
        exists a. rewrite El, map_app. simpl. rewrite last_last.
        split; auto. apply in_or_app. simpl. auto. }
      destruct Hlast as (a & Ha & ->). rewrite log_line_last_char.
      rewrite Forall_forall in Hcs.
      destruct (Hcs a Ha) as (_ & _ & _ & _ & _ & _ & _ & Hm).
      destruct (last_char a.(message)); auto.
    - inversion Hcs as [|? ? (Hh & Hsp & _) _]; subst.
      unfold ls. rewrite map_cons, join_cons.
      assert (Hf : exists x r, log_line c = String x r
                               /\ py_isspace x = false).
      { unfold log_line. destruct c.(hash) as [|x h]; [congruence|].
        exists x. eexists. split; [reflexivity|].
        simpl in Hsp. apply andb_prop in Hsp. destruct Hsp as [Hx _].
        apply negb_true_iff in Hx. now apply orb_false_elim in Hx. }
      destruct Hf as (x & r & -> & Hx).
      destruct (map log_line cs); simpl; exact Hx. }
  rewrite Hstrip.
  change nl with (String "010" EmptyString).
  rewrite split_join; [|discriminate|assumption].
  unfold ls. clear - Hcs.
  induction Hcs as [|a l Ha Hl IH]; auto.
  cbn [map flat_map].
  destruct (written_no_separator Ha) as (H1 & H2 & _).
  rewrite (parse_log_line a H1 H2). simpl. now rewrite IH.
Qed.

(** The two changes of the scenario of the specification. *)
Lemma log_round_trip_witness :
  let c1 := {| hash := "b2c3d4"; date := "2024-03-02T09:30:00+00:00";
               message := "update | see https://example.com/x";
               urls := [] |} in
  let c0 := {| hash := "a1b2c3"; date := "2024-01-10T12:00:00+00:00";
               message := EmptyString; urls := [] |} in
  Forall written_fields [c1; c0]
  /\ get_file_commit_details
       (Exited 0 (join nl (map log_line [c1; c0]) ++ nl))
     = Ok [with_urls c1; with_urls c0].
Proof.
  intros c1 c0.
  assert (H : Forall written_fields [c1; c0]).
  { repeat constructor; try discriminate; vm_compute; reflexivity. }
  split; [exact H|]. exact (log_round_trip H).
Defined.

(** X2.  A line of the change log gives one change when it holds at least
    two separators and none otherwise; the empty line gives none. *)
Theorem parse_line_count (line : string) :
  List.length (parse_line line)
  = if (2 <=? count "|" line)%nat then 1%nat else 0%nat.
Proof.
  unfold parse_line. destruct line as [|x s]; [reflexivity|].
  cbn [is_empty].
  assert (E := StrFacts.split_max_length "|" (String x s) 2).
  destruct (Nat.leb_spec 2 (count "|" (String x s))) as [H|H];
    destruct (split_max "|" (String x s) 2) as [|a [|b [|d [|e l]]]];
    cbn [List.length] in E; try reflexivity; lia.
Qed.

End ParseFacts.

(* ================================================================== *)
(** * Links, slugs, titles and descriptions *)
(* ================================================================== *)

Module ExtractFacts.
Import PyStr Data GatherLinks ParseSpec.

Lemma substring_cons (c : ascii) (u s : string) :
  substring_of u s -> substring_of u (String c s).
Proof. intros (pre & post & ->). now exists (String c pre), post. Qed.

Lemma match_url_sound (s m : string) :
  match_url s = Some m -> is_url m /\ exists post, s = m ++ post.
Proof.
  assert (H : forall scheme,
    (scheme = "http://" \/ scheme = "https://") ->
    (if String.prefix scheme s
     then let '(body, _) := span url_char (drop (String.length scheme) s) in
          if is_empty body then None else Some (scheme ++ body)
     else None) = Some m ->
    is_url m /\ exists post, s = m ++ post).
  { intros scheme Hs. destruct (String.prefix scheme s) eqn:Ep; [|discriminate].
    apply StrFacts.prefix_split in Ep.
    destruct (StrFacts.span_split url_char (drop (String.length scheme) s))
      as (H1 & H2 & _).
    destruct (span url_char (drop (String.length scheme) s)) as [body rest].
    simpl in H1, H2. destruct body as [|x body]; [discriminate|].
    intros E. inversion E. subst m. split.
    - exists scheme, (String x body). repeat split; auto. discriminate.
    - exists rest. rewrite StrFacts.append_assoc, <- H1. exact Ep. }
  pose proof (H "https://" (or_intror eq_refl)) as H1.
  pose proof (H "http://" (or_introl eq_refl)) as H2. clear H.
  unfold match_url. cbv beta zeta.
  destruct (if String.prefix "https://" s then _ else _) as [m1|].
  - exact H1.
  - exact H2.
Qed.

Lemma findall_urls_from_sound (s : string) :
  forall skip u, In u (findall_urls_from skip s) ->
                 is_url u /\ substring_of u s.
Proof.
  induction s as [|c s IH]; intros skip u; [contradiction|].
  cbn [findall_urls_from]. destruct skip as [|k].
  - destruct (match_url (String c s)) as [m|] eqn:E.
    + intros [<-|H].
      * destruct (match_url_sound _ E) as (Hu & post & Hs). split; auto.
        exists EmptyString, post. exact Hs.
      * destruct (IH _ _ H) as [Hu Hsub]. split; auto.
        now apply substring_cons.
    + intros H. destruct (IH _ _ H) as [Hu Hsub]. split; auto.
      now apply substring_cons.
  - intros H. destruct (IH _ _ H) as [Hu Hsub]. split; auto.
    now apply substring_cons.
Qed.

(** X3.  Every link that the harvester extracts from a message is a part of
    the message that starts with one of the two schemes and goes on with at
    least one character, none of them white space, an angle bracket or a
    double quote. *)
Theorem findall_urls_sound (message_ u : string) :
  In u (findall_urls message_) -> is_url u /\ substring_of u message_.
Proof. apply findall_urls_from_sound. Qed.

Lemma findall_urls_sound_witness :
  In "https://example.com/x" (findall_urls "see <https://example.com/x>")
  /\ is_url "https://example.com/x"
  /\ substring_of "https://example.com/x" "see <https://example.com/x>".
Proof.
  assert (H : In "https://example.com/x"
                 (findall_urls "see <https://example.com/x>"))
    by (vm_compute; auto).
  split; [exact H|]. exact (findall_urls_sound _ _ H).
Defined.

Lemma rfind_dot_html (s : string) :
  rfind_dot (s ++ ".html") = Some (String.length s).
Proof.
  induction s as [|c s IH]; [reflexivity|].
  cbn [append rfind_dot String.length]. now rewrite IH.
Qed.

Lemma take_append (a b : string) : take (String.length a) (a ++ b) = a.
Proof. induction a as [|c a IH]; simpl; [now destruct b|congruence]. Qed.

Lemma stem_html (s : string) : s <> EmptyString -> stem (s ++ ".html") = s.
Proof.
  intros Hs. unfold stem. rewrite rfind_dot_html, StrFacts.length_append.
  assert (H : ((0 <? String.length s)
               && (String.length s <? String.length s + String.length ".html" - 1)
               = true)%nat).
  { apply andb_true_intro. split; apply Nat.ltb_lt; [|simpl; lia].
    destruct s; [congruence|simpl; lia]. }
  rewrite H. apply take_append.
Qed.

(** X4.  When every page that the glob yields has a name that ends with
    the suffix of pages after at least one character, the slug of a record
    is the name of its page without the suffix, and the key of a history
    entry is the name of its file without the suffix: the address of a
    record is its slug followed by the suffix. *)
Theorem slug_is_name_without_suffix
    (str_hash : string -> Z) (repo : Repo) (st : acc) :
  (forall p, In p repo.(glob_html) ->
             exists s, s <> EmptyString /\ p = s ++ ".html") ->
  gathered str_hash repo = Ok st ->
  (forall t, In t st.(tools) -> t.(url) = t.(slug) ++ ".html")
  /\ (forall k e, In (k, e) st.(gathered_links) -> e.(file) = k ++ ".html").
Proof.
  intros Hglob Hg. split.
  - intros t Ht.
    destruct (@GatherFacts.gathered_tools_from _ _ _ Hg _ Ht)
      as (p & cs & Hp & _ & ->).
    destruct (Hglob p Hp) as (s & Hs & ->).
    unfold tool_record. cbn [url slug]. now rewrite stem_html.
  - intros k e He.
    destruct (@GatherFacts.gathered_entries_from _ _ _ Hg _ _ He)
      as (p & cs & Hp & _ & -> & ->).
    destruct (Hglob p Hp) as (s & Hs & ->).
    unfold history_entry. cbn [file]. now rewrite stem_html.
Qed.

Lemma slug_is_name_without_suffix_witness :
  exists st,
    gathered Examples.hash_one Examples.widget_repo = Ok st
    /\ (forall t, In t st.(tools) -> t.(url) = t.(slug) ++ ".html")
    /\ (forall k e, In (k, e) st.(gathered_links) -> e.(file) = k ++ ".html").
Proof.
  destruct (gathered Examples.hash_one Examples.widget_repo) as [st|e] eqn:E;
    [|vm_compute in E; discriminate].
  exists st. split; [reflexivity|].
  apply (@slug_is_name_without_suffix Examples.hash_one Examples.widget_repo
           st); [|exact E].
  intros p [<-|[<-|[<-|[<-|[]]]]].
  - exists "widget". split; [discriminate|reflexivity].
  - exists "index". split; [discriminate|reflexivity].
  - exists "ghost". split; [discriminate|reflexivity].
  - exists "broken". split; [discriminate|reflexivity].
Defined.

Lemma iprefix_take (p s : string) :
  iprefix p s = true ->
  iprefix p (take (String.length p) s) = true
  /\ String.length (take (String.length p) s) = String.length p.
Proof.
  revert s. induction p as [|a p IH]; intros s H; simpl; auto.
  destruct s as [|b s]; simpl in *; [discriminate|].
  apply andb_prop in H. destruct H as [Hab Hp].
  destruct (IH _ Hp) as [H1 H2]. rewrite Hab, H1, H2. auto.
Qed.

Lemma all_chars_not_occurs (c : ascii) (s : string) :
  all_chars (fun x => negb (Ascii.eqb x c)) s = true -> occurs c s = false.
Proof.
  intros H. eapply StrFacts.all_chars_occurs; [exact H|].
  simpl. now rewrite Ascii.eqb_refl.
Qed.

Lemma match_title_sound (s g : string) :
  match_title s = Some g -> title_at s g.
Proof.
  unfold match_title. destruct (iprefix "<title>" s) eqn:Eo; [|discriminate].
  destruct (StrFacts.span_split (fun c => negb (Ascii.eqb c "<")) (drop 7 s))
    as (H1 & H2 & _).
  destruct (span (fun c => negb (Ascii.eqb c "<")) (drop 7 s)) as [body rest].
  simpl in H1, H2. destruct body as [|x body]; [discriminate|]. cbn [is_empty].
  destruct (iprefix "</title>" rest) eqn:Ec; [|discriminate].
  intros E. inversion E. subst g.
  destruct (iprefix_take _ _ Eo) as [Ho1 Ho2].
  destruct (iprefix_take _ _ Ec) as [Hc1 Hc2].
  exists (take 7 s), (take 8 rest), (drop 8 rest).
  repeat split; auto; [|discriminate|now apply all_chars_not_occurs].
  rewrite (StrFacts.take_drop 8 rest), <- H1. symmetry.
  apply StrFacts.take_drop.
Qed.

Lemma iprefix_append (p a b : string) :
  iprefix p a = true -> iprefix p (a ++ b) = true.
Proof.
  revert a. induction p as [|x p IH]; intros a H; simpl; auto.
  destruct a as [|y a]; simpl in *; [discriminate|].
  apply andb_prop in H. destruct H as [Hxy Hp]. now rewrite Hxy, IH.
Qed.

Lemma drop_length_append (a b : string) :
  drop (String.length a) (a ++ b) = b.
Proof. induction a as [|x a IH]; simpl; auto. Qed.

Lemma span_append (p : ascii -> bool) (g rest : string) :
  all_chars p g = true ->
  match first_char rest with
  | Some x => p x = false
  | None => True
  end ->
  span p (g ++ rest) = (g, rest).
Proof.
  intros Hg Hr. induction g as [|x g IH]; simpl in *.
  - destruct rest as [|y rest]; simpl in *; auto. now rewrite Hr.
  - apply andb_prop in Hg. destruct Hg as [Hx Hg]. now rewrite Hx, IH.
Qed.

Lemma occurs_all_chars (c : ascii) (s : string) :
  occurs c s = false -> all_chars (fun x => negb (Ascii.eqb x c)) s = true.
Proof.
  induction s as [|x s IH]; simpl; auto.
  intros H. apply orb_false_elim in H. destruct H as [Hx Hs].
  now rewrite Hx, IH.
Qed.

(** What the closing tag matches starts with an opening angle bracket. *)
Lemma closing_first (closing : string) :
  iprefix "</title>" closing = true -> first_char closing = Some "<"%char.
Proof.
  destruct closing as [|b r]; [discriminate|]. cbn [iprefix first_char].
  intros H. apply andb_prop in H. destruct H as [H _]. f_equal.
  destruct b as [[] [] [] [] [] [] [] []]; vm_compute in H;
    try discriminate H; reflexivity.
Qed.

Lemma match_title_complete (s g : string) :
  title_at s g -> match_title s = Some g.
Proof.
  intros (o & cl & post & -> & Lo & Io & Lc & Ic & Hne & Hg).
  unfold match_title. rewrite (@iprefix_append _ _ _ Io).
  assert (Hd : drop 7 (o ++ g ++ cl ++ post) = g ++ cl ++ post)
    by (rewrite <- Lo; apply drop_length_append).
  rewrite Hd, span_append.
  - destruct g as [|x g]; [congruence|]. cbn [is_empty].
    now rewrite (@iprefix_append _ _ _ Ic).
  - now apply occurs_all_chars.
  - assert (Hf := closing_first _ Ic).
    destruct cl as [|b r]; [discriminate|]. simpl in *.
    inversion Hf. reflexivity.
Qed.

(** No title element stands at the start of the empty text. *)
Lemma title_at_not_empty (g : string) : ~ title_at EmptyString g.
Proof.
  intros (o & cl & post & E & Lo & _).
  destruct o; simpl in *; discriminate.
Qed.

Lemma append_eq_cons (pre rest : string) (c : ascii) (s : string) :
  String c s = pre ++ rest ->
  (pre = EmptyString /\ rest = String c s)
  \/ exists pre', pre = String c pre' /\ s = pre' ++ rest.
Proof.
  destruct pre as [|x pre]; simpl; intros E; [left; auto|].
  inversion E. right. now exists pre.
Qed.

(** The first title element of a text that holds none at its start is the
    first one of the text after its first character. *)
Lemma first_title_cons (c : ascii) (s g : string) :
  match_title (String c s) = None ->
  first_title (String c s) g <-> first_title s g.
Proof.
  intros Hm. split.
  - intros (pre & rest & E & Ht & Hfirst).
    destruct (append_eq_cons _ _ E) as [[-> ->]|(pre' & -> & ->)].
    + rewrite (match_title_complete Ht) in Hm. discriminate.
    + exists pre', rest. repeat split; auto.
      intros p' r' g' E' Hl. apply (Hfirst (String c p') r' g').
      * simpl. now rewrite E'.
      * simpl. apply -> Nat.succ_lt_mono. exact Hl.
  - intros (pre & rest & -> & Ht & Hfirst).
    exists (String c pre), rest. repeat split; auto.
    intros p' r' g' E' Hl Ht'.
    destruct (append_eq_cons _ _ E') as [[-> ->]|(p'' & -> & E'')].
    + rewrite (match_title_complete Ht') in Hm. discriminate.
    + apply (Hfirst p'' r' g' E''); auto. simpl in Hl.
      now apply Nat.succ_lt_mono.
Qed.

Lemma no_title_cons (c : ascii) (s : string) :
  match_title (String c s) = None ->
  no_title (String c s) <-> no_title s.
Proof.
  intros Hm. split; intros H pre rest g E.
  - apply (H (String c pre) rest g). simpl. now rewrite E.
  - intros Ht.
    destruct (append_eq_cons _ _ E) as [[-> ->]|(p' & -> & E')].
    + rewrite (match_title_complete Ht) in Hm. discriminate.
    + exact (H p' rest g E' Ht).
Qed.

(** The search gives the text of the first title element, and nothing when
    there is no title element. *)
Lemma search_title_Some (content g : string) :
  search_title content = Some g <-> first_title content g.
Proof.
  induction content as [|c s IH].
  - split; [discriminate|].
    intros (pre & rest & E & Ht & _).
    destruct pre; [|discriminate]. simpl in E. subst rest.
    now apply title_at_not_empty in Ht.
  - cbn [search_title].
    destruct (match_title (String c s)) as [g0|] eqn:E.
    + assert (H0 : title_at (String c s) g0) by now apply match_title_sound.
      split.
      * intros H. inversion H. subst g0.
        exists EmptyString, (String c s). repeat split; auto.
        intros p' r' g' _ Hl. simpl in Hl. inversion Hl.
      * intros (pre & rest & E' & Ht & Hfirst).
        destruct pre as [|x pre].
        -- simpl in E'. subst rest.
           rewrite (match_title_complete Ht) in E. now symmetry.
        -- exfalso. apply (Hfirst EmptyString (String c s) g0); auto.
           simpl. apply Nat.lt_0_succ.
    + rewrite IH. symmetry. now apply first_title_cons.
Qed.

Lemma search_title_None (content : string) :
  search_title content = None <-> no_title content.
Proof.
  induction content as [|c s IH].
  - split; auto. intros _ pre rest g E.
    destruct pre; [|discriminate]. simpl in E. subst rest.
    apply title_at_not_empty.
  - cbn [search_title].
    destruct (match_title (String c s)) as [g0|] eqn:E.
    + split; [discriminate|]. intros H. exfalso.
      apply (H EmptyString (String c s) g0); auto.
      now apply match_title_sound.
    + rewrite IH. symmetry. now apply no_title_cons.
Qed.

(** X5.  The title of a page that cannot be read is the stem of its name,
    and so is the title of a page that holds no title element; the title of
    a page that holds one is the stripped text of the first, and holds no
    opening angle bracket.  A title element is an opening title tag, in any
    case of its letters, a text that is not empty and holds no opening
    angle bracket, and a closing title tag; a page that can be read either
    holds none or has a first one. *)
Theorem extract_title_cases (repo : Repo) (html_path : string) :
  (repo.(html_text) html_path = None ->
   extract_title repo html_path = stem html_path)
  /\ (forall content,
        repo.(html_text) html_path = Some content ->
        (no_title content -> extract_title repo html_path = stem html_path)
        /\ (forall g, first_title content g ->
              extract_title repo html_path = strip g
              /\ occurs "<" (extract_title repo html_path) = false)
        /\ (no_title content \/ exists g, first_title content g)).
Proof.
  unfold extract_title. split; [now intros ->|].
  intros content ->. split; [|split].
  - intros H. apply search_title_None in H. now rewrite H.
  - intros g H.
    assert (Hg : occurs "<" g = false).
    { destruct H as (_ & _ & _ & (_ & _ & _ & _ & _ & _ & _ & _ & _ & Hg) & _).
      exact Hg. }
    apply search_title_Some in H. rewrite H. split; auto.
    eapply StrFacts.substring_occurs; [apply StrFacts.strip_substring|exact Hg].
  - destruct (search_title content) as [g|] eqn:E.
    + right. exists g. now apply search_title_Some.
    + left. now apply search_title_None.
Qed.

(** The page of the scenario, whose title element stands after twelve
    characters, and a page that cannot be read. *)
Lemma extract_title_cases_witness :
  first_title Examples.widget_page " Widget "
  /\ extract_title Examples.widget_repo "widget.html" = "Widget"
  /\ extract_title Examples.widget_repo "ghost.html" = "ghost".
Proof.
  assert (H : first_title Examples.widget_page " Widget ").
  { apply search_title_Some. vm_compute. reflexivity. }
  split; [exact H|]. split.
  - destruct (extract_title_cases Examples.widget_repo "widget.html")
      as [_ Hc].
    destruct (Hc Examples.widget_page eq_refl) as (_ & Hf & _).
    destruct (Hf _ H) as [-> _]. vm_compute. reflexivity.
  - destruct (extract_title_cases Examples.widget_repo "ghost.html")
      as [Hn _].
    rewrite (Hn eq_refl). vm_compute. reflexivity.
Defined.

Lemma join_no_newline (sep : string) (ls : list string) :
  occurs "010" sep = false ->
  Forall (fun l => occurs "010" l = false) ls ->
  occurs "010" (join sep ls) = false.
Proof.
  intros Hsep. induction 1 as [|x ls Hx Hls IH]; auto.
  rewrite ParseFacts.join_cons. destruct ls as [|y ls]; auto.
  rewrite !StrFacts.occurs_append, Hx, Hsep. exact IH.
Qed.

Lemma first_paragraph_lines (lines : list string) :
  forall b acc,
    Forall (fun l => occurs "010" l = false) lines ->
    Forall paragraph_line acc ->
    Forall paragraph_line (first_paragraph lines b acc).
Proof.
  induction lines as [|line rest IH]; intros b acc Hl Hacc; auto.
  inversion Hl as [|? ? Hline Hrest]; subst. cbn [first_paragraph].
  destruct (startswith "#" (strip line)) eqn:Eh; [now apply IH|].
  destruct (truthy (strip line)) eqn:Et.
  - apply IH; auto. apply Forall_app. split; auto.
    constructor; [|constructor]. split.
    + eapply StrFacts.substring_occurs;
        [apply StrFacts.strip_substring|exact Hline].
    + generalize (StrFacts.strip_first line).
      destruct (strip line) as [|x r]; [discriminate|]. simpl.
      intros Hx. split; auto. intros ->. unfold startswith in Eh.
      simpl in Eh. now destruct r.
  - destruct b; auto.
Qed.

(** X6.  The description of a tool is one line: it holds no line feed, and
    when it is not empty it starts with a character that is neither white
    space nor a hash. *)
Theorem extract_description_one_line (docs : docs_file) :
  occurs "010" (extract_description docs) = false
  /\ match first_char (extract_description docs) with
     | Some x => py_isspace x = false /\ x <> "#"%char
     | None => True
     end.
Proof.
  destruct docs as [| |content]; cbn [extract_description];
    [split; [reflexivity|exact I]..|].
  assert (H : Forall paragraph_line
                (first_paragraph (split "010" (strip content)) false [])).
  { apply first_paragraph_lines; [apply StrFacts.split_parts|constructor]. }
  split.
  - apply join_no_newline; [reflexivity|].
    eapply Forall_impl; [|exact H]. now intros l [Hl _].
  - destruct (first_paragraph (split "010" (strip content)) false [])
      as [|l ls]; [exact I|].
    inversion H as [|? ? [_ Hl] _]; subst. rewrite ParseFacts.join_cons.
    destruct l as [|x l]; [contradiction|]. destruct ls; exact Hl.
Qed.

End ExtractFacts.

(* ================================================================== *)
(** * Invariants of the outputs of gather_links.py *)
(* ================================================================== *)

Module OutputFacts.
Import PyStr Data GatherLinks GatherSpec OutputSpec.

Lemma set_keys_NoDup (V : Type) (k : string) (v : V) (d : PyDict.dict V) :
  NoDup (PyDict.keys d) -> NoDup (PyDict.keys (PyDict.set k v d)).
Proof.
  intros H. rewrite DictFacts.keys_set.
  destruct (PyDict.get k d) eqn:E; auto.
  apply DictFacts.get_None_keys in E.
  apply Permutation_NoDup with (l := k :: PyDict.keys d).
  - apply Permutation_cons_append.
  - now constructor.
Qed.

Lemma set_keys_In (V : Type) (k k0 : string) (v : V) (d : PyDict.dict V) :
  In k (PyDict.keys (PyDict.set k0 v d)) <-> k = k0 \/ In k (PyDict.keys d).
Proof.
  rewrite DictFacts.keys_set. destruct (PyDict.get k0 d) eqn:E.
  - split; auto. intros [->|H]; auto.
    destruct (in_dec string_dec k0 (PyDict.keys d)) as [|Hn]; auto.
    apply DictFacts.get_None_keys in Hn. congruence.
  - rewrite in_app_iff. simpl. intuition.
Qed.

Lemma visit_all_keys_NoDup (h : string -> Z) (repo : Repo)
    (files : list string) :
  forall st st', visit_all h repo st files = Ok st' ->
    NoDup (PyDict.keys st.(gathered_links)) ->
    NoDup (PyDict.keys st'.(gathered_links)).
Proof.
  induction files as [|p files IH]; simpl; intros st st' H Hn.
  - inversion H. now subst.
  - destruct (visit h repo st p) as [st1|e] eqn:Hv; simpl in H; [|discriminate].
    apply (IH _ _ H).
    destruct (@GatherFacts.visit_cases _ _ _ _ _ Hv) as [->|(cs & _ & _ & ->)]; auto.
    now apply set_keys_NoDup.
Qed.

Lemma visit_all_keys_keep (h : string -> Z) (repo : Repo)
    (files : list string) :
  forall st st', visit_all h repo st files = Ok st' ->
    forall k, In k (PyDict.keys st.(gathered_links)) ->
              In k (PyDict.keys st'.(gathered_links)).
Proof.
  induction files as [|p files IH]; simpl; intros st st' H k Hk.
  - inversion H. now subst.
  - destruct (visit h repo st p) as [st1|e] eqn:Hv; simpl in H; [|discriminate].
    apply (IH _ _ H).
    destruct (@GatherFacts.visit_cases _ _ _ _ _ Hv) as [->|(cs & _ & _ & ->)]; auto.
    apply set_keys_In. auto.
Qed.

Lemma visit_all_keys_to (h : string -> Z) (repo : Repo)
    (files : list string) :
  forall st st', visit_all h repo st files = Ok st' ->
    forall p cs, In p files -> harvested repo p cs ->
                 In (stem p) (PyDict.keys st'.(gathered_links)).
Proof.
  induction files as [|p0 files IH]; simpl; intros st st' H p cs Hp Hh;
    [contradiction|].
  destruct (visit h repo st p0) as [st1|e] eqn:Hv; simpl in H; [|discriminate].
  destruct Hp as [->|Hp]; [|eapply IH; eauto].
  apply (@visit_all_keys_keep _ _ _ _ _ H).
  rewrite (@GatherFacts.visit_harvested h repo st p cs Hh) in Hv. inversion Hv. simpl.
  apply set_keys_In. auto.
Qed.

Lemma harvested_not_excluded (repo : Repo) (p : string) (cs : list Commit) :
  harvested repo p cs -> is_excluded p = false.
Proof. now intros [H _]. Qed.

(** X7.  The tool list that the builder writes is in non-increasing order
    of creation date; it holds no record of a generated view, and every
    record has the dates of at least one change: its creation date is the
    date of the last change and its update date that of the first change of
    a change list that is not empty. *)
Theorem tools_output_invariants
    (str_hash : string -> Z) (repo : Repo) (st : acc) :
  gathered str_hash repo = Ok st ->
  newest_created_first st.(tools)
  /\ forall t, In t st.(tools) ->
       is_excluded t.(url) = false
       /\ In t.(url) repo.(glob_html)
       /\ exists c rest,
            get_file_commit_details (repo.(git_log) t.(url)) = Ok (c :: rest)
            /\ t.(updated) = c.(date)
            /\ t.(created) = (last (c :: rest) c).(date).
Proof.
  intros Hg. split.
  - unfold gathered in Hg.
    destruct (visit_all _ _ _ _) as [st1|e]; simpl in Hg; [|discriminate].
    inversion Hg. simpl.
    apply (SortFacts.sorted_sorted created true).
  - intros t Ht.
    destruct (@GatherFacts.gathered_tools_from _ _ _ Hg _ Ht)
      as (p & cs & Hp & (Hx & Hd & Hn) & ->).
    cbn [tool_record url updated created]. repeat split; auto.
    destruct cs as [|c rest]; [congruence|].
    exists c, rest. repeat split; auto.
    apply GatherClaims.last_map_date.
Qed.

Lemma tools_output_invariants_witness :
  exists st,
    gathered Examples.hash_one Examples.widget_repo = Ok st
    /\ newest_created_first st.(tools)
    /\ forall t, In t st.(tools) -> is_excluded t.(url) = false.
Proof.
  destruct (gathered Examples.hash_one Examples.widget_repo) as [st|e] eqn:E;
    [|vm_compute in E; discriminate].
  exists st. split; [reflexivity|].
  destruct (@tools_output_invariants _ _ _ E) as [H1 H2].
  split; [exact H1|]. intros t Ht. now destruct (H2 t Ht).
Defined.

(** X8.  The history map that the builder writes has distinct keys; every
    entry is that of a page of the glob that is no generated view, is filed
    under the stem of the name of the page, holds at least one change, and
    lists under [all_urls] only links of its changes. *)
Theorem history_output_invariants
    (str_hash : string -> Z) (repo : Repo) (st : acc) :
  gathered str_hash repo = Ok st ->
  NoDup (PyDict.keys st.(gathered_links))
  /\ forall k e, In (k, e) st.(gathered_links) ->
       k = stem e.(file)
       /\ In e.(file) repo.(glob_html)
       /\ is_excluded e.(file) = false
       /\ get_file_commit_details (repo.(git_log) e.(file)) = Ok e.(commits)
       /\ e.(commits) <> []
       /\ forall u, In u e.(all_urls) ->
                    exists c, In c e.(commits) /\ In u c.(urls).
Proof.
  intros Hg. split.
  - unfold gathered in Hg.
    destruct (visit_all _ _ _ _) as [st1|e] eqn:Hv; simpl in Hg; [|discriminate].
    inversion Hg. simpl.
    apply (@visit_all_keys_NoDup _ _ _ _ _ Hv). constructor.
  - intros k e He.
    destruct (@GatherFacts.gathered_entries_from _ _ _ Hg _ _ He)
      as (p & cs & Hp & (Hx & Hd & Hn) & -> & ->).
    cbn [history_entry file commits all_urls]. repeat split; auto.
    intros u Hu. apply SetFacts.of_list_keys in Hu.
    apply in_flat_map in Hu. exact Hu.
Qed.

Lemma history_output_invariants_witness :
  exists st,
    gathered Examples.hash_one Examples.links_repo = Ok st
    /\ NoDup (PyDict.keys st.(gathered_links))
    /\ forall k e, In (k, e) st.(gathered_links) ->
         e.(commits) <> []
         /\ forall u, In u e.(all_urls) ->
                      exists c, In c e.(commits) /\ In u c.(urls).
Proof.
  destruct (gathered Examples.hash_one Examples.links_repo) as [st|e] eqn:E;
    [|vm_compute in E; discriminate].
  exists st. split; [reflexivity|].
  destruct (@history_output_invariants _ _ _ E) as [H1 H2].
  split; [exact H1|]. intros k e He.
  destruct (H2 k e He) as (_ & _ & _ & _ & H3 & H4). auto.
Defined.

(** X9.  The two outputs of the builder go together: every history entry
    has a record in the tool list with its key as slug, its file as
    address and the dates of its last and first change as creation and
    update date; every record of the tool list has a history entry under
    its slug. *)
Theorem tools_and_history_agree
    (str_hash : string -> Z) (repo : Repo) (st : acc) :
  gathered str_hash repo = Ok st ->
  (forall k e, In (k, e) st.(gathered_links) ->
     exists t, In t st.(tools) /\ record_of k e t)
  /\ (forall t, In t st.(tools) ->
        exists e, PyDict.get t.(slug) st.(gathered_links) = Some e).
Proof.
  intros Hg. split.
  - intros k e He.
    destruct (@GatherFacts.gathered_entries_from _ _ _ Hg _ _ He)
      as (p & cs & Hp & Hh & -> & ->).
    exists (tool_record repo p cs). split.
    + eapply GatherFacts.gathered_tools_to; eauto.
    + repeat split.
  - intros t Ht.
    destruct (@GatherFacts.gathered_tools_from _ _ _ Hg _ Ht)
      as (p & cs & Hp & Hh & ->).
    cbn [tool_record slug].
    destruct (PyDict.get (stem p) st.(gathered_links)) as [e|] eqn:E;
      [now exists e|].
    exfalso. apply DictFacts.get_None_keys in E. apply E.
    unfold gathered in Hg.
    destruct (visit_all _ _ _ _) as [st1|x] eqn:Hv; simpl in Hg; [|discriminate].
    inversion Hg. simpl.
    apply (@visit_all_keys_to _ _ _ _ _ Hv p cs); auto.
    now apply SortFacts.sorted_In.
Qed.

Lemma tools_and_history_agree_witness :
  exists st,
    gathered Examples.hash_one Examples.widget_repo = Ok st
    /\ (forall k e, In (k, e) st.(gathered_links) ->
          exists t, In t st.(tools) /\ record_of k e t)
    /\ (forall t, In t st.(tools) ->
          exists e, PyDict.get t.(slug) st.(gathered_links) = Some e).
Proof.
  destruct (gathered Examples.hash_one Examples.widget_repo) as [st|e] eqn:E;
    [|vm_compute in E; discriminate].
  exists st. split; [reflexivity|].
  exact (@tools_and_history_agree _ _ _ E).
Defined.

End OutputFacts.

(* ================================================================== *)
(** * Exceptions of the builder, and repeated runs of the pipeline *)
(* ================================================================== *)

Module RunFacts.
Import PyStr Data GatherLinks GatherSpec OutputSpec IdempotenceSpec.







Lemma sorted_slugs_same (g1 g2 : PyDict.dict History) :
  same_but_all_urls g1 g2 ->
  BuildColophon.sorted_slugs g1 = BuildColophon.sorted_slugs g2.
Proof.
  intros H. unfold BuildColophon.sorted_slugs.
  rewrite (IdempotenceFacts.keys_same H).
  apply IdempotenceFacts.sorted_ext. intros s. unfold BuildColophon.newest.
  generalize (IdempotenceFacts.get_same s H).
  destruct (PyDict.get s g1) as [a|], (PyDict.get s g2) as [b|];
    try contradiction; auto.
  intros (_ & -> & _). reflexivity.
Qed.

Lemma run_same (format_month markdown_convert : string -> string)
    (by_month_head colophon_head index_head index_style : string)
    (r : Pipeline.renderer) (a b : FS) :
  same_files a b ->
  same_files
    (fst (Pipeline.run format_month markdown_convert by_month_head
                       colophon_head index_head index_style r a))
    (fst (Pipeline.run format_month markdown_convert by_month_head
                       colophon_head index_head index_style r b))
  /\ snd (Pipeline.run format_month markdown_convert by_month_head
                       colophon_head index_head index_style r a)
     = snd (Pipeline.run format_month markdown_convert by_month_head
                         colophon_head index_head index_style r b).
Proof.
  intros (H1 & H2 & H3 & H4 & H5 & H6 & H7).
  destruct a as [rd1 tj1 gj1 dj1 ih1 bh1 ch1], b as [rd2 tj2 gj2 dj2 ih2 bh2 ch2].
  simpl in *. subst rd2 tj2 dj2 ih2 bh2 ch2.
  destruct r; simpl;
    unfold BuildByMonth.build_by_month, BuildColophon.build_colophon,
      BuildIndex.build_index, BuildDates.build_dates; simpl.
  - destruct tj1; simpl; repeat split; auto.
  - destruct gj1 as [g1|], gj2 as [g2|]; try contradiction; simpl;
      [|repeat split; auto].
    rewrite (IdempotenceFacts.colophon_same colophon_head tj1 H3).
    rewrite (sorted_slugs_same H3). repeat split; auto.
  - destruct rd1; simpl; repeat split; auto.
  - destruct gj1 as [g1|], gj2 as [g2|]; try contradiction; simpl;
      [|repeat split; auto].
    rewrite (IdempotenceFacts.project_same H3). repeat split; auto.
Qed.

Lemma run_renderers_same (format_month markdown_convert : string -> string)
    (by_month_head colophon_head index_head index_style : string)
    (rs : list Pipeline.renderer) :
  forall a b printed,
    same_files a b ->
    same_files
      (fst (run_renderers format_month markdown_convert by_month_head
              colophon_head index_head index_style rs (a, printed)))
      (fst (run_renderers format_month markdown_convert by_month_head
              colophon_head index_head index_style rs (b, printed)))
    /\ snd (run_renderers format_month markdown_convert by_month_head
              colophon_head index_head index_style rs (a, printed))
       = snd (run_renderers format_month markdown_convert by_month_head
                colophon_head index_head index_style rs (b, printed)).
Proof.
  unfold run_renderers.
  induction rs as [|r rs IH]; intros a b printed H; simpl; auto.
  destruct (run_same format_month markdown_convert by_month_head
              colophon_head index_head index_style r H) as [Hf Hs].
  destruct (Pipeline.run _ _ _ _ _ _ r a) as [a' pa].
  destruct (Pipeline.run _ _ _ _ _ _ r b) as [b' pb].
  simpl in Hf, Hs. subst pb. now apply IH.
Qed.

Lemma gather_links_same (h1 h2 : string -> Z) (repo : Repo) (fs : FS) :
  links_bounded repo ->
  match gather_links h1 repo fs, gather_links h2 repo fs with
  | Ok (a, printed1), Ok (b, printed2) =>
      same_files a b /\ printed1 = printed2
  | Raise e1, Raise e2 => e1 = e2
  | _, _ => False
  end.
Proof.
  intros Hb. unfold gather_links.
  generalize (@IdempotenceFacts.gathered_same h1 h2 repo Hb).
  destruct (gathered h1 repo) as [st1|e1], (gathered h2 repo) as [st2|e2];
    simpl; auto.
  intros [Ht Hg]. rewrite Ht. repeat split; auto.
Qed.

(** X11.  Two runs of the builder and of any sequence of renderers on the
    same repository and the same files, which differ in the hash that the
    interpreter drew for strings, end alike when the changes of no page
    name [2 ^ 64] links or more: either both raise the same exception, or
    they print the same lines and leave the same files, except for the
    order of the lists under [all_urls] in the history file: such a list
    after one run is a permutation of the list after the other. *)
Theorem pipeline_runs_agree
    (format_month markdown_convert : string -> string)
    (by_month_head colophon_head index_head index_style : string)
    (h1 h2 : string -> Z) (repo : Repo) (rs : list Pipeline.renderer)
    (fs : FS) :
  links_bounded repo ->
  match pipeline format_month markdown_convert by_month_head colophon_head
                 index_head index_style h1 repo rs fs,
        pipeline format_month markdown_convert by_month_head colophon_head
                 index_head index_style h2 repo rs fs with
  | Ok (a, printed1), Ok (b, printed2) =>
      same_files a b /\ printed1 = printed2
  | Raise e1, Raise e2 => e1 = e2
  | _, _ => False
  end.
Proof.
  intros Hb. unfold pipeline.
  generalize (@gather_links_same h1 h2 repo fs Hb).
  destruct (gather_links h1 repo fs) as [[a p1]|e1],
           (gather_links h2 repo fs) as [[b p2]|e2]; simpl;
    [|intros []|intros []|auto].
  intros [Hs ->].
  generalize (run_renderers_same format_month markdown_convert
                by_month_head colophon_head index_head index_style
                rs p2 Hs).
  destruct (run_renderers format_month markdown_convert by_month_head
              colophon_head index_head index_style rs (a, p2)).
  destruct (run_renderers format_month markdown_convert by_month_head
              colophon_head index_head index_style rs (b, p2)).
  simpl. auto.
Qed.

(** The two runs of the page with two links, which list the links in
    different orders, followed by the Colophon renderer and the dates
    projector. *)
Lemma pipeline_runs_agree_witness :
  let run h :=
    pipeline (fun m => m) (fun m => m) EmptyString EmptyString EmptyString
             EmptyString h Examples.links_repo
             [Pipeline.Colophon; Pipeline.Dates] Examples.empty_fs in
  links_bounded Examples.links_repo
  /\ exists a b printed,
       run Examples.hash_one = Ok (a, printed)
       /\ run Examples.hash_two = Ok (b, printed)
       /\ same_files a b
       /\ a <> b.
Proof.
  intros run.
  assert (Hb : links_bounded Examples.links_repo).
  { intros p cs H. vm_compute in H. inversion H. vm_compute. reflexivity. }
  split; [exact Hb|].
  generalize (@pipeline_runs_agree (fun m => m) (fun m => m) EmptyString
                EmptyString EmptyString EmptyString Examples.hash_one
                Examples.hash_two Examples.links_repo
                [Pipeline.Colophon; Pipeline.Dates] Examples.empty_fs Hb).
  subst run. cbv beta.
  destruct (pipeline _ _ _ _ _ _ Examples.hash_one _ _ _)
    as [[a p1]|e1] eqn:E1; [|vm_compute in E1; discriminate].
  destruct (pipeline _ _ _ _ _ _ Examples.hash_two _ _ _)
    as [[b p2]|e2] eqn:E2; [|intros []].
  intros [Hs <-]. exists a, b, p1.
  split; [reflexivity|]. split; [reflexivity|]. split; [exact Hs|].
  intros ->. vm_compute in E1, E2. rewrite <- E2 in E1. discriminate.
Defined.

End RunFacts.

(* ================================================================== *)
(** * Dictionaries filled by a loop *)
(* ================================================================== *)

Module FoldFacts.

Lemma fold_left_ext (A B : Type) (f g : B -> A -> B) (l : list A) :
  (forall b a, f b a = g b a) ->
  forall b, fold_left f l b = fold_left g l b.
Proof.
  intros H. induction l as [|a l IH]; intros b; simpl; auto.
  now rewrite H, IH.
Qed.

Lemma find_app (A : Type) (p : A -> bool) (l1 l2 : list A) :
  find p (l1 ++ l2) = match find p l1 with
                      | Some x => Some x
                      | None => find p l2
                      end.
Proof.
  induction l1 as [|a l1 IH]; simpl; auto. now destruct (p a).
Qed.

Section Loop.
Variables A V : Type.
Variable key : A -> string.
Variable val : A -> V.
Variable cond : A -> bool.

(** The loop stores [val a] under [key a] for the elements that pass
    [cond]: at the end a key holds the value of the last such element. *)
Lemma get_fold_set (l : list A) :
  forall (d : PyDict.dict V) (k : string),
    PyDict.get k
      (fold_left (fun d a => if cond a then PyDict.set (key a) (val a) d
                             else d) l d)
    = match find (fun a => cond a && String.eqb (key a) k) (rev l) with
      | Some a => Some (val a)
      | None => PyDict.get k d
      end.
Proof.
  induction l as [|a l IH]; intros d k; simpl; auto.
  rewrite IH, find_app. simpl.
  destruct (find _ (rev l)); auto.
  destruct (cond a); simpl; auto.
  destruct (String.eqb_spec (key a) k) as [<-|Hn].
  - apply DictFacts.get_set_same.
  - apply DictFacts.get_set_other. congruence.
Qed.
End Loop.

End FoldFacts.

(* ================================================================== *)
(** * Further properties of the renderers *)
(* ================================================================== *)

Module RenderFacts.
Import PyStr Data RenderSpec.

Lemma list_sum_perm (l l' : list nat) :
  Permutation l l' -> list_sum l = list_sum l'.
Proof.
  induction 1; simpl; try lia.
Qed.

(** The number of records that a dictionary of buckets holds. *)
Local Abbreviation total d := (records_in d).

Lemma total_add_tool (d : PyDict.dict (list Tool)) (t : Tool) :
  total (BuildByMonth.add_tool d t)
  = (total d + if dated t then 1 else 0)%nat.
Proof.
  unfold BuildByMonth.add_tool, dated.
  destruct (truthy t.(created)); [|lia].
  generalize (take 7 t.(created)). intros k. unfold records_in.
  induction d as [|[k' v'] d IH]; simpl.
  - reflexivity.
  - destruct (String.eqb k k'); simpl.
    + rewrite length_app. simpl. lia.
    + simpl in IH. rewrite IH. lia.
Qed.

Lemma total_group (ts : list Tool) :
  forall d, total (fold_left BuildByMonth.add_tool ts d)
            = (total d + List.length (filter dated ts))%nat.
Proof.
  induction ts as [|t ts IH]; intros d; simpl; [lia|].
  rewrite IH, total_add_tool. destruct (dated t); simpl; lia.
Qed.

Lemma bucket_of_keys (d : PyDict.dict (list Tool)) :
  NoDup (PyDict.keys d) ->
  map (BuildByMonth.bucket_of d) (PyDict.keys d) = map snd d.
Proof.
  unfold PyDict.keys, BuildByMonth.bucket_of.
  induction d as [|[k v] d IH]; simpl; auto.
  intros H. inversion H as [|? ? Hk Hd]; subst.
  rewrite String.eqb_refl. f_equal. rewrite <- (IH Hd).
  apply map_ext_in. intros k' Hk'.
  destruct (String.eqb_spec k' k) as [->|]; [contradiction|reflexivity].
Qed.

(** X12.  In the By-Month view no month is emitted without a record, the
    count that the table of contents shows for a month is the number of
    records emitted in its section, and these counts add up to the number
    of records that have a creation date. *)
Theorem by_month_counts (tools : list Tool) :
  (forall k l, In (k, l) (BuildByMonth.month_buckets tools) ->
     l <> []
     /\ List.length (BuildByMonth.bucket_of
                       (BuildByMonth.group_by_month tools) k)
        = List.length l)
  /\ records_in (BuildByMonth.month_buckets tools)
     = List.length (filter dated tools).
Proof.
  split.
  - intros k l H. apply ByMonthFacts.month_buckets_In in H.
    destruct H as [Hk ->].
    destruct (ByMonthFacts.bucket_of_key tools k Hk) as [Hb Hne].
    rewrite Hb, SortFacts.sorted_length. split; auto.
    intros E. apply Hne. apply length_zero_iff_nil.
    rewrite <- (SortFacts.sorted_length created false). now rewrite E.
  - unfold records_in, BuildByMonth.month_buckets. rewrite map_map. simpl.
    set (d := BuildByMonth.group_by_month tools).
    rewrite (map_ext _ (fun ym => List.length (BuildByMonth.bucket_of d ym)))
      by (intros; apply SortFacts.sorted_length).
    rewrite (list_sum_perm
               (Permutation_map _
                  (SortFacts.sorted_perm (fun k : string => k) true
                                         (PyDict.keys d)))).
    rewrite <- (map_map (BuildByMonth.bucket_of d) (@List.length Tool)).
    rewrite bucket_of_keys by apply ByMonthFacts.group_by_month_grouped.
    rewrite map_map.
    change (records_in d = List.length (filter dated tools)).
    unfold d, BuildByMonth.group_by_month. now rewrite total_group.
Qed.

Lemma NoDup_map_filter (A B : Type) (key : A -> B) (keep : A -> bool)
    (xs : list A) (Hxs : NoDup (map key xs)) :
  NoDup (map key (filter keep xs)).
Proof.
  induction xs as [|a xs IH]; simpl; auto.
  inversion Hxs as [|? ? Ha Hl]; subst.
  destruct (keep a); simpl; auto. constructor; auto.
  intros Hin. apply Ha. apply in_map_iff in Hin.
  destruct Hin as (x & Ex & Hx). apply filter_In in Hx.
  rewrite <- Ex. apply in_map. tauto.
Qed.

Lemma NoDup_firstn (A : Type) (n : nat) (l : list A) :
  NoDup l -> NoDup (firstn n l).
Proof.
  intros H. rewrite <- (firstn_skipn n l) in H.
  now apply NoDup_app_remove_r in H.
Qed.

(** X13.  In the digest of the home page neither list has more than five
    records, every record listed is a record of the tool list, and no
    record of the recently-updated list has the slug of a record of the
    recently-added list; when the slugs of the tool list are distinct, so
    are the slugs of the two lists taken together. *)
Theorem digests_disjoint (tools : list Tool) :
  (List.length (BuildIndex.by_created tools) <= 5)%nat
  /\ (List.length (BuildIndex.recently_updated tools) <= 5)%nat
  /\ (forall t, In t (BuildIndex.by_created tools ++
                      BuildIndex.recently_updated tools) -> In t tools)
  /\ (forall t, In t (BuildIndex.recently_updated tools) ->
        ~ In t.(slug) (map slug (BuildIndex.by_created tools)))
  /\ (IndexSpec.unique_slugs tools ->
      NoDup (map slug (BuildIndex.by_created tools ++
                       BuildIndex.recently_updated tools))).
Proof.
  assert (Hdis : forall t, In t (BuildIndex.recently_updated tools) ->
            ~ In t.(slug) (map slug (BuildIndex.by_created tools))).
  { intros t Ht Hin. rewrite IndexFacts.recently_updated_eq in Ht.
    apply ListFacts.firstn_In, filter_In in Ht. destruct Ht as [_ Ht].
    unfold BuildIndex.not_in in Ht. apply negb_true_iff in Ht.
    assert (E : existsb (String.eqb t.(slug))
                  (map slug (BuildIndex.by_created tools)) = true).
    { apply existsb_exists. exists t.(slug). split; auto.
      apply String.eqb_refl. }
    congruence. }
  repeat split.
  - unfold BuildIndex.by_created. rewrite length_firstn.
    unfold BuildIndex.RECENT_LIMIT. lia.
  - rewrite IndexFacts.recently_updated_eq, length_firstn.
    unfold BuildIndex.RECENT_LIMIT. lia.
  - intros t Ht. apply in_app_or in Ht. destruct Ht as [Ht|Ht].
    + now apply IndexFacts.by_created_In.
    + now apply IndexFacts.recently_updated_In.
  - exact Hdis.
  - intros Hu. rewrite map_app. apply NoDup_app.
    + unfold BuildIndex.by_created. rewrite <- firstn_map.
      apply NoDup_firstn.
      eapply Permutation_NoDup; [|exact Hu].
      apply Permutation_map. symmetry. apply SortFacts.sorted_perm.
    + rewrite IndexFacts.recently_updated_eq, <- firstn_map.
      apply NoDup_firstn, NoDup_map_filter.
      eapply Permutation_NoDup; [|exact Hu].
      apply Permutation_map. symmetry. apply SortFacts.sorted_perm.
    + intros s Hs Hs'. apply in_map_iff in Hs'.
      destruct Hs' as (t & <- & Ht). exact (Hdis t Ht Hs).
Qed.

(** X14.  The title of the home page is the stripped text after the hash
    and the space of the first line of the source that starts with them;
    lines before it do not count and lines after it are not read; a source
    without such a line gets the default title. *)
Theorem first_h1_cases (lines : list string) (default : string) :
  (Forall (fun l => startswith "# " l = false) lines ->
   BuildIndex.first_h1 lines default = default)
  /\ (forall pre line post,
        lines = (pre ++ line :: post)%list ->
        Forall (fun l => startswith "# " l = false) pre ->
        startswith "# " line = true ->
        BuildIndex.first_h1 lines default = strip (drop 2 line)).
Proof.
  split.
  - induction 1 as [|l ls Hl Hls IH]; simpl; auto. now rewrite Hl.
  - intros pre line post -> Hpre Hline.
    induction Hpre as [|l ls Hl Hls IH]; simpl.
    + now rewrite Hline.
    + now rewrite Hl.
Qed.

(** X15.  The Colophon view lists every key of the history map once, in
    non-increasing order of the date of the newest change, and finds the
    entry of every key it lists. *)
Theorem colophon_order (gathered : PyDict.dict History) :
  Permutation (BuildColophon.sorted_slugs gathered) (PyDict.keys gathered)
  /\ StronglySorted
       (fun a b => le (BuildColophon.newest gathered b)
                      (BuildColophon.newest gathered a))
       (BuildColophon.sorted_slugs gathered)
  /\ forall s, In s (BuildColophon.sorted_slugs gathered) ->
       exists data, PyDict.get s gathered = Some data
                    /\ In (s, data) gathered.
Proof.
  repeat split.
  - apply SortFacts.sorted_perm.
  - apply (SortFacts.sorted_sorted (BuildColophon.newest gathered) true).
  - intros s Hs. apply SortFacts.sorted_In in Hs.
    destruct (PyDict.get s gathered) as [data|] eqn:E.
    + exists data. split; auto. now apply DictFacts.get_In.
    + apply DictFacts.get_None_keys in E. contradiction.
Qed.

(** X16.  The Colophon view looks a slug up among the records of the tool
    list and finds the last record with that slug; when the slugs of the
    list are distinct it finds, for every record, that record. *)
Theorem tools_by_slug_lookup (tools : list Tool) (s : string) :
  PyDict.get s (BuildColophon.tools_by_slug tools)
  = find (fun t => String.eqb t.(slug) s) (rev tools)
  /\ (IndexSpec.unique_slugs tools ->
      forall t, In t tools ->
        PyDict.get t.(slug) (BuildColophon.tools_by_slug tools) = Some t).
Proof.
  assert (H : forall k, PyDict.get k (BuildColophon.tools_by_slug tools)
                        = find (fun t => String.eqb t.(slug) k) (rev tools)).
  { intros k. unfold BuildColophon.tools_by_slug.
    pose proof (@FoldFacts.get_fold_set Tool Tool slug (fun x => x)
                  (fun _ => true) tools [] k) as E.
    simpl in E. rewrite E. now destruct (find _ (rev tools)). }
  split; [apply H|].
  intros Hu t Ht. rewrite H.
  destruct (find (fun t0 => String.eqb t0.(slug) t.(slug)) (rev tools))
    as [t'|] eqn:E.
  - apply find_some in E. destruct E as [Hin E].
    apply String.eqb_eq in E. apply in_rev in Hin. f_equal.
    exact (ListFacts.NoDup_map_eq slug tools t' t Hu Hin Ht E).
  - exfalso. apply in_rev in Ht.
    generalize (find_none _ _ E t Ht). simpl.
    now rewrite String.eqb_refl.
Qed.

Lemma tools_by_slug_lookup_witness :
  IndexSpec.unique_slugs Examples.three_tools
  /\ forall t, In t Examples.three_tools ->
       PyDict.get t.(slug) (BuildColophon.tools_by_slug Examples.three_tools)
       = Some t.
Proof.
  assert (Hu : IndexSpec.unique_slugs Examples.three_tools).
  { unfold IndexSpec.unique_slugs. simpl.
    repeat constructor; simpl; intuition congruence. }
  split; [exact Hu|].
  destruct (tools_by_slug_lookup Examples.three_tools EmptyString) as [_ H].
  exact (H Hu).
Defined.

Lemma project_get (gathered : PyDict.dict History) (f : string) :
  PyDict.get f (BuildDates.project gathered)
  = match find (fun item => has_changes item
                            && String.eqb (snd item).(file) f)
               (rev gathered) with
    | Some item => Some (newest_day item)
    | None => None
    end.
Proof.
  unfold BuildDates.project.
  rewrite (FoldFacts.fold_left_ext BuildDates.add_date
             (fun d item => if has_changes item
                            then PyDict.set (snd item).(file)
                                            (newest_day item) d
                            else d)).
  - now rewrite FoldFacts.get_fold_set.
  - intros d [k data]. unfold BuildDates.add_date, has_changes, newest_day.
    simpl. now destruct data.(commits).
Qed.

Lemma take_length_le (n : nat) (s : string) :
  (String.length (take n s) <= n)%nat.
Proof.
  revert s. induction n as [|n IH]; intros [|c s]; simpl; try lia.
  specialize (IH s). lia.
Qed.

(** X17.  The dates file maps a file name to the first ten characters of
    the date of the newest change of the last entry of the history map
    that has this file name and at least one change; a file name without
    such an entry is no key of the dates file; no value has more than ten
    characters. *)
Theorem dates_projection (gathered : PyDict.dict History) (f : string) :
  PyDict.get f (BuildDates.project gathered)
  = match find (fun item => has_changes item
                            && String.eqb (snd item).(file) f)
               (rev gathered) with
    | Some item => Some (newest_day item)
    | None => None
    end
  /\ forall v, PyDict.get f (BuildDates.project gathered) = Some v ->
               (String.length v <= 10)%nat.
Proof.
  split; [apply project_get|].
  rewrite project_get. intros v.
  destruct (find _ (rev gathered)) as [item|]; [|discriminate].
  intros E. inversion E. apply take_length_le.
Qed.

End RenderFacts.

(* ================================================================== *)
(** * The builder followed by the dates projector *)
(* ================================================================== *)

Module CompositionFacts.
Import PyStr Data GatherLinks GatherSpec RenderSpec.

Lemma gathered_key_of_harvested (h : string -> Z) (repo : Repo) (st : acc)
    (p : string) (cs : list Commit) :
  gathered h repo = Ok st -> In p repo.(glob_html) -> harvested repo p cs ->
  In (stem p) (PyDict.keys st.(gathered_links)).
Proof.
  intros Hg Hp Hh. unfold gathered in Hg.
  destruct (visit_all _ _ _ _) as [st1|x] eqn:Hv; simpl in Hg; [|discriminate].
  inversion Hg. simpl.
  apply (@OutputFacts.visit_all_keys_to _ _ _ _ _ Hv p cs); auto.
  now apply SortFacts.sorted_In.
Qed.

Lemma item_of_file (h : string -> Z) (repo : Repo) (st : acc)
    (item : string * History) :
  gathered h repo = Ok st -> In item st.(gathered_links) ->
  exists cs, harvested repo (snd item).(file) cs
             /\ In (snd item).(file) repo.(glob_html)
             /\ (snd item).(commits) = cs
             /\ In (tool_record repo (snd item).(file) cs) st.(tools).
Proof.
  intros Hg Hi. destruct item as [k e].
  destruct (@GatherFacts.gathered_entries_from _ _ _ Hg _ _ Hi)
    as (p & cs & Hp & Hh & -> & ->).
  exists cs. simpl. repeat split; auto; try apply Hh.
  eapply GatherFacts.gathered_tools_to; eauto.
Qed.

(** X18.  After the builder, the dates file that the projector derives
    holds, for every key, the first ten characters of the update date of a
    record of the tool list with that address; and when every page of the
    glob has a name that ends with the suffix of pages after at least one
    character, every record of the tool list has its address as a key. *)
Theorem dates_agree_with_tools
    (str_hash : string -> Z) (repo : Repo) (st : acc) :
  gathered str_hash repo = Ok st ->
  (forall f v,
     PyDict.get f (BuildDates.project st.(gathered_links)) = Some v ->
     exists t, In t st.(tools) /\ t.(url) = f /\ v = take 10 t.(updated))
  /\ ((forall p, In p repo.(glob_html) ->
                 exists s, s <> EmptyString /\ p = s ++ ".html") ->
      forall t, In t st.(tools) ->
        PyDict.get t.(url) (BuildDates.project st.(gathered_links))
        = Some (take 10 t.(updated))).
Proof.
  intros Hg.
  assert (Hfound : forall f item,
    find (fun item => has_changes item && String.eqb (snd item).(file) f)
         (rev st.(gathered_links)) = Some item ->
    exists cs, harvested repo f cs /\ newest_day item
               = take 10 (tool_record repo f cs).(updated)
               /\ In (tool_record repo f cs) st.(tools)).
  { intros f item E. apply find_some in E. destruct E as [Hin E].
    apply andb_prop in E. destruct E as [_ E]. apply String.eqb_eq in E.
    apply in_rev in Hin.
    destruct (@item_of_file _ _ _ _ Hg Hin) as (cs & Hh & _ & Hc & Ht).
    rewrite E in *. exists cs. repeat split; auto; try apply Hh.
    unfold newest_day. now rewrite Hc. }
  split.
  - intros f v E. rewrite RenderFacts.project_get in E.
    destruct (find _ (rev st.(gathered_links))) as [item|] eqn:Ef;
      [|discriminate].
    inversion E. destruct (Hfound _ _ Ef) as (cs & _ & Hv & Ht).
    exists (tool_record repo f cs). repeat split; auto.
  - intros Hglob t Ht.
    destruct (@GatherFacts.gathered_tools_from _ _ _ Hg _ Ht)
      as (p & cs & Hp & Hh & ->).
    cbn [tool_record url]. rewrite RenderFacts.project_get.
    destruct (find _ (rev st.(gathered_links))) as [item|] eqn:Ef.
    + destruct (Hfound _ _ Ef) as (cs' & Hh' & Hv & _).
      destruct Hh as (_ & Hd & _), Hh' as (_ & Hd' & _).
      rewrite Hd in Hd'. inversion Hd'. subst cs'. now rewrite Hv.
    + exfalso.
      assert (Hk := @gathered_key_of_harvested _ _ _ _ _ Hg Hp Hh).
      destruct (PyDict.get (stem p) st.(gathered_links)) as [e|] eqn:Ee;
        [|now apply DictFacts.get_None_keys in Ee].
      apply DictFacts.get_In in Ee.
      destruct (@GatherFacts.gathered_entries_from _ _ _ Hg _ _ Ee)
        as (p' & cs' & Hp' & Hh' & Hs & ->).
      assert (p' = p).
      { destruct (Hglob p Hp) as (s & Hs1 & ->).
        destruct (Hglob p' Hp') as (s' & Hs2 & ->).
        rewrite !ExtractFacts.stem_html in Hs by assumption. now subst. }
      subst p'.
      assert (Hin : In (stem p, history_entry str_hash p cs')
                       (rev st.(gathered_links)))
        by (now apply in_rev in Ee).
      generalize (find_none _ _ Ef _ Hin). simpl.
      rewrite String.eqb_refl. unfold has_changes. simpl.
      destruct Hh' as (_ & _ & Hn). now destruct cs'.
Qed.

Lemma dates_agree_with_tools_witness :
  exists st,
    gathered Examples.hash_one Examples.widget_repo = Ok st
    /\ forall f v,
         PyDict.get f (BuildDates.project st.(gathered_links)) = Some v ->
         exists t, In t st.(tools) /\ t.(url) = f /\ v = take 10 t.(updated).
Proof.
  destruct (gathered Examples.hash_one Examples.widget_repo) as [st|e] eqn:E;
    [|vm_compute in E; discriminate].
  exists st. split; [reflexivity|].
  exact (proj1 (@dates_agree_with_tools _ _ _ E)).
Defined.

End CompositionFacts.

(* ================================================================== *)
(** * The digest in the body of the home page *)
(* ================================================================== *)

Module InjectFacts.
Import PyStr Data BuildIndex.

Lemma drop_drop (m n : nat) (s : string) : drop n (drop m s) = drop (m + n) s.
Proof.
  revert s. induction m as [|m IH]; intros s; simpl; auto.
  destruct s as [|c s]; simpl; auto. now destruct n.
Qed.

(** Where [find] finds [sub]: the string from that position on starts with
    [sub], and the position and the length of [sub] stay inside it. *)
Lemma find_drop (sub s : string) (i : nat) :
  find sub s = Some i ->
  drop i s = sub ++ drop (i + String.length sub) s
  /\ (i + String.length sub <= String.length s)%nat.
Proof.
  unfold find. revert i. induction s as [|b s IH]; intros i.
  - simpl. destruct sub; [|discriminate]. intros E. inversion E. auto.
  - cbn [String.index].
    destruct (String.prefix sub (String b s)) eqn:Ep.
    + intros E. inversion E. subst i. cbn [drop Nat.add].
      assert (H := StrFacts.prefix_split _ _ Ep). split; auto.
      assert (Hlen := f_equal String.length H).
      rewrite StrFacts.length_append in Hlen. lia.
    + destruct (String.index 0 sub s) as [n|]; [|discriminate].
      intros E. inversion E. subst i. destruct (IH n eq_refl) as [H1 H2].
      cbn [drop Nat.add String.length]. split; [exact H1|lia].
Qed.

Lemma find_split (sub s : string) (i : nat) :
  find sub s = Some i ->
  s = take i s ++ sub ++ drop (i + String.length sub) s
  /\ String.length (take i s) = i
  /\ take (i + String.length sub) s = take i s ++ sub.
Proof.
  intros H. destruct (find_drop _ _ H) as [H1 H2].
  assert (Hs : s = take i s ++ sub ++ drop (i + String.length sub) s)
    by (now rewrite <- H1, StrFacts.take_drop).
  assert (Hl : String.length (take i s) = i)
    by (apply TruncationFacts.take_length; lia).
  repeat split; auto.
  rewrite Hs at 1. rewrite <- StrFacts.append_assoc.
  replace (i + String.length sub)%nat
    with (String.length (take i s ++ sub))
    by (rewrite StrFacts.length_append; lia).
  apply ExtractFacts.take_append.
Qed.

Lemma drop_between (a b : nat) (s : string) :
  (a <= b)%nat -> drop a s = take (b - a) (drop a s) ++ drop b s.
Proof.
  intros H. rewrite <- (StrFacts.take_drop (b - a) (drop a s)) at 1.
  rewrite drop_drop. now replace (a + (b - a))%nat with b by lia.
Qed.

(** X19.  How the digest goes into the body of the home page.  When both
    markers are found and the start marker ends before the end marker
    begins, the body keeps what stands before the start marker, both
    markers and what stands after the end marker, and holds the digest on a
    line of its own in place of what stood between the markers.  When a
    marker is missing and the digest is not empty, the digest goes on a new
    line right after the first closing tag of a level-1 heading and nothing
    of the body is lost; without such a tag, or with an empty digest, the
    body stays as it is. *)
Theorem digest_injection (body_html recent_html : string) :
  (forall i j,
     find start_marker body_html = Some i ->
     find end_marker body_html = Some j ->
     (i + String.length start_marker <= j)%nat ->
     exists pre old post,
       body_html = pre ++ start_marker ++ old ++ end_marker ++ post
       /\ String.length pre = i
       /\ inject body_html recent_html
          = pre ++ start_marker ++ nl ++ recent_html ++ nl
            ++ end_marker ++ post)
  /\ (find start_marker body_html = None
      \/ find end_marker body_html = None ->
      (recent_html = EmptyString -> inject body_html recent_html = body_html)
      /\ (find "</h1>" body_html = None ->
          inject body_html recent_html = body_html)
      /\ forall i,
           recent_html <> EmptyString ->
           find "</h1>" body_html = Some i ->
           exists pre post,
             body_html = pre ++ "</h1>" ++ post
             /\ String.length pre = i
             /\ inject body_html recent_html
                = pre ++ "</h1>" ++ nl ++ recent_html ++ post).
Proof.
  split.
  - intros i j Hi Hj Hij. unfold inject. rewrite Hi, Hj.
    destruct (find_split _ _ Hi) as (Hs & Hl & Ht).
    destruct (find_drop _ _ Hj) as [Hd _].
    exists (take i body_html),
           (take (j - (i + String.length start_marker))
                 (drop (i + String.length start_marker) body_html)),
           (drop (j + String.length end_marker) body_html).
    repeat split; auto.
    + rewrite <- Hd, <- drop_between by assumption. exact Hs.
    + rewrite Ht, Hd, !StrFacts.append_assoc. reflexivity.
  - intros Hm.
    assert (E : inject body_html recent_html
                = if truthy recent_html then
                    match find "</h1>" body_html with
                    | Some k => take (k + 5) body_html ++ nl ++ recent_html
                                ++ drop (k + 5) body_html
                    | None => body_html
                    end
                  else body_html).
    { unfold inject. destruct Hm as [-> | Hm]; [reflexivity|].
      rewrite Hm. now destruct (find start_marker body_html). }
    rewrite E. repeat split.
    + now intros ->.
    + intros ->. now destruct (truthy recent_html).
    + intros i Hr Hi. rewrite Hi.
      destruct recent_html as [|c r]; [congruence|]. cbn [truthy is_empty negb].
      destruct (find_split _ _ Hi) as (Hs & Hl & Ht).
      exists (take i body_html), (drop (i + 5) body_html).
      repeat split; auto.
      change (i + 5)%nat with (i + String.length "</h1>")%nat.
      rewrite Ht, !StrFacts.append_assoc. reflexivity.
Qed.

End InjectFacts.

(* ================================================================== *)
(** * The views go together *)
(* ================================================================== *)

Module LinkFacts.
Import PyStr Data GatherLinks GatherSpec ByMonthSpec.

Lemma tools_by_slug_get (tools : list Tool) (k : string) :
  PyDict.get k (BuildColophon.tools_by_slug tools)
  = find (fun t => String.eqb t.(slug) k) (rev tools).
Proof.
  unfold BuildColophon.tools_by_slug.
  pose proof (@FoldFacts.get_fold_set Tool Tool slug (fun x => x)
                (fun _ => true) tools [] k) as E.
  simpl in E. rewrite E. now destruct (find _ (rev tools)).
Qed.

(** X20.  After the builder the views go together: for every section that
    the Colophon view emits it finds a record of the tool list with the
    slug of the section, so that the title of a section is the title of a
    record; and every record that the By-Month view emits has a section in
    the Colophon view under its slug, to which its history link points. *)
Theorem views_cross_linked
    (str_hash : string -> Z) (repo : Repo) (st : acc) :
  gathered str_hash repo = Ok st ->
  (forall s, In s (BuildColophon.sorted_slugs st.(gathered_links)) ->
     exists t, PyDict.get s (BuildColophon.tools_by_slug st.(tools)) = Some t
               /\ In t st.(tools) /\ t.(slug) = s)
  /\ (forall k l t, In (k, l) (BuildByMonth.month_buckets st.(tools)) ->
        In t l ->
        In t.(slug) (BuildColophon.sorted_slugs st.(gathered_links))).
Proof.
  intros Hg. split.
  - intros s Hs. apply SortFacts.sorted_In in Hs.
    destruct (PyDict.get s st.(gathered_links)) as [e|] eqn:Ee;
      [|now apply DictFacts.get_None_keys in Ee].
    apply DictFacts.get_In in Ee.
    destruct (@GatherFacts.gathered_entries_from _ _ _ Hg _ _ Ee)
      as (p & cs & Hp & Hh & -> & ->).
    assert (Ht : In (tool_record repo p cs) (rev st.(tools))).
    { apply -> in_rev. eapply GatherFacts.gathered_tools_to; eauto. }
    rewrite tools_by_slug_get.
    destruct (find (fun t => String.eqb t.(slug) (stem p)) (rev st.(tools)))
      as [t|] eqn:Ef.
    + apply find_some in Ef. destruct Ef as [Hin E].
      exists t. repeat split; auto.
      * now apply in_rev in Hin.
      * now apply String.eqb_eq in E.
    + exfalso. generalize (find_none _ _ Ef _ Ht). simpl.
      now rewrite String.eqb_refl.
  - intros k l t Hb Hl. apply SortFacts.sorted_In.
    assert (Ht := ByMonthFacts.month_buckets_sub _ _ _ _ Hb Hl).
    destruct (@GatherFacts.gathered_tools_from _ _ _ Hg _ Ht)
      as (p & cs & Hp & Hh & ->).
    exact (@CompositionFacts.gathered_key_of_harvested _ _ _ _ _ Hg Hp Hh).
Qed.

Lemma views_cross_linked_witness :
  exists st,
    gathered Examples.hash_one Examples.widget_repo = Ok st
    /\ (forall s, In s (BuildColophon.sorted_slugs st.(gathered_links)) ->
          exists t,
            PyDict.get s (BuildColophon.tools_by_slug st.(tools)) = Some t
            /\ In t st.(tools) /\ t.(slug) = s)
    /\ (forall k l t, In (k, l) (BuildByMonth.month_buckets st.(tools)) ->
          In t l ->
          In t.(slug) (BuildColophon.sorted_slugs st.(gathered_links))).
Proof.
  destruct (gathered Examples.hash_one Examples.widget_repo) as [st|e] eqn:E;
    [|vm_compute in E; discriminate].
  exists st. split; [reflexivity|].
  exact (@views_cross_linked _ _ _ E).
Defined.

Lemma key_iff_records (tools : list Tool) (k : string) :
  In k (PyDict.keys (BuildByMonth.group_by_month tools))
  <-> filter (in_month k) tools <> [].
Proof.
  destruct (ByMonthFacts.group_by_month_grouped tools) as [_ Hget]. split.
  - intros Hk. now destruct (ByMonthFacts.bucket_of_key tools k Hk).
  - intros Hne.
    destruct (in_dec string_dec k
                (PyDict.keys (BuildByMonth.group_by_month tools)))
      as [|Hn]; auto.
    apply DictFacts.get_None_keys in Hn. rewrite Hget in Hn.
    destruct (filter (in_month k) tools); [congruence|discriminate].
Qed.

Lemma decreasing_unique (l : list string) :
  forall l',
    StronglySorted (fun a b => lt b a) l ->
    StronglySorted (fun a b => lt b a) l' ->
    (forall x, In x l <-> In x l') -> l = l'.
Proof.
  assert (Hirr : forall a b, lt a b -> lt b a -> False).
  { unfold lt. intros a b H1 H2.
    apply StrOrder.ltb_iff in H1, H2. destruct H1 as [H1 Hn], H2 as [H2 _].
    apply Hn. now apply String.leb_antisym. }
  assert (Hself : forall a, lt a a -> False) by (intros a H; exact (Hirr a a H H)).
  induction l as [|x l IH]; intros [|y l'] Hs Hs' Heq; auto.
  - destruct (proj2 (Heq y)); simpl; auto.
  - destruct (proj1 (Heq x)); simpl; auto.
  - inversion Hs as [|? ? Hsl Hx]; subst.
    inversion Hs' as [|? ? Hsl' Hy]; subst.
    rewrite Forall_forall in Hx, Hy.
    assert (x = y).
    { destruct (proj1 (Heq x) (or_introl eq_refl)) as [E|Hin]; auto.
      destruct (proj2 (Heq y) (or_introl eq_refl)) as [E|Hin']; auto.
      exfalso. exact (Hirr _ _ (Hx _ Hin') (Hy _ Hin)). }
    subst y. f_equal. apply IH; auto. intros z. split; intros Hz.
    + destruct (proj1 (Heq z) (or_intror Hz)) as [<-|]; auto.
      exfalso. exact (Hself _ (Hx _ Hz)).
    + destruct (proj2 (Heq z) (or_intror Hz)) as [<-|]; auto.
      exfalso. exact (Hself _ (Hy _ Hz)).
Qed.

(** X21.  The By-Month view does not depend on the order of the tool list
    for its months: two tool lists with the same records emit the same
    months in the same order, and the section of a month holds the same
    records for both. *)
Theorem months_independent_of_order (tools tools' : list Tool) :
  Permutation tools tools' ->
  map fst (BuildByMonth.month_buckets tools)
  = map fst (BuildByMonth.month_buckets tools')
  /\ forall k l l',
       In (k, l) (BuildByMonth.month_buckets tools) ->
       In (k, l') (BuildByMonth.month_buckets tools') ->
       Permutation l l'.
Proof.
  intros Hp. split.
  - rewrite !ByMonthFacts.month_buckets_keys.
    apply decreasing_unique.
    + apply ByMonthFacts.months_decreasing, ByMonthFacts.group_by_month_grouped.
    + apply ByMonthFacts.months_decreasing, ByMonthFacts.group_by_month_grouped.
    + intros k. unfold BuildByMonth.sorted_months.
      rewrite !SortFacts.sorted_In, !key_iff_records.
      assert (Hf := ListFacts.Permutation_filter (in_month k) Hp).
      split; intros Hne E; apply Hne.
      * rewrite E in Hf. now apply Permutation_nil.
      * rewrite E in Hf. now apply Permutation_nil, Permutation_sym.
  - intros k l l' Hl Hl'.
    apply ByMonthFacts.month_buckets_In in Hl, Hl'.
    destruct Hl as [_ ->], Hl' as [_ ->].
    rewrite !SortFacts.sorted_perm.
    now apply ListFacts.Permutation_filter.
Qed.

Lemma months_independent_of_order_witness :
  Permutation Examples.three_tools (rev Examples.three_tools)
  /\ map fst (BuildByMonth.month_buckets Examples.three_tools)
     = map fst (BuildByMonth.month_buckets (rev Examples.three_tools)).
Proof.
  assert (H : Permutation Examples.three_tools (rev Examples.three_tools))
    by apply Permutation_rev.
  split; [exact H|]. exact (proj1 (months_independent_of_order H)).
Defined.

End LinkFacts.

(* ================================================================== *)
(** * The links of a history entry *)
(* ================================================================== *)

Module UrlFacts.
Import PyStr Data GatherLinks.

(** X22.  The list under [all_urls] of a history entry holds every link of
    every change of the entry and nothing else (for an entry whose changes
    name fewer than [2 ^ 64] links). *)
Theorem all_urls_elements
    (str_hash : string -> Z) (repo : Repo) (st : acc)
    (k : string) (e : History) :
  gathered str_hash repo = Ok st ->
  In (k, e) st.(gathered_links) ->
  (Z.of_nat (List.length (flat_map urls e.(commits))) < 2 ^ 64)%Z ->
  forall u, In u e.(all_urls) <->
            exists c, In c e.(commits) /\ In u c.(urls).
Proof.
  intros Hg He Hb u.
  destruct (@GatherFacts.gathered_entries_from _ _ _ Hg _ _ He)
    as (p & cs & _ & _ & _ & ->).
  cbn [history_entry all_urls commits] in *.
  rewrite SetComplete.of_list_elements by assumption.
  apply in_flat_map.
Qed.

Lemma all_urls_elements_witness :
  exists st e,
    gathered Examples.hash_two Examples.links_repo = Ok st
    /\ In ("notes", e) st.(gathered_links)
    /\ forall u, In u e.(all_urls) <->
                 exists c, In c e.(commits) /\ In u c.(urls).
Proof.
  destruct (gathered Examples.hash_two Examples.links_repo) as [st|x] eqn:E;
    [|vm_compute in E; discriminate].
  assert (Hin : exists e, In ("notes", e) st.(gathered_links)
                /\ (Z.of_nat (List.length (flat_map urls e.(commits)))
                    < 2 ^ 64)%Z).
  { vm_compute in E. inversion E. eexists. split; [left; reflexivity|].
    vm_compute. reflexivity. }
  destruct Hin as (e & He & Hb).
  exists st, e. split; [reflexivity|]. split; [exact He|].
  exact (@all_urls_elements _ _ _ _ _ E He Hb).
Defined.

(** X26.  The list under [all_urls] of a history entry names no link
    twice (for an entry whose changes name fewer than [2 ^ 64] links). *)
Theorem all_urls_distinct
    (str_hash : string -> Z) (repo : Repo) (st : acc)
    (k : string) (e : History) :
  gathered str_hash repo = Ok st ->
  In (k, e) st.(gathered_links) ->
  (Z.of_nat (List.length (flat_map urls e.(commits))) < 2 ^ 64)%Z ->
  NoDup e.(all_urls).
Proof.
  intros Hg He Hb.
  destruct (@GatherFacts.gathered_entries_from _ _ _ Hg _ _ He)
    as (p & cs & _ & _ & _ & ->).
  cbn [history_entry all_urls commits] in *.
  now apply SetDistinct.of_list_NoDup.
Qed.

(** A link that two changes name is listed once. *)
Lemma all_urls_distinct_witness :
  exists st e,
    gathered Examples.hash_two Examples.repeated_link_repo = Ok st
    /\ In ("notes", e) st.(gathered_links)
    /\ flat_map urls e.(commits)
       = ["https://example.com/x"; "https://example.com/yy";
          "https://example.com/x"]
    /\ List.length e.(all_urls) = 2%nat
    /\ NoDup e.(all_urls).
Proof.
  destruct (gathered Examples.hash_two Examples.repeated_link_repo)
    as [st|x] eqn:E; [|vm_compute in E; discriminate].
  assert (Hin : exists e, In ("notes", e) st.(gathered_links)
                /\ flat_map urls e.(commits)
                   = ["https://example.com/x"; "https://example.com/yy";
                      "https://example.com/x"]
                /\ List.length e.(all_urls) = 2%nat
                /\ (Z.of_nat (List.length (flat_map urls e.(commits)))
                    < 2 ^ 64)%Z).
  { vm_compute in E. inversion E. eexists. split; [left; reflexivity|].
    repeat split. }
  destruct Hin as (e & He & Hu & Hl & Hb).
  exists st, e. split; [reflexivity|]. repeat split; auto.
  exact (@all_urls_distinct _ _ _ _ _ E He Hb).
Defined.

End UrlFacts.

(* ================================================================== *)
(** * Ties, silent queries and documents without a paragraph *)
(* ================================================================== *)

Module EdgeFacts.
Import PyStr Data GatherLinks GatherSpec OutputSpec ParseSpec.

Lemma visit_tools_exact (h : string -> Z) (repo : Repo) (st st' : acc)
    (p : string) :
  visit h repo st p = Ok st' ->
  st'.(tools) = (st.(tools) ++ records_of_page repo p)%list.
Proof.
  unfold visit, records_of_page, is_excluded.
  destruct (existsb (String.eqb p) EXCLUDED_FILES).
  - intros H. inversion H. now rewrite app_nil_r.
  - destruct (get_file_commit_details (repo.(git_log) p)) as [cs|e]; simpl;
      [|discriminate].
    destruct cs as [|c cs]; intros H; inversion H; simpl; auto.
    now rewrite app_nil_r.
Qed.

Lemma visit_all_tools_exact (h : string -> Z) (repo : Repo)
    (files : list string) :
  forall st st', visit_all h repo st files = Ok st' ->
    st'.(tools)
    = (st.(tools) ++ flat_map (records_of_page repo) files)%list.
Proof.
  induction files as [|p files IH]; simpl; intros st st' H.
  - inversion H. now rewrite app_nil_r.
  - destruct (visit h repo st p) as [st1|e] eqn:Hv; simpl in H; [|discriminate].
    rewrite (IH _ _ H), (visit_tools_exact _ _ _ _ Hv).
    now rewrite <- app_assoc.
Qed.

Lemma records_of_page_url (repo : Repo) (p : string) (t : Tool) :
  In t (records_of_page repo p) -> t.(url) = p.
Proof.
  unfold records_of_page. destruct (is_excluded p); [contradiction|].
  destruct (get_file_commit_details _) as [[|c cs]|]; try contradiction.
  intros [<-|[]]. reflexivity.
Qed.

Lemma records_in_name_order (repo : Repo) (files : list string) :
  StronglySorted le files ->
  StronglySorted (fun a b => le a.(url) b.(url))
                 (flat_map (records_of_page repo) files).
Proof.
  induction 1 as [|p files Hs IH Hp]; cbn [flat_map]; [constructor|].
  assert (Hall : Forall (fun b => le p b.(url))
                        (flat_map (records_of_page repo) files)).
  { rewrite Forall_forall in *. intros b Hb. apply in_flat_map in Hb.
    destruct Hb as (q & Hq & Hb). apply records_of_page_url in Hb.
    rewrite Hb. now apply Hp. }
  assert (Hone : records_of_page repo p = []
                 \/ exists t, records_of_page repo p = [t] /\ t.(url) = p).
  { unfold records_of_page. destruct (is_excluded p); auto.
    destruct (get_file_commit_details _) as [[|c cs]|]; auto.
    right. eexists. split; reflexivity. }
  destruct Hone as [->|(t & -> & Ht)]; simpl; auto.
  constructor; auto. now rewrite Ht.
Qed.

(** X23.  In the tool list that the builder writes, the records with the
    same creation date stand in the order of the names of their pages. *)
Theorem ties_in_name_order
    (str_hash : string -> Z) (repo : Repo) (st : acc) (d : string) :
  gathered str_hash repo = Ok st ->
  StronglySorted (fun a b => le a.(url) b.(url))
                 (filter (fun t => String.eqb t.(created) d) st.(tools)).
Proof.
  unfold gathered. intros Hg.
  destruct (visit_all _ _ _ _) as [st1|e] eqn:Hv; simpl in Hg; [|discriminate].
  inversion Hg. cbn [tools].
  rewrite SortFacts.sorted_stable, (visit_all_tools_exact _ _ _ _ Hv).
  cbn [tools app]. apply ListFacts.StronglySorted_filter.
  apply records_in_name_order.
  apply (SortFacts.sorted_sorted (fun n : string => n) false).
Qed.

(** Two pages with the same creation date, which the glob yields in the
    other order, and a later page between them. *)
Lemma ties_in_name_order_witness :
  exists st,
    gathered Examples.hash_one Examples.twins_repo = Ok st
    /\ map url st.(tools) = ["late.html"; "Alpha.html"; "zeta.html"]
    /\ map url
         (filter (fun t => String.eqb t.(created) "2024-02-02T10:00:00+00:00")
                 st.(tools))
       = ["Alpha.html"; "zeta.html"]
    /\ StronglySorted (fun a b => le a.(url) b.(url))
         (filter (fun t => String.eqb t.(created) "2024-02-02T10:00:00+00:00")
                 st.(tools)).
Proof.
  destruct (gathered Examples.hash_one Examples.twins_repo) as [st|e] eqn:E;
    [|vm_compute in E; discriminate].
  exists st. split; [reflexivity|].
  split; [vm_compute in E; inversion E; reflexivity|].
  split; [vm_compute in E; inversion E; reflexivity|].
  exact (@ties_in_name_order _ _ _ _ E).
Defined.

Lemma lstrip_space (s : string) :
  all_chars py_isspace s = true -> lstrip s = EmptyString.
Proof.
  induction s as [|c s IH]; simpl; auto.
  intros H. apply andb_prop in H. destruct H as [Hc Hs]. now rewrite Hc, IH.
Qed.

(** X24.  A query that ends well and writes nothing but white space, as the
    query of a path that the history does not know, gives the empty change
    sequence; the page then is in neither output of the builder. *)
Theorem silent_query_no_changes
    (str_hash : string -> Z) (repo : Repo) (p out : string) :
  repo.(git_log) p = Exited 0 out ->
  all_chars py_isspace out = true ->
  get_file_commit_details (repo.(git_log) p) = Ok []
  /\ forall st, gathered str_hash repo = Ok st -> excluded st p.
Proof.
  intros Hp Hout.
  assert (Hd : get_file_commit_details (repo.(git_log) p) = Ok []).
  { rewrite Hp. unfold get_file_commit_details, subprocess_run. simpl.
    unfold strip.
    now rewrite (lstrip_space _ (ParseFacts.translate_newlines_space _ Hout)). }
  split; auto. intros st Hg.
  eapply GatherFacts.no_changes_excluded; eauto.
Qed.

Lemma silent_query_no_changes_witness :
  exists st,
    gathered Examples.hash_one Examples.widget_repo = Ok st
    /\ get_file_commit_details
         (Examples.widget_repo.(git_log) "ghost.html") = Ok []
    /\ excluded st "ghost.html".
Proof.
  destruct (gathered Examples.hash_one Examples.widget_repo) as [st|e] eqn:E;
    [|vm_compute in E; discriminate].
  exists st. split; [reflexivity|].
  destruct (@silent_query_no_changes Examples.hash_one Examples.widget_repo
              "ghost.html" EmptyString eq_refl eq_refl) as [H1 H2].
  split; [exact H1|exact (H2 st E)].
Defined.




End EdgeFacts.
